(** * SAPT(DFT) driver: a shallow embedding of [run_sapt_dft]

    Source: psi4/driver/procrouting/sapt/sapt_proc.py.

    The driver is a straight-line orchestration of calls into the psi4 core
    (option store, variable store, PSIO namespaces) and into external
    collaborators (the SCF engine and the SAPT term evaluators).  It is
    modelled as a program in a state-and-exception monad over a [World]
    that holds the process-wide stores and a trace of the calls made. *)

From Stdlib Require Import Ascii String ZArith List Bool DecimalString.
From Stdlib Require Import Floats.PrimFloat.
From stdpp Require Import base option list gmap strings.

Local Open Scope string_scope.
Local Open Scope list_scope.

(** ** Python values held by the option store *)

Inductive Value :=
| VStr (s : string)
| VDouble (x : float)
| VBool (b : bool)
| VInt (n : Z).

(** [v == s] for a string literal [s]. *)
Definition py_eq_str (v : Value) (s : string) : bool :=
  match v with
  | VStr t => String.eqb t s
  | _ => false
  end.

(** [v == 0.0]: IEEE comparison on floats, numeric comparison on ints and
    bools, [False] on strings. *)
Definition py_eq_zero (v : Value) : bool :=
  match v with
  | VStr _ => false
  | VDouble x => PrimFloat.eqb x 0%float
  | VBool b => negb b
  | VInt n => Z.eqb n 0
  end.

(** Truth value of [v] in a condition ([if v:]). *)
Definition py_truthy (v : Value) : bool :=
  match v with
  | VStr s => negb (String.eqb s "")
  | VDouble x => negb (PrimFloat.eqb x 0%float)
  | VBool b => b
  | VInt n => negb (Z.eqb n 0)
  end.

(** ** Molecules, wavefunctions and result mappings *)

Record Molecule := mkMolecule {
  mol_name : string;
  mol_point_group : string;
  mol_fix_orientation : bool;
  mol_fix_com : bool;
  mol_nfragments : nat;
  mol_real : list nat;
  mol_ghost : list nat;
}.

Definition schoenflies_symbol (m : Molecule) : string := mol_point_group m.
Definition clone (m : Molecule) : Molecule := m.
Definition reset_point_group (pg : string) (m : Molecule) : Molecule :=
  mkMolecule (mol_name m) pg (mol_fix_orientation m) (mol_fix_com m)
             (mol_nfragments m) (mol_real m) (mol_ghost m).
Definition fix_orientation (b : bool) (m : Molecule) : Molecule :=
  mkMolecule (mol_name m) (mol_point_group m) b (mol_fix_com m)
             (mol_nfragments m) (mol_real m) (mol_ghost m).
Definition fix_com (b : bool) (m : Molecule) : Molecule :=
  mkMolecule (mol_name m) (mol_point_group m) (mol_fix_orientation m) b
             (mol_nfragments m) (mol_real m) (mol_ghost m).
Definition update_geometry (m : Molecule) : Molecule := m.
Definition nfragments (m : Molecule) : nat := mol_nfragments m.
Definition extract_subsets (real ghost : nat) (m : Molecule) : Molecule :=
  mkMolecule (mol_name m) (mol_point_group m) (mol_fix_orientation m)
             (mol_fix_com m) (mol_nfragments m) [real] [ghost].
Definition set_name (n : string) (m : Molecule) : Molecule :=
  mkMolecule n (mol_point_group m) (mol_fix_orientation m) (mol_fix_com m)
             (mol_nfragments m) (mol_real m) (mol_ghost m).

Definition JK := nat.
Definition BasisSet := string.

Record Wavefunction := mkWavefunction {
  wfn_molecule : Molecule;
  wfn_basisset : BasisSet;
  wfn_jk : option JK;
  wfn_energy : float;
}.

(** A Python [dict] from labels to numbers, in insertion order. *)
Definition Dict := list (string * float).

Fixpoint dict_get (k : string) (d : Dict) : option float :=
  match d with
  | [] => None
  | (k', v) :: d' => if String.eqb k' k then Some v else dict_get k d'
  end.

(** [d[k] = v]: an existing key keeps its position, a new key goes last. *)
Fixpoint dict_set (k : string) (v : float) (d : Dict) : Dict :=
  match d with
  | [] => [(k, v)]
  | (k', v') :: d' =>
      if String.eqb k' k then (k', v) :: d' else (k', v') :: dict_set k v d'
  end.

(** [d.update(e)]. *)
Definition dict_update (d e : Dict) : Dict :=
  fold_left (fun acc kv => dict_set (fst kv) (snd kv) acc) e d.

Definition dict_keys (d : Dict) : list string := map fst d.

Definition Cache := list (string * float).

(** Keyword arguments of the driver: the two keys it inspects and the names
    of the remaining ones, which are passed through to [scf_helper]. *)
Record Kwargs := mkKwargs {
  kw_ref_wfn : option Wavefunction;
  kw_molecule : option Molecule;
  kw_other : list string;
}.

(** ** The option store of the core

    Modelled from the spec: the option store behind [core.get_option],
    [core.set_local_option], [core.set_global_option] and
    [core.has_option_changed] (C++, not under src/).  An option that was
    set is present in its map; a module-local value shadows the global
    one, which shadows the declared default. *)
Record Options := mkOptions {
  globals : gmap string Value;
  locals : gmap (string * string) Value;
  defaults : string -> Value;
}.

Definition opt_get (o : Options) (module key : string) : Value :=
  match locals o !! (module, key) with
  | Some v => v
  | None =>
      match globals o !! key with
      | Some v => v
      | None => defaults o key
      end
  end.

Definition opt_get_global (o : Options) (key : string) : Value :=
  match globals o !! key with
  | Some v => v
  | None => defaults o key
  end.

Definition opt_changed (o : Options) (module key : string) : bool :=
  match locals o !! (module, key), globals o !! key with
  | None, None => false
  | _, _ => true
  end.

Definition opt_set_local (module key : string) (v : Value) (o : Options)
  : Options :=
  mkOptions (globals o) (<[(module, key) := v]> (locals o)) (defaults o).

Definition opt_set_global (key : string) (v : Value) (o : Options)
  : Options :=
  mkOptions (<[key := v]> (globals o)) (locals o) (defaults o).

(** ** Exceptions and the trace of calls *)

Inductive Exn :=
| ValidationError (msg : string)
| TypeError (msg : string)
| OverflowError (msg : string)
| KeyError (key : string)
| ConvergenceError (msg : string)
| EngineError (msg : string).

Inductive Result (A : Type) :=
| Ok (a : A)
| Raise (e : Exn).
Arguments Ok {A} a.
Arguments Raise {A} e.

Inductive Event :=
| EvTstart
| EvTstop
| EvPrepareOptions (module : string)
| EvSetLocalOption (module key : string) (v : Value)
| EvSetGlobalOption (key : string) (v : Value)
| EvSetDefaultNamespace (ns : string)
| EvChangeFileNamespace (fileno : Z) (old new : string)
| EvScfHelper (mol : Molecule) (banner : string) (out : option Wavefunction)
| EvWavefunctionBuild (mol : Molecule) (basis : Value)
                      (out : option Wavefunction)
| EvBuildCache (wfn_A wfn_B : Wavefunction) (out : option Cache)
| EvElectrostatics (cache : Cache) (out : option Dict)
| EvExchange (cache : Cache) (out : option Dict)
| EvInduction (cache : Cache) (maxiter conv : Value) (out : option Dict)
| EvHfSummary (hf_data : Dict) (name : string) (delta_hf : float)
              (out : option string)
| EvDftSummary (data : Dict) (name : string) (out : option string)
| EvBasisBuild (mol : Molecule) (out : option BasisSet)
| EvFddsDispersion (cache : Cache) (out : option Dict)
| EvMp2FisaptDispersion (wfn_A : Wavefunction) (out : option Dict)
| EvMp2SaptDispersion (dimer_wfn wfn_A wfn_B : Wavefunction)
                      (out : option Dict)
| EvGetVariable (key : string) (v : float)
| EvSetVariable (key : string) (v : float).

(** ** The process-wide state *)

Record World := mkWorld {
  options : Options;
  variables : gmap string float;
  active_molecule : Molecule;
  default_namespace : string;
  trace : list Event;
}.

Definition with_options (o : Options) (w : World) : World :=
  mkWorld o (variables w) (active_molecule w) (default_namespace w) (trace w).
Definition with_variables (vs : gmap string float) (w : World) : World :=
  mkWorld (options w) vs (active_molecule w) (default_namespace w) (trace w).
Definition with_namespace (ns : string) (w : World) : World :=
  mkWorld (options w) (variables w) (active_molecule w) ns (trace w).
Definition log (e : Event) (w : World) : World :=
  mkWorld (options w) (variables w) (active_molecule w) (default_namespace w)
          (trace w ++ [e]).

(** ** The monad: state passing with exceptions

    A raised exception keeps the world as it was when it was raised: the
    driver has no handler, so that is what its caller observes. *)
Definition M (A : Type) : Type := World -> Result A * World.

Definition ret {A} (a : A) : M A := fun w => (Ok a, w).
Definition raise {A} (e : Exn) : M A := fun w => (Raise e, w).
Definition bind {A B} (m : M A) (k : A -> M B) : M B :=
  fun w =>
    match m w with
    | (Ok a, w') => k a w'
    | (Raise e, w') => (Raise e, w')
    end.

Notation "x <- m ;; k" := (bind m (fun x => k))
  (at level 20, m at level 99, k at level 200, format "x  <-  m  ;;  '/' k").
Notation "m ;; k" := (bind m (fun _ => k))
  (at level 100, k at level 200, right associativity, format "m  ;;  '/' k").

Definition when (b : bool) (m : M unit) : M unit := if b then m else ret tt.

(** ** The core API used by the driver

    Modelled from the spec: the bindings of [psi4.core] the driver calls
    (not under src/).  Each one reads or writes its store; writes and
    reads of the variable store are appended to the trace.  Printing
    ([core.print_out]) and the timers have no effect on any store. *)
Module core.

Definition tstart : M unit := fun w => (Ok tt, log EvTstart w).
Definition tstop : M unit := fun w => (Ok tt, log EvTstop w).

Definition has_option_changed (module key : string) : M bool :=
  fun w => (Ok (opt_changed (options w) module key), w).

Definition get_option (module key : string) : M Value :=
  fun w => (Ok (opt_get (options w) module key), w).

Definition get_global_option (key : string) : M Value :=
  fun w => (Ok (opt_get_global (options w) key), w).

Definition set_local_option (module key : string) (v : Value) : M unit :=
  fun w =>
    (Ok tt,
     log (EvSetLocalOption module key v)
         (with_options (opt_set_local module key v (options w)) w)).

Definition set_global_option (key : string) (v : Value) : M unit :=
  fun w =>
    (Ok tt,
     log (EvSetGlobalOption key v)
         (with_options (opt_set_global key v (options w)) w)).

Definition prepare_options_for_module (module : string) : M unit :=
  fun w => (Ok tt, log (EvPrepareOptions module) w).

Definition get_active_molecule : M Molecule :=
  fun w => (Ok (active_molecule w), w).

(** A variable that was never set reads as [0.0].  The value read goes
    to the trace: collaborators write the variable store, so a read is
    the driver's only observation of it. *)
Definition get_variable (key : string) : M float :=
  fun w =>
    let x := match variables w !! key with Some x => x | None => 0%float end in
    (Ok x, log (EvGetVariable key x) w).

Definition set_variable (key : string) (v : float) : M unit :=
  fun w =>
    (Ok tt,
     log (EvSetVariable key v)
         (with_variables (<[key := v]> (variables w)) w)).

Module IO.
Definition set_default_namespace (ns : string) : M unit :=
  fun w => (Ok tt, log (EvSetDefaultNamespace ns) (with_namespace ns w)).

Definition change_file_namespace (fileno : Z) (old new : string)
  : M unit :=
  fun w => (Ok tt, log (EvChangeFileNamespace fileno old new) w).
End IO.

End core.

(** ** The configuration snapshot

    Modelled from the spec: [p4util.OptionsState] (not under src/).
    [open(keys)] records, for every (group, key) pair, the global and the
    module-local entry of the store; [restore] puts every recorded entry
    back, removing an entry that was absent. *)
Module p4util.

Record OptionState := mkOptionState {
  os_module : string;
  os_option : string;
  os_global : option Value;
  os_local : option Value;
}.

Definition OptionsState (keys : list (string * string))
  : M (list OptionState) :=
  fun w =>
    (Ok (map (fun mk =>
                mkOptionState (fst mk) (snd mk)
                              (globals (options w) !! snd mk)
                              (locals (options w) !! mk))
             keys),
     w).

Definition restore_one (s : OptionState) (o : Options) : Options :=
  mkOptions
    (match os_global s with
     | Some v => <[os_option s := v]> (globals o)
     | None => delete (os_option s) (globals o)
     end)
    (match os_local s with
     | Some v => <[(os_module s, os_option s) := v]> (locals o)
     | None => delete (os_module s, os_option s) (locals o)
     end)
    (defaults o).

Definition restore (stash : list OptionState) (o : Options) : Options :=
  fold_left (fun acc s => restore_one s acc) stash o.

End p4util.

(** ** External collaborators

    The SCF engine, the term evaluators and the summary printers are not
    part of the driver.  Each is a function of its arguments and of the
    world it is called in; it fails with an exception or returns a value
    together with the variable store it leaves behind (e.g. the SCF
    engine sets ["CURRENT ENERGY"]).  Collaborators do not write the
    option store, the namespaces or the trace. *)
Definition Ext (A : Type) : Type := World -> Result (A * gmap string float).

Record Engine := mkEngine {
  scf_helper : Molecule -> string -> Kwargs -> Ext Wavefunction;
  Wavefunction_build : Molecule -> Value -> Ext Wavefunction;
  build_sapt_jk_cache :
    Wavefunction -> Wavefunction -> option JK -> Ext Cache;
  electrostatics : Cache -> Ext Dict;
  exchange : Cache -> option JK -> Ext Dict;
  induction : Cache -> option JK -> Value -> Value -> Ext Dict;
  print_sapt_hf_summary : Dict -> string -> float -> Ext string;
  print_sapt_dft_summary : Dict -> string -> Ext string;
  BasisSet_build : Molecule -> string -> Value -> string -> Value
                   -> Ext BasisSet;
  df_fdds_dispersion : BasisSet -> BasisSet -> Cache -> Ext Dict;
  df_mp2_fisapt_dispersion :
    Wavefunction -> BasisSet -> BasisSet -> Cache -> Ext Dict;
  df_mp2_sapt_dispersion :
    Wavefunction -> Wavefunction -> Wavefunction -> BasisSet -> BasisSet
    -> Cache -> Ext Dict;
}.

(** A call to a collaborator: the call and its outcome go to the trace. *)
Definition call {A} (f : Ext A) (ev : option A -> Event) : M A :=
  fun w =>
    match f w with
    | Ok (a, vs) => (Ok a, log (ev (Some a)) (with_variables vs w))
    | Raise e => (Raise e, log (ev None) w)
    end.

(** [isinstance(v, str)] *)
Definition is_str (v : Value) : bool :=
  match v with
  | VStr _ => true
  | _ => false
  end.

(** [float(n)] for an int [n] rounds to the nearest double, ties to
    even; it overflows from [2^1024 - 2^970] on, the midpoint between
    the largest double and [2^1024]. *)
Definition float_overflow (n : Z) : bool :=
  (2 ^ 1024 - 2 ^ 970 <=? Z.abs n)%Z.

(** The exception ["%12.6f" % v] raises, if any: a string operand is a
    [TypeError], an int out of the range of a double an [OverflowError]
    (with the texts of CPython 3); floats (infinities and NaN included)
    and bools are formatted. *)
Definition fmt_f_error (v : Value) : option Exn :=
  match v with
  | VStr _ => Some (TypeError "must be real number, not str")
  | VInt n =>
      if float_overflow n
      then Some (OverflowError "int too large to convert to float")
      else None
  | VDouble _ | VBool _ => None
  end.

(** ["%12.6f" % v] *)
Definition fmt_f (v : Value) : M unit :=
  match fmt_f_error v with
  | Some e => raise e
  | None => ret tt
  end.

(** [d[k]] read: a missing key raises [KeyError]. *)
Definition getitem (d : Dict) (k : string) : M float :=
  match dict_get k d with
  | Some v => ret v
  | None => raise (KeyError k)
  end.

(** [**kwargs] next to the explicit keywords [molecule=] and [banner=]:
    a key given twice is a [TypeError] raised at the call, before the
    callee runs. *)
Definition kwargs_clash (kwargs : Kwargs) : bool :=
  match kw_molecule kwargs with
  | Some _ => true
  | None => existsb (String.eqb "banner") (kw_other kwargs)
  end.

(** [kwargs.pop('molecule', dflt)]. *)
Definition kwargs_pop_molecule (kwargs : Kwargs) (dflt : Molecule)
  : Molecule * Kwargs :=
  match kw_molecule kwargs with
  | Some m => (m, mkKwargs (kw_ref_wfn kwargs) None (kw_other kwargs))
  | None => (dflt, kwargs)
  end.

(** The messages of the three validation errors (lines 110, 113 and
    117). *)
Definition dquote : string := String "034"%char EmptyString.

Definition msg_grac_shift : string :=
  "SAPT(DFT): must set both " ++ dquote ++ "SAPT_DFT_GRAC_SHIFT_A" ++ dquote
  ++ " and " ++ dquote ++ "B" ++ dquote ++ ".".
Definition msg_reference : string :=
  "SAPT(DFT) currently only supports restricted references.".

(** [str(n)] for a non-negative int. *)
Definition str_of_nat (n : nat) : string :=
  NilEmpty.string_of_uint (Nat.to_uint n).

Definition msg_nfragments (nfrag : nat) : string :=
  "SAPT requires active molecule to have 2 fragments, not "
  ++ str_of_nat nfrag ++ ".".

(** ** The driver

    [run_sapt_dft] follows sapt_proc.py line by line; the blocks of the
    function body are named after the banners they print.  The banner
    text itself is not modelled, only the formatting that can raise. *)
Section Driver.

Variable eng : Engine.

(** [scf_helper("SCF", molecule=mol, banner=banner, **kwargs)] *)
Definition call_scf_helper (mol : Molecule) (banner : string)
           (kwargs : Kwargs) : M Wavefunction :=
  if kwargs_clash kwargs
  then raise (TypeError "scf_helper() got multiple values for keyword argument")
  else call (scf_helper eng mol banner kwargs) (EvScfHelper mol banner).

(** [if (core.get_option('SCF', 'SCF_TYPE') == 'DF'): body] *)
Definition when_df (body : M unit) : M unit :=
  scf_type <- core.get_option "SCF" "SCF_TYPE" ;;
  when (py_eq_str scf_type "DF") body.

(** [for k, v in data.items(): core.set_variable(k, v)] (lines 293-294) *)
Fixpoint copy_back (items : Dict) : M unit :=
  match items with
  | [] => ret tt
  | (k, v) :: rest => core.set_variable k v ;; copy_back rest
  end.

(** Lines 59-76: the molecule of interest, copied and fixed in C1. *)
Definition get_sapt_dimer (kwargs : Kwargs) : M (Molecule * Kwargs) :=
  picked <-
    match kw_ref_wfn kwargs with
    | None =>
        active <- core.get_active_molecule ;;
        ret (kwargs_pop_molecule kwargs active)
    | Some ref_wfn => ret (wfn_molecule ref_wfn, kwargs)
    end ;;
  let sapt_dimer := clone (fst picked) in
  let sapt_dimer := reset_point_group "c1" sapt_dimer in
  let sapt_dimer := fix_orientation true sapt_dimer in
  let sapt_dimer := fix_com true sapt_dimer in
  let sapt_dimer := update_geometry sapt_dimer in
  ret (sapt_dimer, snd picked).

(** Lines 109-118: the three validation gates. *)
Definition validate (sapt_dimer : Molecule)
           (sapt_dft_functional mon_a_shift mon_b_shift : Value)
  : M unit :=
  (if negb (py_eq_str sapt_dft_functional "HF")
      && (py_eq_zero mon_a_shift || py_eq_zero mon_b_shift)
   then raise (ValidationError msg_grac_shift)
   else ret tt) ;;
  reference <- core.get_option "SCF" "REFERENCE" ;;
  (if negb (py_eq_str reference "RHF")
   then raise (ValidationError msg_reference)
   else ret tt) ;;
  let nfrag := nfragments sapt_dimer in
  if negb (Nat.eqb nfrag 2)
  then raise (ValidationError (msg_nfragments nfrag))
  else ret tt.

(** Lines 137-196: the body of [if do_delta_hf:]. *)
Definition delta_hf_segment (sapt_dimer monomerA monomerB : Molecule)
           (kwargs : Kwargs) (data : Dict) : M (Wavefunction * Dict) :=
  when_df (core.set_global_option "DF_INTS_IO" (VStr "SAVE")) ;;
  let hf_data : Dict := [] in
  hf_wfn_dimer <-
    call_scf_helper sapt_dimer "SAPT(DFT): delta HF Dimer" kwargs ;;
  e_dimer <- core.get_variable "CURRENT ENERGY" ;;
  let hf_data := dict_set "HF DIMER" e_dimer hf_data in
  when_df (core.IO.change_file_namespace 97 "dimer" "monomerA") ;;
  hf_wfn_A <-
    call_scf_helper monomerA "SAPT(DFT): delta HF Monomer A" kwargs ;;
  e_A <- core.get_variable "CURRENT ENERGY" ;;
  let hf_data := dict_set "HF MONOMER A" e_A hf_data in
  when_df (core.IO.change_file_namespace 97 "monomerA" "monomerB") ;;
  hf_wfn_B <-
    call_scf_helper monomerB "SAPT(DFT): delta HF Monomer B" kwargs ;;
  e_B <- core.get_variable "CURRENT ENERGY" ;;
  let hf_data := dict_set "HF MONOMER B" e_B hf_data in
  when_df (core.IO.change_file_namespace 97 "monomerB" "dimer") ;;
  let sapt_jk := wfn_jk hf_wfn_B in
  hf_cache <-
    call (build_sapt_jk_cache eng hf_wfn_A hf_wfn_B sapt_jk)
         (EvBuildCache hf_wfn_A hf_wfn_B) ;;
  elst <- call (electrostatics eng hf_cache) (EvElectrostatics hf_cache) ;;
  let hf_data := dict_update hf_data elst in
  exch <- call (exchange eng hf_cache sapt_jk) (EvExchange hf_cache) ;;
  let hf_data := dict_update hf_data exch in
  maxiter <- core.get_option "SAPT" "MAXITER" ;;
  conv <- core.get_option "SAPT" "D_CONVERGENCE" ;;
  ind <-
    call (induction eng hf_cache sapt_jk maxiter conv)
         (EvInduction hf_cache maxiter conv) ;;
  let hf_data := dict_update hf_data ind in
  hf_dimer <- getitem hf_data "HF DIMER" ;;
  hf_monomer_a <- getitem hf_data "HF MONOMER A" ;;
  hf_monomer_b <- getitem hf_data "HF MONOMER B" ;;
  let dhf_value := (hf_dimer - hf_monomer_a - hf_monomer_b)%float in
  _ <-
    call (print_sapt_hf_summary eng hf_data "SAPT(HF)" dhf_value)
         (EvHfSummary hf_data "SAPT(HF)" dhf_value) ;;
  delta <- core.get_variable "SAPT(DFT) Delta HF" ;;
  ret (hf_wfn_dimer, dict_set "Delta HF Correction" delta data).

(** Lines 203-232: the two DFT monomer calculations. *)
Definition dft_monomers (monomerA monomerB : Molecule) (kwargs : Kwargs)
           (mon_a_shift mon_b_shift : Value) (data : Dict)
  : M (Wavefunction * Wavefunction * Dict) :=
  functional <- core.get_option "SAPT" "SAPT_DFT_FUNCTIONAL" ;;
  core.set_global_option "DFT_FUNCTIONAL" functional ;;
  core.set_local_option "SCF" "REFERENCE" (VStr "RKS") ;;
  when_df (core.IO.change_file_namespace 97 "dimer" "monomerA") ;;
  when (py_truthy mon_a_shift)
       (core.set_global_option "DFT_GRAC_SHIFT" mon_a_shift) ;;
  core.IO.set_default_namespace "monomerA" ;;
  wfn_A <- call_scf_helper monomerA "SAPT(DFT): DFT Monomer A" kwargs ;;
  e_A <- core.get_variable "CURRENT ENERGY" ;;
  let data := dict_set "DFT MONOMERA" e_A data in
  core.set_global_option "DFT_GRAC_SHIFT" (VDouble 0) ;;
  when_df (core.IO.change_file_namespace 97 "monomerA" "monomerB") ;;
  when (py_truthy mon_b_shift)
       (core.set_global_option "DFT_GRAC_SHIFT" mon_b_shift) ;;
  core.IO.set_default_namespace "monomerB" ;;
  wfn_B <- call_scf_helper monomerB "SAPT(DFT): DFT Monomer B" kwargs ;;
  e_B <- core.get_variable "CURRENT ENERGY" ;;
  let data := dict_set "DFT MONOMERB" e_B data in
  core.set_global_option "DFT_GRAC_SHIFT" (VDouble 0) ;;
  ret (wfn_A, wfn_B, data).

(** Lines 245-294: the interaction terms and the publication of the
    report. *)
Definition interaction_segment (sapt_dimer : Molecule)
           (dimer_wfn wfn_A wfn_B : Wavefunction)
           (mon_a_shift mon_b_shift : Value) (data : Dict) : M unit :=
  fmt_f mon_a_shift ;;
  fmt_f mon_b_shift ;;
  let sapt_jk := wfn_jk wfn_B in
  cache <-
    call (build_sapt_jk_cache eng wfn_A wfn_B sapt_jk)
         (EvBuildCache wfn_A wfn_B) ;;
  elst <- call (electrostatics eng cache) (EvElectrostatics cache) ;;
  let data := dict_update data elst in
  exch <- call (exchange eng cache sapt_jk) (EvExchange cache) ;;
  let data := dict_update data exch in
  maxiter <- core.get_option "SAPT" "MAXITER" ;;
  conv <- core.get_option "SAPT" "D_CONVERGENCE" ;;
  ind <-
    call (induction eng cache sapt_jk maxiter conv)
         (EvInduction cache maxiter conv) ;;
  let data := dict_update data ind in
  let primary_basis := wfn_basisset wfn_A in
  df_basis_mp2 <- core.get_option "DFMP2" "DF_BASIS_MP2" ;;
  basis <- core.get_global_option "BASIS" ;;
  aux_basis <-
    call (BasisSet_build eng sapt_dimer "DF_BASIS_MP2" df_basis_mp2
                         "RIFIT" basis)
         (EvBasisBuild sapt_dimer) ;;
  fdds_disp <-
    call (df_fdds_dispersion eng primary_basis aux_basis cache)
         (EvFddsDispersion cache) ;;
  let data := dict_update data fdds_disp in
  disp_alg <- core.get_option "SAPT" "SAPT_DFT_MP2_DISP_ALG" ;;
  mp2_disp <-
    (if py_eq_str disp_alg "FISAPT"
     then call (df_mp2_fisapt_dispersion eng wfn_A primary_basis
                                         aux_basis cache)
               (EvMp2FisaptDispersion wfn_A)
     else call (df_mp2_sapt_dispersion eng dimer_wfn wfn_A wfn_B
                                       primary_basis aux_basis cache)
               (EvMp2SaptDispersion dimer_wfn wfn_A wfn_B)) ;;
  let data := dict_update data mp2_disp in
  _ <-
    call (print_sapt_dft_summary eng data "SAPT(DFT)")
         (EvDftSummary data "SAPT(DFT)") ;;
  copy_back data.

Definition run_sapt_dft (name : string) (kwargs : Kwargs)
  : M Wavefunction :=
  optstash <-
    p4util.OptionsState [("SCF", "SCF_TYPE"); ("SCF", "REFERENCE");
                         ("SCF", "DFT_FUNCTIONAL");
                         ("SCF", "DFT_GRAC_SHIFT"); ("SCF", "SAVE_JK")] ;;
  core.tstart ;;
  (* Alter default algorithm *)
  changed <- core.has_option_changed "SCF" "SCF_TYPE" ;;
  when (negb changed)
       (core.set_local_option "SCF" "SCF_TYPE" (VStr "DF")) ;;
  core.prepare_options_for_module "SAPT" ;;
  (* Get the molecule of interest *)
  picked <- get_sapt_dimer kwargs ;;
  let sapt_dimer := fst picked in
  let kwargs := snd picked in
  (* Grab overall settings *)
  mon_a_shift <- core.get_option "SAPT" "SAPT_DFT_GRAC_SHIFT_A" ;;
  mon_b_shift <- core.get_option "SAPT" "SAPT_DFT_GRAC_SHIFT_B" ;;
  do_delta_hf <- core.get_option "SAPT" "SAPT_DFT_DO_DHF" ;;
  sapt_dft_functional <- core.get_option "SAPT" "SAPT_DFT_FUNCTIONAL" ;;
  fmt_f mon_a_shift ;;
  fmt_f mon_b_shift ;;
  validate sapt_dimer sapt_dft_functional mon_a_shift mon_b_shift ;;
  let monomerA := set_name "monomerA" (extract_subsets 1 2 sapt_dimer) in
  let monomerB := set_name "monomerB" (extract_subsets 2 1 sapt_dimer) in
  core.IO.set_default_namespace "dimer" ;;
  let data : Dict := [] in
  core.set_global_option "SAVE_JK" (VBool true) ;;
  when_df (core.set_global_option "DF_INTS_IO" (VStr "SAVE")) ;;
  (* Compute dimer wavefunction *)
  hf <-
    (if py_truthy do_delta_hf
     then r <- delta_hf_segment sapt_dimer monomerA monomerB kwargs data ;;
          ret (Some (fst r), snd r)
     else ret (None, data)) ;;
  let hf_wfn_dimer : option Wavefunction := fst hf in
  let data := snd hf in
  dimer_wfn <-
    match hf_wfn_dimer with
    | None =>
        basis <- core.get_global_option "BASIS" ;;
        call (Wavefunction_build eng sapt_dimer basis)
             (EvWavefunctionBuild sapt_dimer basis)
    | Some w => ret w
    end ;;
  r <- dft_monomers monomerA monomerB kwargs mon_a_shift mon_b_shift data ;;
  let wfn_A := fst (fst r) in
  let wfn_B := snd (fst r) in
  let data := snd r in
  interaction_segment sapt_dimer dimer_wfn wfn_A wfn_B
                      mon_a_shift mon_b_shift data ;;
  core.tstop ;;
  ret dimer_wfn.

End Driver.

(** ** A concrete engine and concrete inputs

    A small deterministic stand-in for the collaborators, used to run the
    driver on explicit inputs.  The SCF stand-in returns the energies
    10.0 / 4.0 / 3.0 for dimer / monomer A / monomer B under a restricted
    HF reference and 9.5 / 4.5 / 3.25 under RKS, and can be told to fail at
    one banner. *)
Module Demo.

Definition is_monomer (frag : nat) (m : Molecule) : bool :=
  match mol_real m with
  | [f] => Nat.eqb f frag
  | _ => false
  end.

Definition scf_energy (m : Molecule) (w : World) : float :=
  let rks := py_eq_str (opt_get (options w) "SCF" "REFERENCE") "RKS" in
  if is_monomer 1 m then (if rks then 4.5 else 4.0)%float
  else if is_monomer 2 m then (if rks then 3.25 else 3.0)%float
  else (if rks then 9.5 else 10.0)%float.

Definition scf (fail_at : option string) (m : Molecule) (banner : string)
           (kwargs : Kwargs) : Ext Wavefunction :=
  fun w =>
    match fail_at with
    | Some b =>
        if String.eqb b banner
        then Raise (EngineError "SCF did not converge")
        else
          let e := scf_energy m w in
          Ok (mkWavefunction m "cc-pvdz" (Some 1) e,
              <["CURRENT ENERGY" := e]> (variables w))
    | None =>
        let e := scf_energy m w in
        Ok (mkWavefunction m "cc-pvdz" (Some 1) e,
            <["CURRENT ENERGY" := e]> (variables w))
    end.

Definition pure {A} (a : A) : Ext A := fun w => Ok (a, variables w).

Definition term (c : Cache) : float :=
  match dict_get "EA" c, dict_get "EB" c with
  | Some a, Some b => (a - b)%float
  | _, _ => 0%float
  end.

Definition hf_summary (hf_data : Dict) (name : string) (delta_hf : float)
  : Ext string :=
  fun w =>
    let elst :=
      match dict_get "Elst10,r" hf_data with
      | Some x => x
      | None => 0%float
      end in
    Ok ("", <["SAPT(DFT) Delta HF" := (delta_hf - elst)%float]> (variables w)).

Definition engine (fail_at : option string) : Engine :=
  mkEngine
    (scf fail_at)
    (fun m basis => pure (mkWavefunction m "cc-pvdz" None 0%float))
    (fun wA wB jk => pure [("EA", wfn_energy wA); ("EB", wfn_energy wB)])
    (fun c => pure [("Elst10,r", term c)])
    (fun c jk => pure [("Exch10", 0.25%float)])
    (fun c jk maxiter conv => pure [("Ind20,r", 0.125%float)])
    hf_summary
    (fun data name => pure "")
    (fun m key target fitrole basis => pure "cc-pvdz-ri")
    (fun pb ab c => pure [("Disp20", 0.5%float)])
    (fun wA pb ab c => pure [("Disp20 (FISAPT)", 0.75%float)])
    (fun wD wA wB pb ab c => pure [("Disp20 (MP2)", 0.625%float)]).

Definition option_defaults (key : string) : Value :=
  if String.eqb key "SCF_TYPE" then VStr "PK"
  else if String.eqb key "REFERENCE" then VStr "RHF"
  else if String.eqb key "SAPT_DFT_GRAC_SHIFT_A" then VDouble 0
  else if String.eqb key "SAPT_DFT_GRAC_SHIFT_B" then VDouble 0
  else if String.eqb key "SAPT_DFT_DO_DHF" then VBool true
  else if String.eqb key "SAPT_DFT_FUNCTIONAL" then VStr "PBE0"
  else if String.eqb key "SAPT_DFT_MP2_DISP_ALG" then VStr "SAPT"
  else if String.eqb key "MAXITER" then VInt 50
  else if String.eqb key "D_CONVERGENCE" then VDouble 0x1p-27
  else if String.eqb key "DFT_GRAC_SHIFT" then VDouble 0
  else if String.eqb key "SAVE_JK" then VBool false
  else if String.eqb key "DF_INTS_IO" then VStr "NONE"
  else VStr "".

Definition molecule (nfrag : nat) : Molecule :=
  mkMolecule "water_dimer" "cs" false false nfrag (seq 1 nfrag) [].

(** A world in which the user has set the options listed in [user]. *)
Definition world (user : list (string * Value)) (nfrag : nat) : World :=
  mkWorld (mkOptions (list_to_map user) ∅ option_defaults)
          ∅ (molecule nfrag) "" [].

Definition no_kwargs : Kwargs := mkKwargs None None [].

(** Both shifts set, delta HF on (the default). *)
Definition shifts : list (string * Value) :=
  [("SAPT_DFT_GRAC_SHIFT_A", VDouble 0.125);
   ("SAPT_DFT_GRAC_SHIFT_B", VDouble 0.25)].

Definition no_dhf : list (string * Value) :=
  ("SAPT_DFT_DO_DHF", VBool false) :: shifts.

Definition sapt_dimer : Molecule :=
  mkMolecule "water_dimer" "c1" true true 2 [1; 2] [].
Definition monomerA : Molecule :=
  mkMolecule "monomerA" "c1" true true 2 [1] [2].
Definition monomerB : Molecule :=
  mkMolecule "monomerB" "c1" true true 2 [2] [1].

End Demo.

(** ** Observations on traces *)

(** The events a run appended to the trace it started with. *)
Definition new_events (w w' : World) : list Event :=
  drop (length (trace w)) (trace w').

(** Calls into collaborators (as opposed to calls into the core). *)
Definition is_engine_call (e : Event) : bool :=
  match e with
  | EvScfHelper _ _ _ | EvWavefunctionBuild _ _ _ | EvBuildCache _ _ _
  | EvElectrostatics _ _ | EvExchange _ _ | EvInduction _ _ _ _
  | EvHfSummary _ _ _ _ | EvDftSummary _ _ _ | EvBasisBuild _ _
  | EvFddsDispersion _ _ | EvMp2FisaptDispersion _ _
  | EvMp2SaptDispersion _ _ _ _ => true
  | _ => false
  end.

(** The collaborator calls of the interaction segment: term evaluators,
    basis construction and the final summary. *)
Definition is_interaction_call (e : Event) : bool :=
  match e with
  | EvBuildCache _ _ _ | EvElectrostatics _ _ | EvExchange _ _
  | EvInduction _ _ _ _ | EvDftSummary _ _ _ | EvBasisBuild _ _
  | EvFddsDispersion _ _ | EvMp2FisaptDispersion _ _
  | EvMp2SaptDispersion _ _ _ _ => true
  | _ => false
  end.

Definition engine_calls (evs : list Event) : list Event :=
  List.filter is_engine_call evs.

(** The sub-calculations, in order: molecule and banner of every call to
    the SCF engine. *)
Definition scf_call (e : Event) : option (Molecule * string) :=
  match e with
  | EvScfHelper mol banner _ => Some (mol, banner)
  | _ => None
  end.

Definition scf_calls (evs : list Event) : list (Molecule * string) :=
  omap scf_call evs.

(** The steps of the stage scheduler: sub-calculations and namespace
    relabelings of the intermediate store, in order. *)
Inductive Step :=
| Calc (mol : Molecule) (banner : string)
| Relabel (old new : string).

Definition step_of (e : Event) : option Step :=
  match e with
  | EvScfHelper mol banner _ => Some (Calc mol banner)
  | EvChangeFileNamespace _ old new => Some (Relabel old new)
  | _ => None
  end.

Definition schedule (evs : list Event) : list Step := omap step_of evs.

Definition is_relabel (s : Step) : bool :=
  match s with
  | Relabel _ _ => true
  | Calc _ _ => false
  end.

Definition is_primary_functional (e : Event) : bool :=
  match e with
  | EvSetGlobalOption key _ => String.eqb key "DFT_FUNCTIONAL"
  | _ => false
  end.

(** The auxiliary (delta HF) pass is what happens before the primary
    functional is set (line 204), the primary pass what happens after. *)
Fixpoint auxiliary_pass (evs : list Event) : list Event :=
  match evs with
  | [] => []
  | e :: rest =>
      if is_primary_functional e then [] else e :: auxiliary_pass rest
  end.

Fixpoint primary_pass (evs : list Event) : list Event :=
  match evs with
  | [] => []
  | e :: rest => if is_primary_functional e then rest else primary_pass rest
  end.

(** Where a wavefunction came from: a sub-calculation or a bare
    [Wavefunction.build]. *)
Inductive Origin :=
| FromScf (mol : Molecule) (banner : string)
| FromBuild (mol : Molecule) (basis : Value).

Definition produced_by (e : Event) : option (Origin * Wavefunction) :=
  match e with
  | EvScfHelper mol banner (Some wfn) => Some (FromScf mol banner, wfn)
  | EvWavefunctionBuild mol basis (Some wfn) =>
      Some (FromBuild mol basis, wfn)
  | _ => None
  end.

Definition produced (evs : list Event) : list (Origin * Wavefunction) :=
  omap produced_by evs.

(** Each completed sub-calculation with the ["CURRENT ENERGY"] read right
    after it. *)
Fixpoint scf_energies (evs : list Event)
  : list (Molecule * string * float) :=
  match evs with
  | [] => []
  | EvScfHelper mol banner (Some _) :: rest =>
      match rest with
      | EvGetVariable key e :: _ =>
          if String.eqb key "CURRENT ENERGY"
          then (mol, banner, e) :: scf_energies rest
          else scf_energies rest
      | _ => scf_energies rest
      end
  | _ :: rest => scf_energies rest
  end.

(** The labels returned by the electrostatics, exchange and induction
    evaluators. *)
Definition term_labels_of (e : Event) : list string :=
  match e with
  | EvElectrostatics _ (Some d) | EvExchange _ (Some d)
  | EvInduction _ _ _ (Some d) => dict_keys d
  | _ => []
  end.

Definition term_labels (evs : list Event) : list string :=
  flat_map term_labels_of evs.

(** The MP2 dispersion evaluators that ran, by variant. *)
Inductive DispVariant := FISAPT | SAPT.

Definition mp2_dispersion_call (e : Event)
  : option (DispVariant * option Dict) :=
  match e with
  | EvMp2FisaptDispersion _ out => Some (FISAPT, out)
  | EvMp2SaptDispersion _ _ _ out => Some (SAPT, out)
  | _ => None
  end.

Definition mp2_dispersion_calls (evs : list Event)
  : list (DispVariant * option Dict) :=
  omap mp2_dispersion_call evs.

(** The evaluators of the interaction terms, and the calls to them that
    returned: which evaluator, and the mapping it returned. *)
Inductive Evaluator :=
| Electrostatics
| Exchange
| Induction
| FddsDispersion
| Mp2Dispersion (variant : DispVariant).

Definition evaluation_of (e : Event) : option (Evaluator * Dict) :=
  match e with
  | EvElectrostatics _ (Some d) => Some (Electrostatics, d)
  | EvExchange _ (Some d) => Some (Exchange, d)
  | EvInduction _ _ _ (Some d) => Some (Induction, d)
  | EvFddsDispersion _ (Some d) => Some (FddsDispersion, d)
  | EvMp2FisaptDispersion _ (Some d) => Some (Mp2Dispersion FISAPT, d)
  | EvMp2SaptDispersion _ _ _ (Some d) => Some (Mp2Dispersion SAPT, d)
  | _ => None
  end.

Definition evaluations (evs : list Event) : list (Evaluator * Dict) :=
  omap evaluation_of evs.

(** What was published to the variable store, in order. *)
Definition published_entry (e : Event) : option (string * float) :=
  match e with
  | EvSetVariable k v => Some (k, v)
  | _ => None
  end.

Definition published (evs : list Event) : Dict := omap published_entry evs.

(** The report handed to the final summary (the [data] of line 290). *)
Definition report_of (e : Event) : option Dict :=
  match e with
  | EvDftSummary data _ _ => Some data
  | _ => None
  end.

Definition reports (evs : list Event) : list Dict := omap report_of evs.

(** The auxiliary mapping and the delta handed to the HF summary
    (the [hf_data] and [dhf_value] of line 194). *)
Definition hf_summary_of (e : Event) : option (Dict * float) :=
  match e with
  | EvHfSummary hf_data _ delta_hf _ => Some (hf_data, delta_hf)
  | _ => None
  end.

Definition hf_summaries (evs : list Event) : list (Dict * float) :=
  omap hf_summary_of evs.

(** Reads of one variable, in order. *)
Definition read_of (key : string) (e : Event) : option float :=
  match e with
  | EvGetVariable k v => if String.eqb k key then Some v else None
  | _ => None
  end.

Definition reads (key : string) (evs : list Event) : list float :=
  omap (read_of key) evs.

(** The GRAC shift discipline around the sub-calculations: writes of
    ["DFT_GRAC_SHIFT"] and calls to the SCF engine (with whether the call
    returned), in order. *)
Inductive ShiftStep :=
| SetShift (v : Value)
| Calculation (mol : Molecule) (returned : bool).

Definition shift_step_of (e : Event) : option ShiftStep :=
  match e with
  | EvSetGlobalOption key v =>
      if String.eqb key "DFT_GRAC_SHIFT" then Some (SetShift v) else None
  | EvScfHelper mol _ out =>
      Some (Calculation mol (match out with Some _ => true | None => false end))
  | _ => None
  end.

Definition shift_steps (evs : list Event) : list ShiftStep :=
  omap shift_step_of evs.

(** ** The shape of a successful run

    Everything a successful run appends to the trace, as a function of
    the options at entry and of what the collaborators returned. *)

(** What the term evaluators of one pass returned. *)
Record Terms := mkTerms {
  t_cache : Cache;
  t_elst : Dict;
  t_exch : Dict;
  t_ind : Dict;
}.

(** What the collaborators returned in the delta HF segment, with the
    values read back from the variable store. *)
Record DeltaHf := mkDeltaHf {
  hf_wfn_dimer : Wavefunction;
  hf_e_dimer : float;
  hf_wfn_A : Wavefunction;
  hf_e_A : float;
  hf_wfn_B : Wavefunction;
  hf_e_B : float;
  hf_terms : Terms;
  hf_text : string;
  hf_delta : float;
}.

(** What the collaborators returned outside the delta HF segment. *)
Record Primary := mkPrimary {
  p_built : Wavefunction;
  p_wfn_A : Wavefunction;
  p_e_A : float;
  p_wfn_B : Wavefunction;
  p_e_B : float;
  p_terms : Terms;
  p_aux_basis : BasisSet;
  p_fdds : Dict;
  p_mp2 : Dict;
  p_text : string;
}.

(** [data.update(elst); data.update(exch); data.update(ind)] *)
Definition merge_terms (d : Dict) (t : Terms) : Dict :=
  dict_update (dict_update (dict_update d (t_elst t)) (t_exch t)) (t_ind t).

Definition lookup0 (k : string) (d : Dict) : float :=
  match dict_get k d with
  | Some v => v
  | None => 0%float
  end.

(** [data.update(m)] for each mapping of [ms] in turn. *)
Definition merge_all (data : Dict) (ms : list Dict) : Dict :=
  fold_left dict_update ms data.

(** [dhf_value] of line 191, read off the auxiliary mapping. *)
Definition dhf_value (hf_data : Dict) : float :=
  (lookup0 "HF DIMER" hf_data - lookup0 "HF MONOMER A" hf_data
   - lookup0 "HF MONOMER B" hf_data)%float.

(** The labels of [ks] that are not in [seen], each where it first
    occurs: the order in which a dictionary that holds [seen] takes up
    new keys. *)
Fixpoint first_occurrences (seen ks : list string) : list string :=
  match ks with
  | [] => []
  | k :: ks' =>
      if existsb (String.eqb k) seen
      then first_occurrences seen ks'
      else k :: first_occurrences (k :: seen) ks'
  end.

(** Lines 59-76 as a function of the keyword arguments and the active
    molecule. *)
Definition pick_molecule (kwargs : Kwargs) (active : Molecule)
  : Molecule * Kwargs :=
  match kw_ref_wfn kwargs with
  | None => kwargs_pop_molecule kwargs active
  | Some ref_wfn => (wfn_molecule ref_wfn, kwargs)
  end.

Definition sapt_dimer_of (kwargs : Kwargs) (active : Molecule) : Molecule :=
  update_geometry
    (fix_com true
       (fix_orientation true
          (reset_point_group "c1"
             (clone (fst (pick_molecule kwargs active)))))).

Definition kwargs_passed (kwargs : Kwargs) (active : Molecule) : Kwargs :=
  snd (pick_molecule kwargs active).

Definition monomerA_of (sapt_dimer : Molecule) : Molecule :=
  set_name "monomerA" (extract_subsets 1 2 sapt_dimer).

Definition monomerB_of (sapt_dimer : Molecule) : Molecule :=
  set_name "monomerB" (extract_subsets 2 1 sapt_dimer).

(** The options once lines 54-55 have run. *)
Definition entry_options (o : Options) : Options :=
  if opt_changed o "SCF" "SCF_TYPE" then o
  else opt_set_local "SCF" "SCF_TYPE" (VStr "DF") o.

(** Whether the run uses density fitting: the guard of every relabeling. *)
Definition uses_df (o : Options) : bool :=
  py_eq_str (opt_get (entry_options o) "SCF" "SCF_TYPE") "DF".

Definition does_delta_hf (o : Options) : bool :=
  py_truthy (opt_get o "SAPT" "SAPT_DFT_DO_DHF").

Definition mon_a_shift_of (o : Options) : Value :=
  opt_get o "SAPT" "SAPT_DFT_GRAC_SHIFT_A".

Definition mon_b_shift_of (o : Options) : Value :=
  opt_get o "SAPT" "SAPT_DFT_GRAC_SHIFT_B".

(** The three gates of lines 109-118: the message of the first one that
    fails, if any. *)
Definition validation_failure (functional a b reference : Value)
           (sapt_dimer : Molecule) : option string :=
  if negb (py_eq_str functional "HF") && (py_eq_zero a || py_eq_zero b)
  then Some msg_grac_shift
  else if negb (py_eq_str reference "RHF")
  then Some msg_reference
  else if negb (Nat.eqb (nfragments sapt_dimer) 2)
  then Some (msg_nfragments (nfragments sapt_dimer))
  else None.

(** The gates as they apply to the options at entry. *)
Definition entry_validation (o : Options) (sapt_dimer : Molecule)
  : option string :=
  validation_failure (opt_get o "SAPT" "SAPT_DFT_FUNCTIONAL")
                     (mon_a_shift_of o) (mon_b_shift_of o)
                     (opt_get o "SCF" "REFERENCE") sapt_dimer.

Definition relabel_events (df : bool) (old new : string) : list Event :=
  if df then [EvChangeFileNamespace 97 old new] else [].

Definition shift_events (shift : Value) : list Event :=
  if py_truthy shift then [EvSetGlobalOption "DFT_GRAC_SHIFT" shift] else [].

Definition scf_events (mol : Molecule) (banner : string)
           (wfn : Wavefunction) (energy : float) : list Event :=
  [EvScfHelper mol banner (Some wfn); EvGetVariable "CURRENT ENERGY" energy].

Definition terms_events (wfn_A wfn_B : Wavefunction) (maxiter conv : Value)
           (t : Terms) : list Event :=
  [EvBuildCache wfn_A wfn_B (Some (t_cache t));
   EvElectrostatics (t_cache t) (Some (t_elst t));
   EvExchange (t_cache t) (Some (t_exch t));
   EvInduction (t_cache t) maxiter conv (Some (t_ind t))].

(** The auxiliary mapping [hf_data] as it stands on line 191. *)
Definition hf_data_of (h : DeltaHf) : Dict :=
  merge_terms [("HF DIMER", hf_e_dimer h); ("HF MONOMER A", hf_e_A h);
               ("HF MONOMER B", hf_e_B h)]
              (hf_terms h).

(** [dhf_value] of line 191. *)
Definition dhf_value_of (h : DeltaHf) : float :=
  (lookup0 "HF DIMER" (hf_data_of h) - lookup0 "HF MONOMER A" (hf_data_of h)
   - lookup0 "HF MONOMER B" (hf_data_of h))%float.

Definition delta_hf_events (df : bool) (sapt_dimer : Molecule)
           (maxiter conv : Value) (h : DeltaHf) : list Event :=
  (if df then [EvSetGlobalOption "DF_INTS_IO" (VStr "SAVE")] else []) ++
  scf_events sapt_dimer "SAPT(DFT): delta HF Dimer"
             (hf_wfn_dimer h) (hf_e_dimer h) ++
  relabel_events df "dimer" "monomerA" ++
  scf_events (monomerA_of sapt_dimer) "SAPT(DFT): delta HF Monomer A"
             (hf_wfn_A h) (hf_e_A h) ++
  relabel_events df "monomerA" "monomerB" ++
  scf_events (monomerB_of sapt_dimer) "SAPT(DFT): delta HF Monomer B"
             (hf_wfn_B h) (hf_e_B h) ++
  relabel_events df "monomerB" "dimer" ++
  terms_events (hf_wfn_A h) (hf_wfn_B h) maxiter conv (hf_terms h) ++
  [EvHfSummary (hf_data_of h) "SAPT(HF)" (dhf_value_of h) (Some (hf_text h));
   EvGetVariable "SAPT(DFT) Delta HF" (hf_delta h)].

Definition dft_monomers_events (df : bool) (functional a b : Value)
           (sapt_dimer : Molecule) (p : Primary) : list Event :=
  [EvSetGlobalOption "DFT_FUNCTIONAL" functional;
   EvSetLocalOption "SCF" "REFERENCE" (VStr "RKS")] ++
  relabel_events df "dimer" "monomerA" ++
  shift_events a ++
  [EvSetDefaultNamespace "monomerA"] ++
  scf_events (monomerA_of sapt_dimer) "SAPT(DFT): DFT Monomer A"
             (p_wfn_A p) (p_e_A p) ++
  [EvSetGlobalOption "DFT_GRAC_SHIFT" (VDouble 0)] ++
  relabel_events df "monomerA" "monomerB" ++
  shift_events b ++
  [EvSetDefaultNamespace "monomerB"] ++
  scf_events (monomerB_of sapt_dimer) "SAPT(DFT): DFT Monomer B"
             (p_wfn_B p) (p_e_B p) ++
  [EvSetGlobalOption "DFT_GRAC_SHIFT" (VDouble 0)].

(** The report [data]: what it holds after the delta HF segment, after
    the monomer calculations, and when it is published. *)
Definition data_after_hf (dhf : bool) (h : DeltaHf) : Dict :=
  if dhf then [("Delta HF Correction", hf_delta h)] else [].

Definition data_after_monomers (dhf : bool) (h : DeltaHf) (p : Primary)
  : Dict :=
  dict_set "DFT MONOMERB" (p_e_B p)
           (dict_set "DFT MONOMERA" (p_e_A p) (data_after_hf dhf h)).

Definition report_of_run (dhf : bool) (h : DeltaHf) (p : Primary) : Dict :=
  dict_update
    (dict_update (merge_terms (data_after_monomers dhf h p) (p_terms p))
                 (p_fdds p))
    (p_mp2 p).

(** The wavefunction handed to the SAPT dispersion variant and returned. *)
Definition dimer_wfn_of (dhf : bool) (h : DeltaHf) (p : Primary)
  : Wavefunction :=
  if dhf then hf_wfn_dimer h else p_built p.

Definition mp2_event (alg : Value) (dimer_wfn : Wavefunction) (p : Primary)
  : Event :=
  if py_eq_str alg "FISAPT"
  then EvMp2FisaptDispersion (p_wfn_A p) (Some (p_mp2 p))
  else EvMp2SaptDispersion dimer_wfn (p_wfn_A p) (p_wfn_B p)
                           (Some (p_mp2 p)).

Definition publish_events (d : Dict) : list Event :=
  map (fun kv => EvSetVariable (fst kv) (snd kv)) d.

Definition interaction_events (sapt_dimer : Molecule) (maxiter conv alg : Value)
           (dimer_wfn : Wavefunction) (report : Dict) (p : Primary)
  : list Event :=
  terms_events (p_wfn_A p) (p_wfn_B p) maxiter conv (p_terms p) ++
  [EvBasisBuild sapt_dimer (Some (p_aux_basis p));
   EvFddsDispersion (t_cache (p_terms p)) (Some (p_fdds p));
   mp2_event alg dimer_wfn p;
   EvDftSummary report "SAPT(DFT)" (Some (p_text p))] ++
  publish_events report.

(** What every run appends before it validates its input. *)
Definition entry_events (o : Options) : list Event :=
  [EvTstart] ++
  (if opt_changed o "SCF" "SCF_TYPE" then []
   else [EvSetLocalOption "SCF" "SCF_TYPE" (VStr "DF")]) ++
  [EvPrepareOptions "SAPT"].

Definition run_events (o : Options) (sapt_dimer : Molecule)
           (h : DeltaHf) (p : Primary) : list Event :=
  let df := uses_df o in
  let dhf := does_delta_hf o in
  let maxiter := opt_get o "SAPT" "MAXITER" in
  let conv := opt_get o "SAPT" "D_CONVERGENCE" in
  entry_events o ++
  [EvSetDefaultNamespace "dimer"; EvSetGlobalOption "SAVE_JK" (VBool true)] ++
  (if df then [EvSetGlobalOption "DF_INTS_IO" (VStr "SAVE")] else []) ++
  (if dhf then delta_hf_events df sapt_dimer maxiter conv h
   else [EvWavefunctionBuild sapt_dimer (opt_get_global o "BASIS")
                             (Some (p_built p))]) ++
  dft_monomers_events df (opt_get o "SAPT" "SAPT_DFT_FUNCTIONAL")
                      (mon_a_shift_of o) (mon_b_shift_of o) sapt_dimer p ++
  interaction_events sapt_dimer maxiter conv
                     (opt_get o "SAPT" "SAPT_DFT_MP2_DISP_ALG")
                     (dimer_wfn_of dhf h p) (report_of_run dhf h p) p ++
  [EvTstop].

(** The option store a successful run leaves behind. *)
Definition set_if (c : bool) (f : Options -> Options) (o : Options)
  : Options :=
  if c then f o else o.

Definition dft_monomers_options (functional a b : Value) (o : Options)
  : Options :=
  opt_set_global "DFT_GRAC_SHIFT" (VDouble 0)
    (set_if (py_truthy b) (opt_set_global "DFT_GRAC_SHIFT" b)
       (opt_set_global "DFT_GRAC_SHIFT" (VDouble 0)
          (set_if (py_truthy a) (opt_set_global "DFT_GRAC_SHIFT" a)
             (opt_set_local "SCF" "REFERENCE" (VStr "RKS")
                (opt_set_global "DFT_FUNCTIONAL" functional o))))).

Definition final_options (o : Options) : Options :=
  let df := uses_df o in
  dft_monomers_options
    (opt_get o "SAPT" "SAPT_DFT_FUNCTIONAL")
    (mon_a_shift_of o) (mon_b_shift_of o)
    (set_if (does_delta_hf o && df)
            (opt_set_global "DF_INTS_IO" (VStr "SAVE"))
       (set_if df (opt_set_global "DF_INTS_IO" (VStr "SAVE"))
          (opt_set_global "SAVE_JK" (VBool true) (entry_options o)))).

(** A placeholder for the delta HF results of a run without that
    segment. *)
Definition no_delta_hf (wfn : Wavefunction) : DeltaHf :=
  mkDeltaHf wfn 0 wfn 0 wfn 0 (mkTerms [] [] [] []) "" 0.

(** What holds when the driver returns. *)
Definition run_post (kwargs : Kwargs) (o : Options) (am : Molecule)
           (tr : list Event) (r : Result Wavefunction) (w' : World) : Prop :=
  forall ret,
    r = Ok ret ->
    let sapt_dimer := sapt_dimer_of kwargs am in
    entry_validation o sapt_dimer = None /\
    exists h p,
      trace w' = tr ++ run_events o sapt_dimer h p /\
      ret = dimer_wfn_of (does_delta_hf o) h p /\
      options w' = final_options o.

(** ** The vocabulary of the claims *)

(** The concrete runs used as examples: the default options with both
    GRAC shifts set, on a dimer of two fragments. *)
Definition demo_world : World := Demo.world Demo.shifts 2.

Definition demo_run : Result Wavefunction * World :=
  run_sapt_dft (Demo.engine None) "sapt(dft)" Demo.no_kwargs demo_world.

(** The same input, without the delta HF segment. *)
Definition demo_world_no_dhf : World := Demo.world Demo.no_dhf 2.

Definition demo_run_no_dhf : Result Wavefunction * World :=
  run_sapt_dft (Demo.engine None) "sapt(dft)" Demo.no_kwargs
               demo_world_no_dhf.

(** A composite of three fragments. *)
Definition demo_world_3_fragments : World := Demo.world Demo.shifts 3.

Definition demo_run_3_fragments : Result Wavefunction * World :=
  run_sapt_dft (Demo.engine None) "sapt(dft)" Demo.no_kwargs
               demo_world_3_fragments.

(** Three fragments again, with monomer A's shift given as an int beyond
    the range of a double. *)
Definition demo_world_huge_shift : World :=
  Demo.world [("SAPT_DFT_GRAC_SHIFT_A", VInt (2 ^ 1100));
              ("SAPT_DFT_GRAC_SHIFT_B", VDouble 0.125)] 3.

Definition demo_run_huge_shift : Result Wavefunction * World :=
  run_sapt_dft (Demo.engine None) "sapt(dft)" Demo.no_kwargs
               demo_world_huge_shift.

(** The primary functional set, monomer B's shift left at its default. *)
Definition demo_world_no_shift_b : World :=
  Demo.world [("SAPT_DFT_GRAC_SHIFT_A", VDouble 0.125)] 2.

(** The SCF engine fails in the DFT calculation of monomer A. *)
Definition demo_run_scf_failure : Result Wavefunction * World :=
  run_sapt_dft (Demo.engine (Some "SAPT(DFT): DFT Monomer A")) "sapt(dft)"
               Demo.no_kwargs demo_world.

(** The caller has chosen the SCF type "PK". *)
Definition demo_world_pk : World :=
  Demo.world (("SCF_TYPE", VStr "PK") :: Demo.shifts) 2.

Definition demo_run_pk : Result Wavefunction * World :=
  run_sapt_dft (Demo.engine None) "sapt(dft)" Demo.no_kwargs demo_world_pk.

Definition relabel_steps (df : bool) (old new : string) : list Step :=
  if df then [Relabel old new] else [].

(** What the stage scheduler does in the auxiliary pass. *)
Definition auxiliary_schedule (df : bool) (sapt_dimer : Molecule)
  : list Step :=
  [Calc sapt_dimer "SAPT(DFT): delta HF Dimer"] ++
  relabel_steps df "dimer" "monomerA" ++
  [Calc (monomerA_of sapt_dimer) "SAPT(DFT): delta HF Monomer A"] ++
  relabel_steps df "monomerA" "monomerB" ++
  [Calc (monomerB_of sapt_dimer) "SAPT(DFT): delta HF Monomer B"] ++
  relabel_steps df "monomerB" "dimer".

(** What the stage scheduler does in the primary pass. *)
Definition primary_schedule (df : bool) (sapt_dimer : Molecule)
  : list Step :=
  relabel_steps df "dimer" "monomerA" ++
  [Calc (monomerA_of sapt_dimer) "SAPT(DFT): DFT Monomer A"] ++
  relabel_steps df "monomerA" "monomerB" ++
  [Calc (monomerB_of sapt_dimer) "SAPT(DFT): DFT Monomer B"].

(** C2 as claimed: a pass makes exactly three sub-calculations, on the
    dimer, monomer A and monomer B, in that order. *)
Definition three_subcalculations (sapt_dimer : Molecule)
           (pass : list Event) : Prop :=
  map fst (scf_calls pass) =
  [sapt_dimer; monomerA_of sapt_dimer; monomerB_of sapt_dimer].

(** C3 as claimed: the returned wavefunction was produced by a
    sub-calculation of the primary pass. *)
Definition from_primary_pass (evs : list Event) (ret : Wavefunction)
  : Prop :=
  exists mol banner, In (FromScf mol banner, ret) (produced (primary_pass evs)).

(** Where the returned wavefunction comes from. *)
Definition returned_origin (o : Options) (sapt_dimer : Molecule) : Origin :=
  if does_delta_hf o
  then FromScf sapt_dimer "SAPT(DFT): delta HF Dimer"
  else FromBuild sapt_dimer (opt_get_global o "BASIS").

(** The MP2 dispersion variant the algorithm flag selects. *)
Definition selected_variant (o : Options) : DispVariant :=
  if py_eq_str (opt_get o "SAPT" "SAPT_DFT_MP2_DISP_ALG") "FISAPT"
  then FISAPT else SAPT.

(** C8 as claimed: every entry of the auxiliary pass's mapping is an
    entry of the report. *)
Definition auxiliary_merged (evs : list Event) : Prop :=
  forall hf_data delta report,
    In (hf_data, delta) (hf_summaries evs) ->
    In report (reports evs) ->
    forall k, In k (dict_keys hf_data) -> In k (dict_keys report).

(** C9 as claimed: every sub-calculation, whatever its outcome, is
    followed at once by the reset of the shift to [0.0]. *)
Definition reset_after_each (steps : list ShiftStep) : Prop :=
  forall before mol returned after,
    steps = before ++ Calculation mol returned :: after ->
    exists rest, after = SetShift (VDouble 0) :: rest.

(** The shift discipline of the primary pass when both sub-calculations
    return. *)
Definition shift_override (shift : Value) : list ShiftStep :=
  if py_truthy shift then [SetShift shift] else [].

Definition primary_shift_steps (a b : Value) (sapt_dimer : Molecule)
  : list ShiftStep :=
  shift_override a ++
  [Calculation (monomerA_of sapt_dimer) true; SetShift (VDouble 0)] ++
  shift_override b ++
  [Calculation (monomerB_of sapt_dimer) true; SetShift (VDouble 0)].

(** The sub-calculations of a run, whatever the SCF type. *)
Definition all_scf_calls (dhf : bool) (sapt_dimer : Molecule)
  : list (Molecule * string) :=
  (if dhf
   then [(sapt_dimer, "SAPT(DFT): delta HF Dimer");
         (monomerA_of sapt_dimer, "SAPT(DFT): delta HF Monomer A");
         (monomerB_of sapt_dimer, "SAPT(DFT): delta HF Monomer B")]
   else []) ++
  [(monomerA_of sapt_dimer, "SAPT(DFT): DFT Monomer A");
   (monomerB_of sapt_dimer, "SAPT(DFT): DFT Monomer B")].

(** The relabelings of a run under density fitting. *)
Definition all_relabels (dhf : bool) : list Step :=
  (if dhf
   then [Relabel "dimer" "monomerA"; Relabel "monomerA" "monomerB";
         Relabel "monomerB" "dimer"]
   else []) ++
  [Relabel "dimer" "monomerA"; Relabel "monomerA" "monomerB"].

(** Publishing a report: one [set_variable] per entry, in order. *)
Definition publish (d : Dict) (vs : gmap string float) : gmap string float :=
  fold_left (fun acc kv => <[fst kv := snd kv]> acc) d vs.

(** ** Weakest preconditions

    [wp m w Q]: running [m] from [w] ends in a result and a world that
    satisfy [Q]. *)
Definition wp {A} (m : M A) (w : World) (Q : Result A -> World -> Prop)
  : Prop :=
  Q (fst (m w)) (snd (m w)).


(** ** Monitors

    A monitor follows the events a run appends, one by one: [next] is
    its transition, [ok] says whether an event is allowed in a state.
    The judgment [triple s m Q F] says: started with the monitor in
    state [s] and the option store in [I s], the program [m] appends
    only allowed events and keeps the option store in [I]; when it
    returns [a] the monitor is in a state satisfying [Q a], when it
    raises the monitor is in a state satisfying [F].  Unlike [wp], the
    judgment speaks of every run, whatever its outcome. *)
Section Monitor.

Context {S : Type}.
Variable next : S -> Event -> S.
Variable ok : S -> Event -> Prop.
Variable I : S -> Options -> Prop.

Fixpoint accepts (s : S) (evs : list Event) : Prop :=
  match evs with
  | [] => True
  | e :: rest => ok s e /\ accepts (next s e) rest
  end.

Definition final (s : S) (evs : list Event) : S := fold_left next evs s.

Definition triple {A} (s : S) (m : M A) (Q : A -> S -> Prop)
           (F : S -> Prop) : Prop :=
  forall w r w',
    I s (options w) -> m w = (r, w') ->
    exists evs,
      trace w' = trace w ++ evs /\
      accepts s evs /\
      I (final s evs) (options w') /\
      match r with
      | Ok a => Q a (final s evs)
      | Raise _ => F (final s evs)
      end.

End Monitor.

(** The monitor of C10, first half: the run starts the timer and then
    forces the SCF type, before anything else. *)
Inductive ForcedPhase := BeforeStart | Started | Forced.

Definition forced_next (s : ForcedPhase) (e : Event) : ForcedPhase :=
  match s with
  | BeforeStart => Started
  | _ => Forced
  end.

Definition forced_ok (s : ForcedPhase) (e : Event) : Prop :=
  match s with
  | BeforeStart => e = EvTstart
  | Started => e = EvSetLocalOption "SCF" "SCF_TYPE" (VStr "DF")
  | Forced => True
  end.

Definition forced_inv (s : ForcedPhase) (o : Options) : Prop :=
  match s with
  | Forced => opt_get o "SCF" "SCF_TYPE" = VStr "DF"
  | _ => opt_changed o "SCF" "SCF_TYPE" = false
  end.

(** The monitor of C10, second half: no relabeling of the intermediate
    store. *)
Definition relabel_free (_ : unit) (e : Event) : Prop :=
  match e with
  | EvChangeFileNamespace _ _ _ => False
  | _ => True
  end.

(** The monitor of C7: the FDDS dispersion evaluator runs once; when it
    has returned, the run has reached the MP2 dispersion evaluation, and
    the one evaluator that may run then is the selected one. *)
Inductive DispPhase := NotReached | Reached | Evaluated.

Definition is_fdds_returned (e : Event) : bool :=
  match e with
  | EvFddsDispersion _ (Some _) => true
  | _ => false
  end.

Definition reaches_dispersion (evs : list Event) : bool :=
  existsb is_fdds_returned evs.

Definition disp_next (s : DispPhase) (e : Event) : DispPhase :=
  match e with
  | EvFddsDispersion _ (Some _) => Reached
  | EvMp2FisaptDispersion _ _ | EvMp2SaptDispersion _ _ _ _ => Evaluated
  | _ => s
  end.

Definition disp_ok (sel : DispVariant) (s : DispPhase) (e : Event) : Prop :=
  match e with
  | EvFddsDispersion _ _ => s = NotReached
  | EvMp2FisaptDispersion _ _ => s = Reached /\ sel = FISAPT
  | EvMp2SaptDispersion _ _ _ _ => s = Reached /\ sel = SAPT
  | _ => True
  end.

(** The monitor of C9: in the primary pass, the step of the shift
    discipline that follows a sub-calculation that returned is the reset
    of the shift to [0.0]. *)
Inductive ShiftPhase := Auxiliary | Idle | Pending.

Definition shift_next (s : ShiftPhase) (e : Event) : ShiftPhase :=
  match s with
  | Auxiliary => if is_primary_functional e then Idle else Auxiliary
  | _ =>
      match shift_step_of e with
      | Some (Calculation _ true) => Pending
      | Some (SetShift _) => Idle
      | _ => s
      end
  end.

Definition shift_ok (s : ShiftPhase) (e : Event) : Prop :=
  match s with
  | Pending =>
      match shift_step_of e with
      | Some (SetShift v) => v = VDouble 0
      | Some (Calculation _ _) => False
      | None => True
      end
  | _ => True
  end.

(** C9 for the sub-calculations that returned: each is followed at once
    by the reset of the shift to [0.0]. *)
Definition reset_after_returned (steps : list ShiftStep) : Prop :=
  forall before mol after,
    steps = before ++ Calculation mol true :: after ->
    exists rest, after = SetShift (VDouble 0) :: rest.

(** The monitor of C6: it pairs each sub-calculation that returned with
    the energy read right after it (as [scf_energies] does), collects
    the labels the term evaluators returned (as [term_labels] does), and
    allows an HF summary only with the delta of the three energies of
    the auxiliary pass. *)
Record DeltaState := mkDeltaState {
  ds_pending : option (Molecule * string);
  ds_energies : list (Molecule * string * float);
  ds_labels : list string;
}.

Definition delta_next (s : DeltaState) (e : Event) : DeltaState :=
  match e with
  | EvScfHelper mol banner (Some _) =>
      mkDeltaState (Some (mol, banner)) (ds_energies s) (ds_labels s)
  | EvGetVariable key x =>
      mkDeltaState
        None
        (match ds_pending s with
         | Some (mol, banner) =>
             if String.eqb key "CURRENT ENERGY"
             then ds_energies s ++ [(mol, banner, x)]
             else ds_energies s
         | None => ds_energies s
         end)
        (ds_labels s)
  | EvElectrostatics _ (Some d) | EvExchange _ (Some d)
  | EvInduction _ _ _ (Some d) =>
      mkDeltaState None (ds_energies s) (ds_labels s ++ dict_keys d)
  | _ => mkDeltaState None (ds_energies s) (ds_labels s)
  end.

(** The labels under which the auxiliary mapping keeps the three
    energies. *)
Definition energy_labels : list string :=
  ["HF DIMER"; "HF MONOMER A"; "HF MONOMER B"].

(** The contract of the term evaluators (spec 4.5): none of the labels
    they return is one of the energy labels. *)
Definition no_collision (labels : list string) : Prop :=
  forall label, In label labels -> ~ In label energy_labels.

(** C6: the delta is the dimer energy minus the two monomer energies of
    the auxiliary pass. *)
Definition delta_of_energies (energies : list (Molecule * string * float))
           (delta : float) : Prop :=
  exists mol_d mol_A mol_B e_d e_A e_B,
    energies =
      [(mol_d, "SAPT(DFT): delta HF Dimer", e_d);
       (mol_A, "SAPT(DFT): delta HF Monomer A", e_A);
       (mol_B, "SAPT(DFT): delta HF Monomer B", e_B)] /\
    delta = (e_d - e_A - e_B)%float.

Definition delta_ok (s : DeltaState) (e : Event) : Prop :=
  match e with
  | EvHfSummary _ _ delta _ =>
      no_collision (ds_labels s) -> delta_of_energies (ds_energies s) delta
  | _ => True
  end.

(** The energy a sub-calculation that has just returned is paired with,
    if the next event is the read of ["CURRENT ENERGY"]. *)
Definition pending_energy (pending : option (Molecule * string))
           (evs : list Event) : list (Molecule * string * float) :=
  match pending, evs with
  | Some (mol, banner), EvGetVariable key e :: _ =>
      if String.eqb key "CURRENT ENERGY" then [(mol, banner, e)] else []
  | _, _ => []
  end.

(** ** More observations and monitors *)

(** A call to a collaborator that raised. *)
Definition is_failed_call (e : Event) : bool :=
  match e with
  | EvScfHelper _ _ None | EvWavefunctionBuild _ _ None
  | EvBuildCache _ _ None | EvElectrostatics _ None | EvExchange _ None
  | EvInduction _ _ _ None | EvHfSummary _ _ _ None | EvDftSummary _ _ None
  | EvBasisBuild _ None | EvFddsDispersion _ None
  | EvMp2FisaptDispersion _ None | EvMp2SaptDispersion _ _ _ None => true
  | _ => false
  end.

(** The monitor of a run that stops at the first collaborator that
    raises: its state says whether a call has failed. *)
Definition failed_next (s : bool) (e : Event) : bool := s || is_failed_call e.

Definition failed_ok (s : bool) (e : Event) : Prop := s = false.

(** The closing steps of the driver: the publication of the report and
    the stop of the timer (lines 292-296). *)
Definition is_closing_step (e : Event) : bool :=
  match e with
  | EvSetVariable _ _ | EvTstop => true
  | _ => false
  end.

Definition closing_next (s : bool) (e : Event) : bool :=
  s || is_closing_step e.

(** The options the driver writes: four global ones and two local to the
    SCF module. *)
Definition written_globals : list string :=
  ["SAVE_JK"; "DF_INTS_IO"; "DFT_FUNCTIONAL"; "DFT_GRAC_SHIFT"].

Definition written_locals : list (string * string) :=
  [("SCF", "SCF_TYPE"); ("SCF", "REFERENCE")].

(** [frame o0 o]: the store [o] is [o0] except for the options the
    driver writes. *)
Definition frame (o0 o : Options) : Prop :=
  defaults o = defaults o0 /\
  (forall key, ~ In key written_globals ->
               globals o !! key = globals o0 !! key) /\
  (forall module key, ~ In (module, key) written_locals ->
                      locals o !! (module, key) = locals o0 !! (module, key)).

(** The default namespace last set. *)
Definition namespace_next (s : option string) (e : Event) : option string :=
  match e with
  | EvSetDefaultNamespace ns => Some ns
  | _ => s
  end.

Definition last_namespace (evs : list Event) : option string :=
  final namespace_next None evs.

(** The default namespace each sub-calculation runs under, by its
    banner: the DFT monomer calculations under the namespace of their
    monomer, every other one under the dimer's. *)
Definition namespace_of_banner (banner : string) : string :=
  if String.eqb banner "SAPT(DFT): DFT Monomer A" then "monomerA"
  else if String.eqb banner "SAPT(DFT): DFT Monomer B" then "monomerB"
  else "dimer".

Definition namespace_ok (s : option string) (e : Event) : Prop :=
  match e with
  | EvScfHelper _ banner _ => s = Some (namespace_of_banner banner)
  | _ => True
  end.

(** The relabelings of the intermediate store as a chain: each one
    moves file 97 from the namespace the previous one left it in. *)
Definition relabeling (e : Event) : option (Z * string * string) :=
  match e with
  | EvChangeFileNamespace fileno old new => Some (fileno, old, new)
  | _ => None
  end.

Definition relabelings (evs : list Event) : list (Z * string * string) :=
  omap relabeling evs.

Fixpoint relabel_chain (current : string)
         (steps : list (Z * string * string)) : option string :=
  match steps with
  | [] => Some current
  | (fileno, old, new) :: rest =>
      if Z.eqb fileno 97 && String.eqb old current
      then relabel_chain new rest
      else None
  end.

(** The monitor of the chain: whether the SCF type is settled (it is
    from the start when the caller has chosen it, and once the run has
    forced it otherwise), and the namespace file 97 is in. *)
Definition is_scf_type_write (e : Event) : bool :=
  match e with
  | EvSetLocalOption module key _ =>
      String.eqb module "SCF" && String.eqb key "SCF_TYPE"
  | _ => false
  end.

Definition chain_next (s : bool * string) (e : Event) : bool * string :=
  match e with
  | EvChangeFileNamespace _ _ new => (fst s, new)
  | _ => (if is_scf_type_write e then true else fst s, snd s)
  end.

Definition chain_ok (s : bool * string) (e : Event) : Prop :=
  match e with
  | EvChangeFileNamespace fileno old _ => fileno = 97%Z /\ old = snd s
  | _ => True
  end.

Definition chain_inv (s : bool * string) (o : Options) : Prop :=
  if fst s
  then py_eq_str (opt_get o "SCF" "SCF_TYPE") "DF" = true
  else opt_changed o "SCF" "SCF_TYPE" = false.

(** The writes a run never takes back: SAVE_JK and the reference of
    the SCF module.  The monitor remembers which of the two has been
    written. *)
Definition is_save_jk_write (e : Event) : bool :=
  match e with
  | EvSetGlobalOption key _ => String.eqb key "SAVE_JK"
  | _ => false
  end.

Definition is_reference_write (e : Event) : bool :=
  match e with
  | EvSetLocalOption module key _ =>
      String.eqb module "SCF" && String.eqb key "REFERENCE"
  | _ => false
  end.

Definition written_next (s : bool * bool) (e : Event) : bool * bool :=
  match e with
  | EvSetGlobalOption _ _ => (if is_save_jk_write e then true else fst s, snd s)
  | EvSetLocalOption _ _ _ =>
      (fst s, if is_reference_write e then true else snd s)
  | _ => s
  end.

Definition written_inv (s : bool * bool) (o : Options) : Prop :=
  (fst s = true -> opt_get_global o "SAVE_JK" = VBool true) /\
  (snd s = true -> opt_get o "SCF" "REFERENCE" = VStr "RKS").

(** More example inputs: an unrestricted reference on a composite of
    three fragments; the functional "HF" with both shifts at 0.0;
    keyword arguments that name both a molecule and a reference
    wavefunction. *)
Definition demo_world_uhf : World :=
  Demo.world (("REFERENCE", VStr "UHF") :: Demo.shifts) 3.

Definition demo_world_hf : World :=
  Demo.world [("SAPT_DFT_FUNCTIONAL", VStr "HF")] 2.

Definition demo_run_hf : Result Wavefunction * World :=
  run_sapt_dft (Demo.engine None) "sapt(dft)" Demo.no_kwargs demo_world_hf.

Definition kwargs_with_molecule_and_ref_wfn : Kwargs :=
  mkKwargs (Some (mkWavefunction (Demo.molecule 2) "cc-pvdz" None 0))
           (Some (Demo.molecule 2)) [].

(** The message of the TypeError a clash of keyword arguments raises:
    the interpreter's text, without the module prefix of the function's
    name and without the name of the duplicated keyword, which depend
    on the version of the interpreter and on the order of the caller's
    keywords. *)
Definition msg_multiple_values : string :=
  "scf_helper() got multiple values for keyword argument".

(** ** Basic facts about the stores *)

Lemma opt_get_set_local_eq module key v o :
  opt_get (opt_set_local module key v o) module key = v.
Proof.
  unfold opt_get, opt_set_local; simpl.
  by rewrite lookup_insert_eq.
Qed.

Lemma opt_get_set_local_ne module key v o module' key' :
  (module, key) ≠ (module', key') ->
  opt_get (opt_set_local module key v o) module' key' = opt_get o module' key'.
Proof.
  intros Hne. unfold opt_get, opt_set_local; simpl.
  by rewrite lookup_insert_ne.
Qed.

Lemma opt_get_set_global_ne key v o module' key' :
  key ≠ key' ->
  opt_get (opt_set_global key v o) module' key' = opt_get o module' key'.
Proof.
  intros Hne. unfold opt_get, opt_set_global; simpl.
  by rewrite lookup_insert_ne.
Qed.

Lemma opt_get_global_set_local module key v o key' :
  opt_get_global (opt_set_local module key v o) key' = opt_get_global o key'.
Proof. reflexivity. Qed.

Lemma opt_get_global_set_global_ne key v o key' :
  key ≠ key' ->
  opt_get_global (opt_set_global key v o) key' = opt_get_global o key'.
Proof.
  intros Hne. unfold opt_get_global, opt_set_global; simpl.
  by rewrite lookup_insert_ne.
Qed.

Lemma opt_get_global_set_global_eq key v o :
  opt_get_global (opt_set_global key v o) key = v.
Proof.
  unfold opt_get_global, opt_set_global; simpl.
  by rewrite lookup_insert_eq.
Qed.

Lemma py_eq_str_true v s : py_eq_str v s = true -> v = VStr s.
Proof.
  destruct v; simpl; try discriminate.
  intros H. apply String.eqb_eq in H. by subst.
Qed.

Lemma new_events_app w w' evs :
  trace w' = trace w ++ evs -> new_events w w' = evs.
Proof.
  intros H. unfold new_events. rewrite H. apply drop_app_length.
Qed.

Lemma opt_get_set_if_global_ne c key v o module' key' :
  key <> key' ->
  opt_get (set_if c (opt_set_global key v) o) module' key' =
  opt_get o module' key'.
Proof.
  intros Hne. destruct c; simpl; [|done].
  by apply opt_get_set_global_ne.
Qed.

Lemma opt_get_dft_monomers_options_ne functional a b o module' key' :
  "DFT_GRAC_SHIFT" <> key' -> "DFT_FUNCTIONAL" <> key' ->
  ("SCF", "REFERENCE") <> (module', key') ->
  opt_get (dft_monomers_options functional a b o) module' key' =
  opt_get o module' key'.
Proof.
  intros H1 H2 H3. unfold dft_monomers_options.
  rewrite opt_get_set_global_ne, opt_get_set_if_global_ne,
    opt_get_set_global_ne, opt_get_set_if_global_ne,
    opt_get_set_local_ne, opt_get_set_global_ne by done.
  done.
Qed.

(** ** Facts about dictionaries *)

Lemma dict_get_set_eq k v d : dict_get k (dict_set k v d) = Some v.
Proof.
  induction d as [|[k' v'] d IH]; simpl.
  - by rewrite String.eqb_refl.
  - destruct (String.eqb k' k) eqn:E; simpl; rewrite E; [done|apply IH].
Qed.

Lemma dict_get_set_ne k k' v d :
  k <> k' -> dict_get k (dict_set k' v d) = dict_get k d.
Proof.
  intros Hne. induction d as [|[k'' v''] d IH]; simpl.
  - destruct (String.eqb k' k) eqn:E; [|done].
    apply String.eqb_eq in E. by subst.
  - destruct (String.eqb k'' k') eqn:E; simpl.
    + apply String.eqb_eq in E. subst k''.
      destruct (String.eqb k' k) eqn:E'; [|done].
      apply String.eqb_eq in E'. by subst.
    + by rewrite IH.
Qed.

Lemma dict_get_update_notin k d e :
  ~ In k (dict_keys e) -> dict_get k (dict_update d e) = dict_get k d.
Proof.
  unfold dict_update. revert d.
  induction e as [|[k' v'] e IH]; intros d Hnotin; simpl; [done|].
  rewrite IH.
  - apply dict_get_set_ne. intros ->. apply Hnotin. by left.
  - intros Hin. apply Hnotin. by right.
Qed.

Lemma dict_keys_set k k' v d :
  In k (dict_keys (dict_set k' v d)) <-> k = k' \/ In k (dict_keys d).
Proof.
  unfold dict_keys. induction d as [|[k'' v''] d IH]; simpl.
  - intuition congruence.
  - destruct (String.eqb k'' k') eqn:E; simpl.
    + apply String.eqb_eq in E. subst. intuition congruence.
    + rewrite IH. intuition congruence.
Qed.

Lemma dict_keys_update k d e :
  In k (dict_keys (dict_update d e)) <->
  In k (dict_keys d) \/ In k (dict_keys e).
Proof.
  unfold dict_update. revert d.
  induction e as [|[k' v'] e IH]; intros d; simpl.
  - intuition congruence.
  - rewrite IH, dict_keys_set. intuition congruence.
Qed.

Lemma lookup0_set_eq k v d : lookup0 k (dict_set k v d) = v.
Proof. unfold lookup0. by rewrite dict_get_set_eq. Qed.

Lemma lookup0_update_notin k d e :
  ~ In k (dict_keys e) -> lookup0 k (dict_update d e) = lookup0 k d.
Proof. intros H. unfold lookup0. by rewrite dict_get_update_notin. Qed.

Lemma lookup0_merge_terms_notin k d t :
  ~ In k (dict_keys (t_elst t)) -> ~ In k (dict_keys (t_exch t)) ->
  ~ In k (dict_keys (t_ind t)) ->
  lookup0 k (merge_terms d t) = lookup0 k d.
Proof.
  intros H1 H2 H3. unfold merge_terms.
  by rewrite !lookup0_update_notin.
Qed.

(** ** Symbolic execution of driver programs

    The rules below execute a program one call at a time.  The events
    appended so far are kept as a stack of chunks [cs], newest first: the
    trace is [tr ++ concat (rev cs)]. *)

Arguments opt_get : simpl never.
Arguments opt_get_global : simpl never.
Arguments opt_changed : simpl never.
Arguments opt_set_local : simpl never.
Arguments opt_set_global : simpl never.

Lemma wp_elim {A} (m : M A) w Q r w' :
  wp m w Q -> m w = (r, w') -> Q r w'.
Proof. unfold wp. intros H E. by rewrite E in H. Qed.

Lemma wp_intro {A} (m : M A) w (Q : Result A -> World -> Prop) :
  (forall r w', m w = (r, w') -> Q r w') -> wp m w Q.
Proof. unfold wp. intros H. apply H. by destruct (m w). Qed.

Lemma wp_bind {A B} (m : M A) (k : A -> M B) w Q :
  wp m w (fun r w1 =>
            match r with
            | Ok a => wp (k a) w1 Q
            | Raise e => Q (Raise e) w1
            end) ->
  wp (bind m k) w Q.
Proof. unfold wp, bind. by destruct (m w) as [[a|e] w1]. Qed.

Lemma wp_ret {A} (a : A) w Q : Q (Ok a) w -> wp (ret a) w Q.
Proof. done. Qed.

Lemma wp_raise {A} e w (Q : Result A -> World -> Prop) :
  Q (Raise e) w -> wp (raise e) w Q.
Proof. done. Qed.

Lemma wp_if_split {A} (c : bool) (m1 m2 : M A) w Q :
  (c = true -> wp m1 w Q) -> (c = false -> wp m2 w Q) ->
  wp (if c then m1 else m2) w Q.
Proof. destruct c; auto. Qed.

Lemma wp_option_split {A B} (c : option B) (m1 : B -> M A) (m2 : M A) w Q :
  (forall b, c = Some b -> wp (m1 b) w Q) -> (c = None -> wp m2 w Q) ->
  wp (match c with Some b => m1 b | None => m2 end) w Q.
Proof. destruct c; auto. Qed.

Lemma wp_start {A} (m : M A) o vs am ns tr Q :
  wp m (mkWorld o vs am ns (tr ++ concat (rev []))) Q ->
  wp m (mkWorld o vs am ns tr) Q.
Proof. simpl. by rewrite app_nil_r. Qed.

Lemma snoc_chunk (tr : list Event) cs c :
  (tr ++ concat (rev cs)) ++ c = tr ++ concat (rev (c :: cs)).
Proof.
  simpl. rewrite concat_app. simpl. by rewrite app_nil_r, app_assoc.
Qed.

Ltac prim_rule :=
  unfold wp; cbn -[concat rev];
  unfold log, with_options, with_variables, with_namespace; cbn -[concat rev];
  by rewrite snoc_chunk.

Section Primitives.
Context {o : Options} {vs : gmap string float} {am : Molecule}
        {ns : string} {tr : list Event} {cs : list (list Event)}.

Local Notation "'W'" := (mkWorld o vs am ns (tr ++ concat (rev cs))).
Local Notation "'W+' e" :=
  (mkWorld o vs am ns (tr ++ concat (rev ([e] :: cs))))
  (at level 10).

Lemma wp_call {A} (f : Ext A) ev Q :
  (forall a vs',
      Q (Ok a)
        (mkWorld o vs' am ns (tr ++ concat (rev ([ev (Some a)] :: cs))))) ->
  (forall e, Q (Raise e) (W+ (ev None))) ->
  wp (call f ev) W Q.
Proof.
  unfold wp, call, log, with_variables. intros H1 H2.
  destruct (f _) as [[a vs1]|e]; cbn -[concat rev]; rewrite snoc_chunk;
    [apply H1 | apply H2].
Qed.

Lemma wp_tstart Q : Q (Ok tt) (W+ EvTstart) -> wp core.tstart W Q.
Proof. prim_rule. Qed.

Lemma wp_tstop Q : Q (Ok tt) (W+ EvTstop) -> wp core.tstop W Q.
Proof. prim_rule. Qed.

Lemma wp_has_option_changed m k Q :
  Q (Ok (opt_changed o m k)) W -> wp (core.has_option_changed m k) W Q.
Proof. done. Qed.

Lemma wp_get_option m k Q :
  (forall v, opt_get o m k = v -> Q (Ok v) W) ->
  wp (core.get_option m k) W Q.
Proof. intros H. by apply H. Qed.

Lemma wp_get_global_option k Q :
  (forall v, opt_get_global o k = v -> Q (Ok v) W) ->
  wp (core.get_global_option k) W Q.
Proof. intros H. by apply H. Qed.

Lemma wp_set_local_option m k v Q :
  Q (Ok tt)
    (mkWorld (opt_set_local m k v o) vs am ns
             (tr ++ concat (rev ([EvSetLocalOption m k v] :: cs)))) ->
  wp (core.set_local_option m k v) W Q.
Proof. prim_rule. Qed.

Lemma wp_set_global_option k v Q :
  Q (Ok tt)
    (mkWorld (opt_set_global k v o) vs am ns
             (tr ++ concat (rev ([EvSetGlobalOption k v] :: cs)))) ->
  wp (core.set_global_option k v) W Q.
Proof. prim_rule. Qed.

Lemma wp_prepare_options_for_module m Q :
  Q (Ok tt) (W+ (EvPrepareOptions m)) ->
  wp (core.prepare_options_for_module m) W Q.
Proof. prim_rule. Qed.

Lemma wp_get_active_molecule Q :
  Q (Ok am) W -> wp core.get_active_molecule W Q.
Proof. done. Qed.

Lemma wp_get_variable k Q :
  (forall x, Q (Ok x) (W+ (EvGetVariable k x))) ->
  wp (core.get_variable k) W Q.
Proof.
  intros H.
  specialize (H match vs !! k with Some x => x | None => 0%float end).
  revert H. prim_rule.
Qed.

Lemma wp_set_default_namespace n Q :
  Q (Ok tt)
    (mkWorld o vs am n
             (tr ++ concat (rev ([EvSetDefaultNamespace n] :: cs)))) ->
  wp (core.IO.set_default_namespace n) W Q.
Proof. prim_rule. Qed.

Lemma wp_change_file_namespace u a b Q :
  Q (Ok tt) (W+ (EvChangeFileNamespace u a b)) ->
  wp (core.IO.change_file_namespace u a b) W Q.
Proof. prim_rule. Qed.

Lemma wp_OptionsState keys Q :
  (forall stash, Q (Ok stash) W) -> wp (p4util.OptionsState keys) W Q.
Proof. intros H. apply H. Qed.

End Primitives.

Lemma copy_back_run d o vs am ns tr :
  copy_back d (mkWorld o vs am ns tr) =
  (Ok tt, mkWorld o (publish d vs) am ns (tr ++ publish_events d)).
Proof.
  revert vs tr. induction d as [|[k v] d IH]; intros vs tr.
  - simpl. by rewrite app_nil_r.
  - simpl. unfold bind. simpl. unfold log, with_variables. simpl.
    rewrite IH. simpl. by rewrite <- app_assoc.
Qed.

Lemma wp_copy_back d o vs am ns tr cs Q :
  Q (Ok tt) (mkWorld o (publish d vs) am ns
                     (tr ++ concat (rev (publish_events d :: cs)))) ->
  wp (copy_back d) (mkWorld o vs am ns (tr ++ concat (rev cs))) Q.
Proof.
  unfold wp. rewrite copy_back_run. cbn -[concat rev].
  by rewrite snoc_chunk.
Qed.

Lemma negb_true_elim b : negb b = true -> b = false.
Proof. by destruct b. Qed.

Lemma negb_false_elim b : negb b = false -> b = true.
Proof. by destruct b. Qed.

Lemma lookup0_get k d v : dict_get k d = Some v -> lookup0 k d = v.
Proof. unfold lookup0. by intros ->. Qed.

Lemma wp_fmt_f v w Q :
  (forall e, fmt_f_error v = Some e -> Q (Raise e) w) ->
  (fmt_f_error v = None -> Q (Ok tt) w) ->
  wp (fmt_f v) w Q.
Proof.
  unfold fmt_f. intros H1 H2.
  destruct (fmt_f_error v) as [e|]; [by apply H1|by apply H2].
Qed.

Lemma wp_getitem d k w Q :
  (forall v, dict_get k d = Some v -> Q (Ok v) w) ->
  Q (Raise (KeyError k)) w ->
  wp (getitem d k) w Q.
Proof.
  unfold getitem. intros H1 H2. destruct (dict_get k d) as [v|]; [by apply H1|done].
Qed.

Lemma post_eq {A} (Q : Result A -> World -> Prop) r1 r2 w1 w2 :
  Q r2 w2 -> r2 = r1 -> w2 = w1 -> Q r1 w1.
Proof. by intros H <- <-. Qed.

Ltac norm_opts :=
  repeat first
    [ rewrite opt_get_set_local_eq
    | rewrite opt_get_set_local_ne by discriminate
    | rewrite opt_get_set_global_ne by discriminate
    | rewrite opt_get_set_if_global_ne by discriminate
    | rewrite opt_get_dft_monomers_options_ne by discriminate
    | rewrite opt_get_global_set_local
    | rewrite opt_get_global_set_global_ne by discriminate ].

Ltac rewrite_guards :=
  repeat match goal with
         | H : _ = true |- _ => rewrite H
         | H : _ = false |- _ => rewrite H
         end.

Ltac norm_opts_in H :=
  repeat first
    [ rewrite opt_get_set_local_eq in H
    | rewrite opt_get_set_local_ne in H by discriminate
    | rewrite opt_get_set_global_ne in H by discriminate
    | rewrite opt_get_set_if_global_ne in H by discriminate
    | rewrite opt_get_dft_monomers_options_ne in H by discriminate
    | rewrite opt_get_global_set_local in H
    | rewrite opt_get_global_set_global_ne in H by discriminate ].

(** A branch whose guard contradicts what is known is closed at once. *)
Ltac decide_branch H :=
  norm_opts_in H;
  lazymatch type of H with
  | negb _ = true => apply negb_true_elim in H
  | negb _ = false => apply negb_false_elim in H
  | _ => idtac
  end;
  try (exfalso;
       lazymatch type of H with
       | ?c = _ =>
           match goal with
           | H' : c = _ |- _ => rewrite H' in H; discriminate H
           | _ => progress simpl in H; discriminate H
           end
       end).

Ltac wp_value :=
  let v := fresh "v" in
  let H := fresh "Hv" in
  intros v H; norm_opts_in H; subst v.

Ltac wp_step :=
  lazymatch goal with
  | |- wp (bind _ _) _ _ => apply wp_bind
  | |- wp (ret _) _ _ => apply wp_ret
  | |- wp (raise _) _ _ => apply wp_raise
  | |- wp (call _ _) _ _ => apply wp_call; [intros ? ? | intros ?]
  | |- wp (if _ then _ else _) _ _ =>
      apply wp_if_split; (let H := fresh "Hc" in intros H; decide_branch H)
  | |- wp (when _ _) _ _ => unfold when at 1
  | |- wp (match _ with Some _ => _ | None => _ end) _ _ =>
      apply wp_option_split; [intros ? ? | intros ?]
  | |- wp core.tstart _ _ => apply wp_tstart
  | |- wp core.tstop _ _ => apply wp_tstop
  | |- wp (core.has_option_changed _ _) _ _ => apply wp_has_option_changed
  | |- wp (core.get_option _ _) _ _ => apply wp_get_option; wp_value
  | |- wp (core.get_global_option _) _ _ =>
      apply wp_get_global_option; wp_value
  | |- wp (core.set_local_option _ _ _) _ _ => apply wp_set_local_option
  | |- wp (core.set_global_option _ _) _ _ => apply wp_set_global_option
  | |- wp (core.prepare_options_for_module _) _ _ =>
      apply wp_prepare_options_for_module
  | |- wp core.get_active_molecule _ _ => apply wp_get_active_molecule
  | |- wp (core.get_variable _) _ _ => apply wp_get_variable; intros ?
  | |- wp (core.IO.set_default_namespace _) _ _ =>
      apply wp_set_default_namespace
  | |- wp (core.IO.change_file_namespace _ _ _) _ _ =>
      apply wp_change_file_namespace
  | |- wp (p4util.OptionsState _) _ _ => apply wp_OptionsState; intros ?
  | |- wp (copy_back _) _ _ => apply wp_copy_back
  | |- wp (when_df _) _ _ => unfold when_df at 1
  | |- wp (fmt_f ?v) _ _ =>
      apply wp_fmt_f;
      [ let e := fresh "e" in
        let H := fresh "Hc" in
        intros e H;
        try (exfalso;
             match goal with
             | H' : fmt_f_error v = None |- _ =>
                 rewrite H' in H; discriminate H
             end)
      | let H := fresh "Hc" in intros H ]
  | |- wp (getitem _ _) _ _ =>
      apply wp_getitem;
      [ let v := fresh "v" in
        let H := fresh "Hget" in
        intros v H; apply lookup0_get in H; subst v
      | ]
  | |- wp (call_scf_helper _ _ _ _) _ _ => unfold call_scf_helper at 1
  end;
  cbv beta iota delta [fst snd].

Ltac wp_run := repeat wp_step.

(** ** The blocks of the driver, one rule each

    On success a block appends exactly the events listed for it; a
    failure of a block is a failure of the run. *)

Lemma wp_get_sapt_dimer kwargs o vs am ns tr Q :
  Q (Ok (sapt_dimer_of kwargs am, kwargs_passed kwargs am))
    (mkWorld o vs am ns tr) ->
  wp (get_sapt_dimer kwargs) (mkWorld o vs am ns tr) Q.
Proof.
  unfold wp, get_sapt_dimer, sapt_dimer_of, kwargs_passed, pick_molecule.
  by destruct (kw_ref_wfn kwargs).
Qed.

Lemma validate_run sapt_dimer functional a b w :
  validate sapt_dimer functional a b w =
  (match validation_failure functional a b
                            (opt_get (options w) "SCF" "REFERENCE")
                            sapt_dimer with
   | Some msg => Raise (ValidationError msg)
   | None => Ok tt
   end, w).
Proof.
  unfold validate, validation_failure, bind, core.get_option. simpl.
  destruct (negb _ && _); [done|]. simpl.
  destruct (negb (py_eq_str _ "RHF")); [done|]. simpl.
  by destruct (negb (_ =? 2)%nat).
Qed.

Lemma wp_validate sapt_dimer functional a b o vs am ns tr Q :
  (validation_failure functional a b (opt_get o "SCF" "REFERENCE")
                      sapt_dimer = None ->
   Q (Ok tt) (mkWorld o vs am ns tr)) ->
  (forall e w', Q (Raise e) w') ->
  wp (validate sapt_dimer functional a b) (mkWorld o vs am ns tr) Q.
Proof.
  intros Hok Hfail. unfold wp. rewrite validate_run. simpl.
  destruct (validation_failure _ _ _ _ _); [apply Hfail | by apply Hok].
Qed.

(** Turns a rule stated for a trace [tr ++ concat (rev (_ :: cs))] into
    one for a trace [tr0] on its own. *)
Ltac phase_start Hok :=
  match goal with
  | |- wp _ (mkWorld _ _ _ _ (?tr ++ concat (rev ?cs))) _ =>
      let tr0 := fresh "tr0" in
      repeat setoid_rewrite <- (snoc_chunk tr cs) in Hok;
      set (tr0 := tr ++ concat (rev cs)) in *; clearbody tr0;
      apply wp_start
  end.

Ltac phase_trace :=
  cbn [rev concat app]; rewrite ?app_nil_r; rewrite_guards; reflexivity.

Ltac phase_leaf Hok :=
  eapply post_eq; [apply Hok | | ]; cbn [hf_wfn_dimer hf_delta].

Lemma wp_dft_monomers eng sapt_dimer kwargs a b data o vs am ns tr cs Q :
  (forall p vs',
      Q (Ok (p_wfn_A p, p_wfn_B p,
             dict_set "DFT MONOMERB" (p_e_B p)
                      (dict_set "DFT MONOMERA" (p_e_A p) data)))
        (mkWorld
           (dft_monomers_options (opt_get o "SAPT" "SAPT_DFT_FUNCTIONAL")
                                 a b o)
           vs' am "monomerB"
           (tr ++ concat (rev (
                   dft_monomers_events
                     (py_eq_str (opt_get o "SCF" "SCF_TYPE") "DF")
                     (opt_get o "SAPT" "SAPT_DFT_FUNCTIONAL") a b
                     sapt_dimer p :: cs))))) ->
  (forall e w', Q (Raise e) w') ->
  wp (dft_monomers eng (monomerA_of sapt_dimer) (monomerB_of sapt_dimer)
                   kwargs a b data)
     (mkWorld o vs am ns (tr ++ concat (rev cs))) Q.
Proof.
  intros Hok Hfail. phase_start Hok. unfold dft_monomers.
  wp_run; try apply Hfail.
  all: match goal with
       | |- _ (Ok (?wA, ?wB, dict_set _ ?eB (dict_set _ ?eA _))) _ =>
           eapply post_eq;
           [ apply (Hok (mkPrimary wA wA eA wB eB (mkTerms [] [] [] [])
                                   "" [] [] ""))
           | reflexivity | ]
       end.
  all: unfold dft_monomers_events, dft_monomers_options, relabel_events,
         shift_events, set_if, scf_events; cbn [p_wfn_A p_wfn_B p_e_A p_e_B];
       phase_trace.
Qed.

Lemma wp_delta_hf_segment eng sapt_dimer kwargs data o vs am ns tr cs Q :
  (forall h vs',
      Q (Ok (hf_wfn_dimer h,
             dict_set "Delta HF Correction" (hf_delta h) data))
        (mkWorld
           (set_if (py_eq_str (opt_get o "SCF" "SCF_TYPE") "DF")
                   (opt_set_global "DF_INTS_IO" (VStr "SAVE")) o)
           vs' am ns
           (tr ++ concat (rev (
                   delta_hf_events
                     (py_eq_str (opt_get o "SCF" "SCF_TYPE") "DF")
                     sapt_dimer (opt_get o "SAPT" "MAXITER")
                     (opt_get o "SAPT" "D_CONVERGENCE") h :: cs))))) ->
  (forall e w', Q (Raise e) w') ->
  wp (delta_hf_segment eng sapt_dimer (monomerA_of sapt_dimer)
                       (monomerB_of sapt_dimer) kwargs data)
     (mkWorld o vs am ns (tr ++ concat (rev cs))) Q.
Proof.
  intros Hok Hfail. phase_start Hok. unfold delta_hf_segment.
  wp_run; try apply Hfail.
  all: match goal with
       | |- context [EvHfSummary
                       (dict_update
                          (dict_update
                             (dict_update
                                (dict_set _ ?eB
                                   (dict_set _ ?eA (dict_set _ ?eD [])))
                                ?elst) ?exch) ?ind) _ _ (Some ?text)] =>
           match goal with
           | |- context [EvBuildCache ?wA ?wB (Some ?cache)] =>
               match goal with
               | |- _ (Ok (?wD, dict_set _ ?delta _)) _ =>
                   eapply post_eq;
                   [ apply (Hok (mkDeltaHf wD eD wA eA wB eB
                                           (mkTerms cache elst exch ind)
                                           text delta))
                   | reflexivity | ]
               end
           end
       end.
  all: unfold delta_hf_events, relabel_events, set_if, scf_events,
         terms_events;
       cbn [hf_wfn_dimer hf_e_dimer hf_wfn_A hf_e_A hf_wfn_B hf_e_B
            hf_terms hf_text hf_delta t_cache t_elst t_exch t_ind];
       phase_trace.
Qed.

Lemma wp_interaction_segment eng sapt_dimer dimer_wfn wfn_A wfn_B a b data
      built e_A e_B o vs am ns tr cs Q :
  (forall terms aux fdds mp2 text vs',
      Q (Ok tt)
        (mkWorld o vs' am ns
           (tr ++ concat (rev (
                   interaction_events
                     sapt_dimer (opt_get o "SAPT" "MAXITER")
                     (opt_get o "SAPT" "D_CONVERGENCE")
                     (opt_get o "SAPT" "SAPT_DFT_MP2_DISP_ALG")
                     dimer_wfn
                     (dict_update
                        (dict_update (merge_terms data terms) fdds) mp2)
                     (mkPrimary built wfn_A e_A wfn_B e_B terms aux fdds
                                mp2 text) :: cs))))) ->
  (forall e w', Q (Raise e) w') ->
  wp (interaction_segment eng sapt_dimer dimer_wfn wfn_A wfn_B a b data)
     (mkWorld o vs am ns (tr ++ concat (rev cs))) Q.
Proof.
  intros Hok Hfail. phase_start Hok. unfold interaction_segment.
  wp_run; try apply Hfail.
  all: match goal with
       | |- context [EvDftSummary
                       (dict_update
                          (dict_update
                             (dict_update
                                (dict_update (dict_update _ ?elst) ?exch)
                                ?ind) ?fdds) ?mp2) _ (Some ?text)] =>
           match goal with
           | |- context [EvBuildCache _ _ (Some ?cache)] =>
               match goal with
               | |- context [EvBasisBuild _ (Some ?aux)] =>
                   eapply post_eq;
                   [ apply (Hok (mkTerms cache elst exch ind)
                                aux fdds mp2 text)
                   | reflexivity | ]
               end
           end
       end.
  all: unfold interaction_events, terms_events, mp2_event, merge_terms;
       cbn [p_wfn_A p_wfn_B p_terms p_aux_basis p_fdds p_mp2 p_text
            t_cache t_elst t_exch t_ind];
       phase_trace.
Qed.

(** ** The successful run *)

Ltac close_failure :=
  lazymatch goal with
  | |- forall ret, Raise _ = Ok ret -> _ =>
      let ret := fresh in
      let H := fresh in
      intros ret H; discriminate H
  end.

Ltac run_step :=
  first
    [ wp_step
    | apply wp_get_sapt_dimer
    | apply wp_validate;
      [ let H := fresh "Hvalid" in intros H; norm_opts_in H | intros ? ? ]
    | apply wp_delta_hf_segment; [ intros ? ? | intros ? ? ]
    | apply wp_dft_monomers; [ intros ? ? | intros ? ? ]
    | lazymatch goal with
      | |- wp (interaction_segment _ _ ?dw (p_wfn_A ?p) (p_wfn_B ?p) _ _ _)
              _ _ =>
          apply (wp_interaction_segment _ _ _ _ _ _ _ _ dw
                                        (p_e_A p) (p_e_B p));
          [ intros ? ? ? ? ? ? | intros ? ? ]
      end ];
  cbv beta iota delta [fst snd];
  try close_failure.

Ltac run_leaf :=
  let ret := fresh "ret" in
  let H := fresh "Hret" in
  intros ret H; injection H as <-;
  split; [ assumption | ];
  lazymatch goal with
  | |- context [interaction_events _ _ _ _ _ _ ?pp] =>
      first
        [ match goal with h : DeltaHf |- _ => exists h, pp end
        | exists (no_delta_hf (p_built pp)), pp ]
  end;
  cbn [trace options];
  unfold final_options, run_events, entry_events, uses_df, entry_options,
    does_delta_hf,
    mon_a_shift_of, mon_b_shift_of, dimer_wfn_of, report_of_run,
    data_after_monomers, data_after_hf;
  cbn [p_built p_wfn_A p_e_A p_wfn_B p_e_B p_terms p_aux_basis p_fdds
       p_mp2 p_text];
  rewrite_guards; norm_opts; rewrite_guards;
  cbn [rev concat app];
  repeat split; reflexivity.

Lemma run_sapt_dft_wp eng name kwargs o vs am ns tr :
  wp (run_sapt_dft eng name kwargs) (mkWorld o vs am ns tr)
     (run_post kwargs o am tr).
Proof.
  apply wp_start. unfold run_sapt_dft, run_post.
  repeat run_step.
  all: run_leaf.
Qed.

(** Every successful run passed the three validation gates, appended
    exactly [run_events] to the trace, returned [dimer_wfn_of] and left
    [final_options] behind. *)
Theorem run_sapt_dft_ok eng name kwargs w ret w' :
  run_sapt_dft eng name kwargs w = (Ok ret, w') ->
  let o := options w in
  let sapt_dimer := sapt_dimer_of kwargs (active_molecule w) in
  entry_validation o sapt_dimer = None /\
  exists h p,
    new_events w w' = run_events o sapt_dimer h p /\
    ret = dimer_wfn_of (does_delta_hf o) h p /\
    options w' = final_options o.
Proof.
  intros Hrun. destruct w as [o vs am ns tr].
  pose proof (wp_elim _ _ _ _ _ (run_sapt_dft_wp eng name kwargs o vs am ns tr)
                      Hrun ret eq_refl) as (Hvalid & h & p & Htr & Hret & Hopt).
  cbn [options active_molecule]. split; [done|].
  exists h, p. split; [|done].
  by apply new_events_app.
Qed.

(** ** Runs that fail validation *)

Lemma run_validation_failure eng name kwargs w msg :
  let o := options w in
  fmt_f_error (mon_a_shift_of o) = None ->
  fmt_f_error (mon_b_shift_of o) = None ->
  entry_validation o (sapt_dimer_of kwargs (active_molecule w)) = Some msg ->
  run_sapt_dft eng name kwargs w =
  (Raise (ValidationError msg),
   mkWorld (entry_options o) (variables w) (active_molecule w)
           (default_namespace w) (trace w ++ entry_events o)).
Proof.
  destruct w as [o vs am ns tr]. cbn [options variables active_molecule
                                      default_namespace trace].
  intros Ha Hb Hval.
  enough (wp (run_sapt_dft eng name kwargs) (mkWorld o vs am ns tr)
             (fun r w' =>
                r = Raise (ValidationError msg) /\
                w' = mkWorld (entry_options o) vs am ns
                             (tr ++ entry_events o))) as [Hr Hw].
  { destruct (run_sapt_dft eng name kwargs (mkWorld o vs am ns tr)).
    simpl in Hr, Hw. by subst. }
  unfold mon_a_shift_of, mon_b_shift_of in *.
  apply wp_start. unfold run_sapt_dft.
  repeat first [ wp_step | apply wp_get_sapt_dimer ].
  all: unfold wp at 1; rewrite validate_run;
    cbn [options fst snd]; norm_opts;
    unfold entry_validation, mon_a_shift_of, mon_b_shift_of in Hval;
    rewrite Hval; cbn [fst snd];
    unfold entry_options, entry_events; rewrite_guards;
    cbn [rev concat app]; done.
Qed.
(** ** Rules for monitors *)

Section MonitorRules.

Context {S : Type}.
Variable next : S -> Event -> S.
Variable ok : S -> Event -> Prop.

Local Abbreviation accepts := (accepts next ok).
Local Abbreviation final := (final next).

Lemma accepts_app s evs1 evs2 :
  accepts s (evs1 ++ evs2) <->
  accepts s evs1 /\ accepts (final s evs1) evs2.
Proof.
  revert s. induction evs1 as [|e evs1 IH]; intros s; simpl.
  - tauto.
  - rewrite IH. unfold final. tauto.
Qed.

Lemma final_app s evs1 evs2 :
  final s (evs1 ++ evs2) = final (final s evs1) evs2.
Proof. apply fold_left_app. Qed.

Variable I : S -> Options -> Prop.

Local Abbreviation triple := (triple next ok I).

Lemma triple_elim {A} s (m : M A) Q F w r w' :
  triple s m Q F -> I s (options w) -> m w = (r, w') ->
  accepts s (new_events w w') /\
  I (final s (new_events w w')) (options w') /\
  match r with
  | Ok a => Q a (final s (new_events w w'))
  | Raise _ => F (final s (new_events w w'))
  end.
Proof.
  intros Hm HI Hrun.
  destruct (Hm _ _ _ HI Hrun) as (evs & Htr & Hacc & HI1 & Hpost).
  by rewrite (new_events_app _ _ _ Htr).
Qed.

Lemma triple_ret {A} s (a : A) (Q : A -> S -> Prop) F :
  Q a s -> triple s (ret a) Q F.
Proof.
  intros HQ w r w' HI [= <- <-]. exists [].
  by rewrite app_nil_r.
Qed.

Lemma triple_ret_eq {A} s (a : A) F :
  triple s (ret a) (fun x s1 => x = a /\ s1 = s) F.
Proof. by apply triple_ret. Qed.

Lemma triple_ret_state {A} s (a : A) F :
  triple s (ret a) (fun _ s1 => s1 = s) F.
Proof. by apply triple_ret. Qed.

Lemma triple_ret_true {A} s (a : A) F :
  triple s (ret a) (fun _ _ => True) F.
Proof. by apply triple_ret. Qed.

Lemma triple_raise {A} s e (Q : A -> S -> Prop) F :
  F s -> triple s (raise e) Q F.
Proof.
  intros HF w r w' HI [= <- <-]. exists [].
  by rewrite app_nil_r.
Qed.

Lemma triple_bind {A B} s (m : M A) (k : A -> M B) Q1 Q F :
  triple s m Q1 F ->
  (forall a s1, Q1 a s1 -> triple s1 (k a) Q F) ->
  triple s (bind m k) Q F.
Proof.
  intros Hm Hk w r w' HI Hrun. unfold bind in Hrun.
  destruct (m w) as [[a|e] w1] eqn:Em.
  - destruct (Hm _ _ _ HI Em) as (evs1 & Htr1 & Hacc1 & HI1 & HQ1).
    destruct (Hk a _ HQ1 _ _ _ HI1 Hrun)
      as (evs2 & Htr2 & Hacc2 & HI2 & Hpost).
    exists (evs1 ++ evs2). rewrite final_app, accepts_app.
    split; [|done].
    by rewrite Htr2, Htr1, app_assoc.
  - injection Hrun as <- <-.
    destruct (Hm _ _ _ HI Em) as (evs1 & Htr1 & Hacc1 & HI1 & HF).
    by exists evs1.
Qed.

Lemma triple_if {A} s (c : bool) (m1 m2 : M A) Q F :
  (c = true -> triple s m1 Q F) ->
  (c = false -> triple s m2 Q F) ->
  triple s (if c then m1 else m2) Q F.
Proof. destruct c; auto. Qed.

Lemma triple_option {A B} s (c : option B) (m1 : B -> M A) (m2 : M A)
      Q F :
  (forall b, c = Some b -> triple s (m1 b) Q F) ->
  (c = None -> triple s m2 Q F) ->
  triple s (match c with Some b => m1 b | None => m2 end) Q F.
Proof. destruct c; auto. Qed.

Lemma triple_weaken {A} s (m : M A) (Q Q' : A -> S -> Prop) F :
  triple s m Q F -> (forall a s1, Q a s1 -> Q' a s1) -> triple s m Q' F.
Proof.
  intros Hm HQ w r w' HI Hrun.
  destruct (Hm _ _ _ HI Hrun) as (evs & Htr & Hacc & HI' & Hpost).
  exists evs. repeat (split; [done|]).
  destruct r; auto.
Qed.

(** Reads of the option store. *)
Lemma triple_get_option s module key F :
  triple s (core.get_option module key)
         (fun v s1 => (exists o, I s o /\ v = opt_get o module key) /\
                      s1 = s) F.
Proof.
  intros w r w' HI [= <- <-]. exists []. rewrite app_nil_r.
  simpl. eauto 10.
Qed.

Lemma triple_get_global_option s key F :
  triple s (core.get_global_option key)
         (fun v s1 => (exists o, I s o /\ v = opt_get_global o key) /\
                      s1 = s) F.
Proof.
  intros w r w' HI [= <- <-]. exists []. rewrite app_nil_r.
  simpl. eauto 10.
Qed.

Lemma triple_has_option_changed s module key F :
  triple s (core.has_option_changed module key)
         (fun v s1 => (exists o, I s o /\ v = opt_changed o module key) /\
                      s1 = s) F.
Proof.
  intros w r w' HI [= <- <-]. exists []. rewrite app_nil_r.
  simpl. eauto 10.
Qed.

Lemma triple_get_active_molecule s F :
  triple s core.get_active_molecule (fun _ s1 => s1 = s) F.
Proof.
  intros w r w' HI [= <- <-]. exists []. by rewrite app_nil_r.
Qed.

Lemma triple_OptionsState s keys F :
  triple s (p4util.OptionsState keys) (fun _ s1 => s1 = s) F.
Proof.
  intros w r w' HI [= <- <-]. exists []. by rewrite app_nil_r.
Qed.

(** Calls into the core that append one event and leave the option
    store alone. *)
Lemma triple_log {A} s (m : M A) (e : Event) F :
  (forall w, exists a vs ns,
      m w = (Ok a, mkWorld (options w) vs (active_molecule w) ns
                           (trace w ++ [e]))) ->
  ok s e ->
  (forall o, I s o -> I (next s e) o) ->
  triple s m (fun _ s1 => s1 = next s e) F.
Proof.
  intros Hm Hok HI' w r w' HI Hrun.
  destruct (Hm w) as (a & vs & ns & Em). rewrite Em in Hrun.
  injection Hrun as <- <-. exists [e]. simpl. auto.
Qed.

Lemma triple_tstart s F :
  ok s EvTstart -> (forall o, I s o -> I (next s EvTstart) o) ->
  triple s core.tstart (fun _ s1 => s1 = next s EvTstart) F.
Proof. apply triple_log. intros []. by eexists _, _, _. Qed.

Lemma triple_tstop s F :
  ok s EvTstop -> (forall o, I s o -> I (next s EvTstop) o) ->
  triple s core.tstop (fun _ s1 => s1 = next s EvTstop) F.
Proof. apply triple_log. intros []. by eexists _, _, _. Qed.

Lemma triple_prepare_options_for_module s module F :
  ok s (EvPrepareOptions module) ->
  (forall o, I s o -> I (next s (EvPrepareOptions module)) o) ->
  triple s (core.prepare_options_for_module module)
         (fun _ s1 => s1 = next s (EvPrepareOptions module)) F.
Proof. apply triple_log. intros []. by eexists _, _, _. Qed.

Lemma triple_set_default_namespace s ns F :
  ok s (EvSetDefaultNamespace ns) ->
  (forall o, I s o -> I (next s (EvSetDefaultNamespace ns)) o) ->
  triple s (core.IO.set_default_namespace ns)
         (fun _ s1 => s1 = next s (EvSetDefaultNamespace ns)) F.
Proof. apply triple_log. intros []. by eexists _, _, _. Qed.

Lemma triple_change_file_namespace s fileno old new F :
  ok s (EvChangeFileNamespace fileno old new) ->
  (forall o, I s o -> I (next s (EvChangeFileNamespace fileno old new)) o) ->
  triple s (core.IO.change_file_namespace fileno old new)
         (fun _ s1 => s1 = next s (EvChangeFileNamespace fileno old new)) F.
Proof. apply triple_log. intros []. by eexists _, _, _. Qed.

Lemma triple_set_variable s key v F :
  ok s (EvSetVariable key v) ->
  (forall o, I s o -> I (next s (EvSetVariable key v)) o) ->
  triple s (core.set_variable key v)
         (fun _ s1 => s1 = next s (EvSetVariable key v)) F.
Proof. apply triple_log. intros []. by eexists _, _, _. Qed.

Lemma triple_get_variable s key F :
  (forall x, ok s (EvGetVariable key x)) ->
  (forall x o, I s o -> I (next s (EvGetVariable key x)) o) ->
  triple s (core.get_variable key)
         (fun x s1 => s1 = next s (EvGetVariable key x)) F.
Proof.
  intros Hok HI' w r w' HI [= <- <-]. eexists [_]. simpl. auto.
Qed.

(** Writes to the option store. *)
Lemma triple_set_local_option s module key v F :
  ok s (EvSetLocalOption module key v) ->
  (forall o, I s o ->
             I (next s (EvSetLocalOption module key v))
               (opt_set_local module key v o)) ->
  triple s (core.set_local_option module key v)
         (fun _ s1 => s1 = next s (EvSetLocalOption module key v)) F.
Proof.
  intros Hok HI' w r w' HI [= <- <-]. eexists [_]. simpl. auto.
Qed.

Lemma triple_set_global_option s key v F :
  ok s (EvSetGlobalOption key v) ->
  (forall o, I s o ->
             I (next s (EvSetGlobalOption key v))
               (opt_set_global key v o)) ->
  triple s (core.set_global_option key v)
         (fun _ s1 => s1 = next s (EvSetGlobalOption key v)) F.
Proof.
  intros Hok HI' w r w' HI [= <- <-]. eexists [_]. simpl. auto.
Qed.

(** A call to a collaborator: it returns or it raises. *)
Lemma triple_call {A} s (f : Ext A) ev F :
  (forall out, ok s (ev out)) ->
  (forall out o, I s o -> I (next s (ev out)) o) ->
  F (next s (ev None)) ->
  triple s (call f ev) (fun a s1 => s1 = next s (ev (Some a))) F.
Proof.
  intros Hok HI' HF w r w' HI Hrun.
  unfold call in Hrun. destruct (f w) as [[a vs]|e].
  - injection Hrun as <- <-. exists [ev (Some a)]. simpl. auto.
  - injection Hrun as <- <-. exists [ev None]. simpl. auto.
Qed.

Lemma triple_getitem s d k F :
  F s ->
  triple s (getitem d k) (fun v s1 => dict_get k d = Some v /\ s1 = s) F.
Proof.
  intros HF. unfold getitem. destruct (dict_get k d).
  - by apply triple_ret.
  - by apply triple_raise.
Qed.

Lemma triple_fmt_f s v F :
  F s ->
  triple s (fmt_f v) (fun _ s1 => fmt_f_error v = None /\ s1 = s) F.
Proof.
  intros HF. unfold fmt_f. destruct (fmt_f_error v).
  - by apply triple_raise.
  - by apply triple_ret.
Qed.

(** The publication loop, for a monitor that ignores publications. *)
Lemma triple_copy_back s d F :
  (forall k v, ok s (EvSetVariable k v)) ->
  (forall k v, next s (EvSetVariable k v) = s) ->
  triple s (copy_back d) (fun _ s1 => s1 = s) F.
Proof.
  intros Hok Hnext w r w' HI Hrun. destruct w as [o vs am ns tr].
  rewrite copy_back_run in Hrun. injection Hrun as <- <-.
  exists (publish_events d). simpl.
  assert (final s (publish_events d) = s) as ->.
  { induction d as [|[k v] d IH]; simpl; [done|]. by rewrite Hnext. }
  repeat split; try done.
  induction d as [|[k v] d IH]; simpl; [done|].
  rewrite Hnext. auto.
Qed.

(** The publication loop, for a monitor that allows publications in
    every state. *)
Lemma triple_copy_back_any s d F :
  (forall s k v, ok s (EvSetVariable k v)) ->
  (forall s k v o, I s o -> I (next s (EvSetVariable k v)) o) ->
  triple s (copy_back d) (fun _ _ => True) F.
Proof.
  intros Hok HI. revert s.
  induction d as [|[k v] d IH]; intros s; simpl.
  - by apply triple_ret.
  - eapply triple_bind.
    + apply triple_set_variable; [apply Hok|apply HI].
    + intros _ s1 _. apply IH.
Qed.

End MonitorRules.

(** Stepping through a program with the rules above.  [side] discharges
    the side conditions of a rule, [dead] closes a branch whose guard
    contradicts what is known.  The state of the monitor after a
    statement is computed where the rules determine it; where they do
    not (the branches of a conditional end in different states), the
    statements that follow are checked for every state. *)
Ltac t_intro :=
  let a := fresh "a" in
  let s1 := fresh "s" in
  let H := fresh "HQ" in
  intros a s1 H; cbv beta in H; simpl in H;
  lazymatch type of H with
  | _ /\ s1 = _ => let H2 := fresh in destruct H as [H H2]; subst s1
  | s1 = _ => subst s1
  | True => clear H
  end.

Ltac t_prim side :=
  first
    [ eapply triple_get_option
    | eapply triple_get_global_option
    | eapply triple_has_option_changed
    | eapply triple_get_active_molecule
    | eapply triple_OptionsState
    | eapply triple_tstart; side
    | eapply triple_tstop; side
    | eapply triple_prepare_options_for_module; side
    | eapply triple_set_default_namespace; side
    | eapply triple_change_file_namespace; side
    | eapply triple_set_variable; side
    | eapply triple_get_variable; side
    | eapply triple_set_local_option; side
    | eapply triple_set_global_option; side
    | eapply triple_call; side
    | eapply triple_getitem; side
    | eapply triple_fmt_f; side
    | eapply triple_copy_back; solve [side]
    | eapply triple_copy_back_any; side ].

Ltac t_run side dead :=
  lazymatch goal with
  | |- triple _ _ _ ?s (bind _ _) _ _ =>
      tryif is_var s
      then (eapply triple_bind with (Q1 := fun _ _ => True);
            [t_run side dead|intros ? ? _; t_run side dead])
      else (eapply triple_bind; [t_run side dead|t_intro; t_run side dead])
  | |- triple _ _ _ _ (ret _) _ _ =>
      first [ eapply triple_ret_eq | eapply triple_ret_state
            | eapply triple_ret_true | apply triple_ret; side ]
  | |- triple _ _ _ _ (raise _) _ _ => apply triple_raise; side
  | |- triple _ _ _ _ (if _ then _ else _) _ _ =>
      apply triple_if; intros ?;
      first [ exfalso; solve [dead] | t_run side dead ]
  | |- triple _ _ _ _ (match _ with Some _ => _ | None => _ end) _ _ =>
      apply triple_option; [intros ? ?|intros ?]; t_run side dead
  | |- triple _ _ _ _ _ _ _ =>
      first [ t_prim side
            | eapply triple_weaken;
              [ t_prim side
              | cbv beta;
                first [ solve [intros; subst; reflexivity] | side ] ] ]
  end.

Ltac t_unfold :=
  unfold run_sapt_dft, interaction_segment, dft_monomers, delta_hf_segment,
    validate, get_sapt_dimer, when_df, call_scf_helper, when;
  cbv beta zeta.

(** *** No relabeling without density fitting *)

Lemma uses_df_false o :
  uses_df o = false ->
  opt_changed o "SCF" "SCF_TYPE" = true /\
  py_eq_str (opt_get o "SCF" "SCF_TYPE") "DF" = false.
Proof.
  unfold uses_df, entry_options.
  destruct (opt_changed o "SCF" "SCF_TYPE"); [done|].
  by rewrite opt_get_set_local_eq.
Qed.

Lemma opt_changed_set_global o module key k v :
  opt_changed o module key = true ->
  opt_changed (opt_set_global k v o) module key = true.
Proof.
  unfold opt_changed, opt_set_global. simpl.
  destruct (decide (k = key)) as [->|Hk].
  - rewrite lookup_insert_eq. by destruct (locals o !! (module, key)).
  - by rewrite lookup_insert_ne.
Qed.

Lemma opt_changed_set_local o module key m k v :
  opt_changed o module key = true ->
  opt_changed (opt_set_local m k v o) module key = true.
Proof.
  unfold opt_changed, opt_set_local. simpl.
  destruct (decide ((m, k) = (module, key))) as [->|Hk].
  - by rewrite lookup_insert_eq.
  - by rewrite lookup_insert_ne.
Qed.

Lemma uses_df_set_global o k v :
  k <> "SCF_TYPE" -> uses_df o = false ->
  uses_df (opt_set_global k v o) = false.
Proof.
  intros Hk [Hc Hdf]%uses_df_false. unfold uses_df, entry_options.
  rewrite opt_changed_set_global by done.
  by rewrite opt_get_set_global_ne.
Qed.

Lemma uses_df_set_local o m k v :
  k <> "SCF_TYPE" -> uses_df o = false ->
  uses_df (opt_set_local m k v o) = false.
Proof.
  intros Hk [Hc Hdf]%uses_df_false. unfold uses_df, entry_options.
  rewrite opt_changed_set_local by done.
  rewrite opt_get_set_local_ne; [done|]. intros [= _ ?]. done.
Qed.

Ltac no_df_dead :=
  idtac;
  match goal with
  | H : exists o, uses_df o = false /\ ?v = opt_changed o _ _,
    Hc : negb ?v = true |- _ =>
      destruct H as (? & [H _]%uses_df_false & ->);
      rewrite H in Hc; discriminate Hc
  | H : exists o, uses_df o = false /\ ?v = opt_get o "SCF" "SCF_TYPE",
    Hc : py_eq_str ?v "DF" = true |- _ =>
      destruct H as (? & [_ H]%uses_df_false & ->);
      rewrite H in Hc; discriminate Hc
  end.

Ltac no_df_side :=
  try solve
      [ exact Logic.I
      | reflexivity
      | intros; assumption
      | intros; apply uses_df_set_global; [discriminate|assumption]
      | intros; apply uses_df_set_local; [discriminate|assumption] ].

Lemma run_relabel_free eng name kwargs :
  triple (fun s _ => s) relabel_free (fun _ o => uses_df o = false) tt
         (run_sapt_dft eng name kwargs) (fun _ _ => True) (fun _ => True).
Proof.
  t_unfold.
  t_run ltac:(no_df_side) ltac:(no_df_dead).
Qed.

Lemma relabel_free_schedule evs :
  accepts (fun s _ => s) relabel_free tt evs ->
  List.filter is_relabel (schedule evs) = [].
Proof.
  induction evs as [|e evs IH]; simpl; [done|].
  intros [He Hevs]. specialize (IH Hevs). unfold schedule in *.
  destruct e; simpl; try done.
Qed.

(** *** The forced SCF type comes first *)

Ltac forced_dead :=
  idtac;
  match goal with
  | H : exists o, _ /\ ?v = opt_changed o _ _,
    Hc : negb ?v = false |- _ =>
      destruct H as (? & H & ->); rewrite H in Hc; discriminate Hc
  end.

Ltac forced_side :=
  try solve
      [ exact Logic.I
      | reflexivity
      | intros; assumption
      | simpl; intros; rewrite opt_get_set_global_ne by discriminate;
        assumption
      | simpl; intros; rewrite opt_get_set_local_ne by discriminate;
        assumption
      | simpl; intros; apply opt_get_set_local_eq ].

Lemma run_forced_first eng name kwargs :
  triple forced_next forced_ok forced_inv BeforeStart
         (run_sapt_dft eng name kwargs)
         (fun _ s => s = Forced) (fun s => s = Forced).
Proof.
  t_unfold.
  t_run ltac:(forced_side) ltac:(forced_dead).
Qed.

Lemma forced_first_events evs :
  accepts forced_next forced_ok BeforeStart evs ->
  final forced_next BeforeStart evs = Forced ->
  exists rest,
    evs = EvTstart :: EvSetLocalOption "SCF" "SCF_TYPE" (VStr "DF") :: rest.
Proof.
  destruct evs as [|e1 [|e2 rest]]; simpl; try done.
  intros (-> & -> & _) _. by eexists.
Qed.

(** *** The shift is reset after every sub-calculation that returned *)

Lemma reset_after_returned_cons x steps :
  reset_after_returned steps ->
  (forall mol, x = Calculation mol true ->
               exists rest, steps = SetShift (VDouble 0) :: rest) ->
  reset_after_returned (x :: steps).
Proof.
  intros Hsteps Hx [|y before] mol after; simpl.
  - intros [= -> ->]. eauto.
  - intros [= -> ->]. eauto.
Qed.

Lemma shift_monitor_sound evs s :
  accepts shift_next shift_ok s evs ->
  final shift_next s evs <> Pending ->
  match s with
  | Auxiliary => reset_after_returned (shift_steps (primary_pass evs))
  | Idle => reset_after_returned (shift_steps evs)
  | Pending =>
      (exists rest, shift_steps evs = SetShift (VDouble 0) :: rest) /\
      reset_after_returned (shift_steps evs)
  end.
Proof.
  revert s. induction evs as [|e evs IH]; intros s; simpl.
  - intros _ Hfinal. destruct s; try done; by intros [|??] ?? [=].
  - intros [Hok Hacc] Hfinal.
    specialize (IH _ Hacc Hfinal). unfold shift_steps in *.
    destruct s; simpl in *.
    + by destruct (is_primary_functional e).
    + destruct (shift_step_of e) as [[v|mol [|]]|]; simpl in *.
      * apply reset_after_returned_cons; [done|]. by intros ? [=].
      * destruct IH as [Hrest IH].
        apply reset_after_returned_cons; [done|]. by intros ? _.
      * apply reset_after_returned_cons; [done|]. by intros ? [=].
      * done.
    + destruct (shift_step_of e) as [[v|mol returned]|]; simpl in *.
      * subst v. split; [by eexists|].
        apply reset_after_returned_cons; [done|]. by intros ? [=].
      * done.
      * done.
Qed.

Ltac shift_side :=
  try solve
      [ exact Logic.I
      | reflexivity
      | discriminate
      | intros; exact Logic.I ].

Lemma run_shift_reset eng name kwargs :
  triple shift_next shift_ok (fun _ _ => True) Auxiliary
         (run_sapt_dft eng name kwargs)
         (fun _ s => s <> Pending) (fun s => s <> Pending).
Proof.
  t_unfold.
  t_run ltac:(shift_side) ltac:(fail).
Qed.

(** *** One MP2 dispersion evaluator, the selected one *)

Lemma disp_monitor_sound sel evs s :
  accepts disp_next (disp_ok sel) s evs ->
  final disp_next s evs <> Reached ->
  match s with
  | NotReached =>
      if reaches_dispersion evs
      then exists out, mp2_dispersion_calls evs = [(sel, out)]
      else mp2_dispersion_calls evs = []
  | Reached =>
      reaches_dispersion evs = false /\
      exists out, mp2_dispersion_calls evs = [(sel, out)]
  | Evaluated =>
      reaches_dispersion evs = false /\ mp2_dispersion_calls evs = []
  end.
Proof.
  revert s. induction evs as [|e evs IH]; intros s; simpl.
  - intros _ Hfinal. by destruct s.
  - intros [Hok Hacc] Hfinal. specialize (IH _ Hacc Hfinal).
    unfold mp2_dispersion_calls, reaches_dispersion in *.
    destruct e; simpl in *; try done.
    + destruct out; simpl in *; subst s; [|done].
      destruct IH as [_ [out' ->]]. eauto.
    + destruct Hok as [-> ->]. destruct IH as [-> ->]. eauto.
    + destruct Hok as [-> ->]. destruct IH as [-> ->]. eauto.
Qed.

Lemma selected_variant_set_global o k v :
  k <> "SAPT_DFT_MP2_DISP_ALG" ->
  selected_variant (opt_set_global k v o) = selected_variant o.
Proof.
  intros Hk. unfold selected_variant.
  by rewrite opt_get_set_global_ne.
Qed.

Lemma selected_variant_set_local o m k v :
  k <> "SAPT_DFT_MP2_DISP_ALG" ->
  selected_variant (opt_set_local m k v o) = selected_variant o.
Proof.
  intros Hk. unfold selected_variant.
  rewrite opt_get_set_local_ne; [done|]. by intros [= _ ?].
Qed.

Ltac disp_side :=
  try solve
      [ exact Logic.I
      | reflexivity
      | discriminate
      | intros; exact Logic.I
      | intros; assumption
      | intros; rewrite selected_variant_set_global by discriminate;
        assumption
      | intros; rewrite selected_variant_set_local by discriminate;
        assumption
      | simpl; split; [reflexivity|];
        match goal with
        | H : exists o, selected_variant o = _ /\ ?v = opt_get o _ _,
          Hc : py_eq_str ?v "FISAPT" = _ |- _ =>
            destruct H as (? & <- & ->); unfold selected_variant;
            rewrite Hc; reflexivity
        end ].

Lemma run_one_dispersion eng name kwargs sel :
  triple disp_next (disp_ok sel) (fun _ o => selected_variant o = sel)
         NotReached
         (run_sapt_dft eng name kwargs)
         (fun _ s => s = Evaluated) (fun s => s <> Reached).
Proof.
  t_unfold.
  t_run ltac:(disp_side) ltac:(fail).
Qed.

(** *** The delta of every HF summary *)

Lemma delta_summary_ok mol_d mol_A mol_B e_d e_A e_B elst exch ind
      hf_dimer hf_monomer_a hf_monomer_b hf_data name out :
  let hf_data' :=
    dict_update
      (dict_update
         (dict_update [("HF DIMER", e_d); ("HF MONOMER A", e_A);
                       ("HF MONOMER B", e_B)] elst) exch) ind in
  dict_get "HF DIMER" hf_data' = Some hf_dimer ->
  dict_get "HF MONOMER A" hf_data' = Some hf_monomer_a ->
  dict_get "HF MONOMER B" hf_data' = Some hf_monomer_b ->
  delta_ok
    (mkDeltaState
       None
       [(mol_d, "SAPT(DFT): delta HF Dimer", e_d);
        (mol_A, "SAPT(DFT): delta HF Monomer A", e_A);
        (mol_B, "SAPT(DFT): delta HF Monomer B", e_B)]
       ((dict_keys elst ++ dict_keys exch) ++ dict_keys ind))
    (EvHfSummary hf_data name (hf_dimer - hf_monomer_a - hf_monomer_b) out).
Proof.
  intros hf_data' Hd Ha Hb Hno. simpl in Hno.
  assert (forall k, In k energy_labels ->
                    dict_get k hf_data' =
                    dict_get k [("HF DIMER", e_d); ("HF MONOMER A", e_A);
                                ("HF MONOMER B", e_B)]) as Hkeep.
  { intros k Hk. unfold hf_data'.
    rewrite !dict_get_update_notin; [done|..];
      intros Hin; apply (Hno k); auto; rewrite !in_app_iff; auto. }
  rewrite Hkeep in Hd, Ha, Hb by (simpl; auto).
  injection Hd as <-. injection Ha as <-. injection Hb as <-.
  by exists mol_d, mol_A, mol_B, e_d, e_A, e_B.
Qed.

Ltac delta_side :=
  try solve
      [ exact Logic.I
      | reflexivity
      | intros; exact Logic.I
      | intros; eapply delta_summary_ok; eassumption ].

Lemma run_delta eng name kwargs :
  triple delta_next delta_ok (fun _ _ => True) (mkDeltaState None [] [])
         (run_sapt_dft eng name kwargs)
         (fun _ _ => True) (fun _ => True).
Proof.
  t_unfold.
  t_run ltac:(delta_side) ltac:(fail).
Qed.

Lemma delta_labels_final evs s :
  ds_labels (final delta_next s evs) = ds_labels s ++ term_labels evs.
Proof.
  revert s. induction evs as [|e evs IH]; intros s; simpl.
  - by rewrite app_nil_r.
  - unfold final in *. simpl. rewrite IH.
    destruct e; simpl; try done;
      destruct out; simpl; by rewrite ?app_assoc.
Qed.

Lemma scf_energies_cons e evs :
  scf_energies (e :: evs) =
  match e with
  | EvScfHelper mol banner (Some _) => pending_energy (Some (mol, banner)) evs
  | _ => []
  end ++ scf_energies evs.
Proof.
  destruct e; try done. destruct out; [|done].
  destruct evs as [|[] evs]; try done.
  simpl. by destruct (String.eqb key "CURRENT ENERGY").
Qed.

Lemma delta_energies_final evs s :
  ds_energies (final delta_next s evs) =
  ds_energies s ++ pending_energy (ds_pending s) evs ++ scf_energies evs.
Proof.
  revert s. induction evs as [|e evs IH]; intros s.
  - simpl. destruct (ds_pending s) as [[]|]; simpl; by rewrite app_nil_r.
  - unfold final in *. simpl fold_left. rewrite IH.
    rewrite scf_energies_cons.
    destruct e; simpl; try (by destruct (ds_pending s) as [[]|]).
    + destruct out; simpl; by destruct (ds_pending s) as [[]|].
    + destruct out; simpl; by destruct (ds_pending s) as [[]|].
    + destruct out; simpl; by destruct (ds_pending s) as [[]|].
    + destruct out; simpl; by destruct (ds_pending s) as [[]|].
    + destruct (ds_pending s) as [[]|]; simpl; [|done].
      destruct (String.eqb key "CURRENT ENERGY"); simpl; [|done].
      by rewrite <- app_assoc.
Qed.

Lemma delta_of_every_summary evs pre hf_data name delta out post :
  accepts delta_next delta_ok (mkDeltaState None [] []) evs ->
  evs = pre ++ EvHfSummary hf_data name delta out :: post ->
  no_collision (term_labels pre) ->
  delta_of_energies (scf_energies pre) delta.
Proof.
  intros Hacc -> Hno.
  apply accepts_app in Hacc as [_ [Hok _]]. simpl in Hok.
  rewrite delta_labels_final, delta_energies_final in Hok.
  simpl in Hok. by apply Hok.
Qed.

(** ** Observations on the trace of a successful run *)

Lemma omap_publish_events {B} (f : Event -> option B) d :
  (forall k v, f (EvSetVariable k v) = None) ->
  omap f (publish_events d) = [].
Proof.
  intros Hf. induction d as [|[k v] d IH]; [done|].
  simpl. by rewrite Hf.
Qed.

Lemma published_publish_events d : published (publish_events d) = d.
Proof.
  unfold published. induction d as [|[k v] d IH]; [done|].
  simpl. f_equal. exact IH.
Qed.

Lemma auxiliary_pass_run_events o sapt_dimer h p :
  auxiliary_pass (run_events o sapt_dimer h p) =
  entry_events o ++
  [EvSetDefaultNamespace "dimer"; EvSetGlobalOption "SAVE_JK" (VBool true)] ++
  (if uses_df o then [EvSetGlobalOption "DF_INTS_IO" (VStr "SAVE")] else []) ++
  (if does_delta_hf o
   then delta_hf_events (uses_df o) sapt_dimer (opt_get o "SAPT" "MAXITER")
                        (opt_get o "SAPT" "D_CONVERGENCE") h
   else [EvWavefunctionBuild sapt_dimer (opt_get_global o "BASIS")
                             (Some (p_built p))]).
Proof.
  unfold run_events, entry_events.
  destruct (opt_changed o "SCF" "SCF_TYPE"), (uses_df o), (does_delta_hf o);
    reflexivity.
Qed.

Lemma primary_pass_run_events o sapt_dimer h p :
  primary_pass (run_events o sapt_dimer h p) =
  tail (dft_monomers_events (uses_df o)
          (opt_get o "SAPT" "SAPT_DFT_FUNCTIONAL")
          (mon_a_shift_of o) (mon_b_shift_of o) sapt_dimer p) ++
  interaction_events sapt_dimer (opt_get o "SAPT" "MAXITER")
    (opt_get o "SAPT" "D_CONVERGENCE")
    (opt_get o "SAPT" "SAPT_DFT_MP2_DISP_ALG")
    (dimer_wfn_of (does_delta_hf o) h p)
    (report_of_run (does_delta_hf o) h p) p ++
  [EvTstop].
Proof.
  unfold run_events, entry_events.
  destruct (opt_changed o "SCF" "SCF_TYPE"), (uses_df o), (does_delta_hf o);
    reflexivity.
Qed.

(** An observation that ignores the events of the interaction segment
    sees nothing in it. *)
Lemma omap_interaction_events {B} (f : Event -> option B)
      sapt_dimer maxiter conv alg dimer_wfn report p :
  (forall e, is_interaction_call e = true -> f e = None) ->
  (forall k v, f (EvSetVariable k v) = None) ->
  omap f (interaction_events sapt_dimer maxiter conv alg dimer_wfn report p)
  = [].
Proof.
  intros Hengine Hset. unfold interaction_events, mp2_event, terms_events.
  rewrite !omap_app, omap_publish_events by done.
  destruct (py_eq_str alg "FISAPT"); simpl; by rewrite !Hengine.
Qed.

(** The same for the whole run, piece by piece. *)
Lemma omap_run_events {B} (f : Event -> option B) o sapt_dimer h p :
  omap f (run_events o sapt_dimer h p) =
  omap f (auxiliary_pass (run_events o sapt_dimer h p)) ++
  omap f (dft_monomers_events (uses_df o)
            (opt_get o "SAPT" "SAPT_DFT_FUNCTIONAL")
            (mon_a_shift_of o) (mon_b_shift_of o) sapt_dimer p) ++
  omap f (interaction_events sapt_dimer (opt_get o "SAPT" "MAXITER")
            (opt_get o "SAPT" "D_CONVERGENCE")
            (opt_get o "SAPT" "SAPT_DFT_MP2_DISP_ALG")
            (dimer_wfn_of (does_delta_hf o) h p)
            (report_of_run (does_delta_hf o) h p) p) ++
  omap f [EvTstop].
Proof.
  rewrite auxiliary_pass_run_events. unfold run_events.
  rewrite !omap_app. by rewrite <- !app_assoc.
Qed.

(** Events that are no sub-calculation add nothing to the energies
    read after the sub-calculations. *)
Lemma scf_energies_skip l r :
  scf_calls l = [] -> scf_energies (l ++ r) = scf_energies r.
Proof.
  induction l as [|e l IH]; [done|].
  intros H. rewrite <- app_comm_cons, scf_energies_cons.
  destruct e; try discriminate H; simpl; apply IH; exact H.
Qed.

Lemma scf_energies_primary_pass o sapt_dimer h p :
  scf_energies (primary_pass (run_events o sapt_dimer h p)) =
  [(monomerA_of sapt_dimer, "SAPT(DFT): DFT Monomer A", p_e_A p);
   (monomerB_of sapt_dimer, "SAPT(DFT): DFT Monomer B", p_e_B p)].
Proof.
  rewrite primary_pass_run_events.
  assert (scf_energies
            (interaction_events sapt_dimer (opt_get o "SAPT" "MAXITER")
               (opt_get o "SAPT" "D_CONVERGENCE")
               (opt_get o "SAPT" "SAPT_DFT_MP2_DISP_ALG")
               (dimer_wfn_of (does_delta_hf o) h p)
               (report_of_run (does_delta_hf o) h p) p ++ [EvTstop]) = [])
    as Hrest.
  { rewrite scf_energies_skip; [done|].
    apply omap_interaction_events; by intros []. }
  unfold dft_monomers_events, shift_events, relabel_events, scf_events.
  destruct (uses_df o), (py_truthy (mon_a_shift_of o)),
    (py_truthy (mon_b_shift_of o));
    cbn [tail app scf_energies String.eqb Ascii.eqb Bool.eqb];
    by rewrite Hrest.
Qed.

(** The evaluators that returned, pass by pass. *)
Lemma evaluations_auxiliary_pass o sapt_dimer h p :
  does_delta_hf o = true ->
  evaluations (auxiliary_pass (run_events o sapt_dimer h p)) =
  [(Electrostatics, t_elst (hf_terms h)); (Exchange, t_exch (hf_terms h));
   (Induction, t_ind (hf_terms h))].
Proof.
  intros Hdhf. rewrite auxiliary_pass_run_events, Hdhf.
  unfold entry_events, delta_hf_events, relabel_events.
  by destruct (opt_changed o "SCF" "SCF_TYPE"), (uses_df o).
Qed.

Lemma evaluations_primary_pass o sapt_dimer h p :
  evaluations (primary_pass (run_events o sapt_dimer h p)) =
  [(Electrostatics, t_elst (p_terms p)); (Exchange, t_exch (p_terms p));
   (Induction, t_ind (p_terms p)); (FddsDispersion, p_fdds p);
   (Mp2Dispersion (selected_variant o), p_mp2 p)].
Proof.
  rewrite primary_pass_run_events.
  unfold evaluations, interaction_events, mp2_event, selected_variant.
  rewrite !omap_app, omap_publish_events by done.
  unfold dft_monomers_events, shift_events, relabel_events.
  by destruct (uses_df o), (py_truthy (mon_a_shift_of o)),
    (py_truthy (mon_b_shift_of o)),
    (py_eq_str (opt_get o "SAPT" "SAPT_DFT_MP2_DISP_ALG") "FISAPT").
Qed.

(** The report is its leading entries with the mappings of the primary
    pass merged in, in the order the evaluators returned them. *)
Lemma report_of_run_merge_all o sapt_dimer h p :
  report_of_run (does_delta_hf o) h p =
  merge_all (data_after_monomers (does_delta_hf o) h p)
            (map snd (evaluations
                        (primary_pass (run_events o sapt_dimer h p)))).
Proof. by rewrite evaluations_primary_pass. Qed.

(** A merge brings in no label of its own making. *)
Lemma In_dict_keys_set x k v d :
  In x (dict_keys (dict_set k v d)) -> x = k \/ In x (dict_keys d).
Proof.
  unfold dict_keys. induction d as [|[k' v'] d IH]; simpl.
  - intros [<-|[]]. by left.
  - destruct (String.eqb k' k); simpl; [by right|].
    intros [<-|Hin]; [by right; left|].
    destruct (IH Hin) as [->|Hd]; [by left|by right; right].
Qed.

Lemma In_dict_keys_update x d e :
  In x (dict_keys (dict_update d e)) ->
  In x (dict_keys d) \/ In x (dict_keys e).
Proof.
  unfold dict_update. revert d.
  induction e as [|[k v] e IH]; intros d; simpl; [by left|].
  intros Hin. destruct (IH _ Hin) as [Hset|He]; [|by right; right].
  destruct (In_dict_keys_set _ _ _ _ Hset) as [->|Hd];
    [by right; left|by left].
Qed.

Lemma In_dict_keys_merge_all x d ms :
  In x (dict_keys (merge_all d ms)) ->
  In x (dict_keys d) \/ exists m, In m ms /\ In x (dict_keys m).
Proof.
  unfold merge_all. revert d.
  induction ms as [|m ms IH]; intros d; simpl; [by left|].
  intros Hin. destruct (IH _ Hin) as [Hd|(m' & Hm' & Hx)].
  - destruct (In_dict_keys_update _ _ _ Hd) as [Hd'|Hm]; [by left|].
    right. exists m. by split; [left|].
  - right. exists m'. by split; [right|].
Qed.

(** ** C2: the stage scheduler *)

(** C2 (as amended): in every successful run the auxiliary pass, when its
    flag is set, makes the three sub-calculations dimer, monomer A,
    monomer B, with the relabelings dimer->monomerA and
    monomerA->monomerB between them and monomerB->dimer after the last;
    the primary pass makes two sub-calculations, monomer A then monomer
    B, with dimer->monomerA before the first and monomerA->monomerB
    between them.  Each relabeling is made only under density fitting. *)
Theorem C2_schedule_of_passes eng name kwargs w ret w' :
  run_sapt_dft eng name kwargs w = (Ok ret, w') ->
  let o := options w in
  let sapt_dimer := sapt_dimer_of kwargs (active_molecule w) in
  schedule (auxiliary_pass (new_events w w')) =
    (if does_delta_hf o then auxiliary_schedule (uses_df o) sapt_dimer
     else []) /\
  schedule (primary_pass (new_events w w')) =
    primary_schedule (uses_df o) sapt_dimer.
Proof.
  intros Hrun o sapt_dimer.
  apply run_sapt_dft_ok in Hrun as (_ & h & p & -> & _ & _).
  fold o sapt_dimer. split.
  - rewrite auxiliary_pass_run_events. unfold entry_events.
    destruct (opt_changed o "SCF" "SCF_TYPE"), (uses_df o), (does_delta_hf o);
      reflexivity.
  - rewrite primary_pass_run_events. unfold schedule.
    rewrite !omap_app, omap_interaction_events by (by intros []).
    unfold dft_monomers_events, shift_events.
    destruct (uses_df o), (py_truthy (mon_a_shift_of o)),
      (py_truthy (mon_b_shift_of o)); reflexivity.
Qed.

Lemma C2_schedule_of_passes_witness :
  schedule (auxiliary_pass (new_events demo_world (snd demo_run))) =
    (if does_delta_hf (options demo_world)
     then auxiliary_schedule (uses_df (options demo_world))
            (sapt_dimer_of Demo.no_kwargs (active_molecule demo_world))
     else []) /\
  schedule (primary_pass (new_events demo_world (snd demo_run))) =
    primary_schedule (uses_df (options demo_world))
      (sapt_dimer_of Demo.no_kwargs (active_molecule demo_world)).
Proof.
  refine (C2_schedule_of_passes (Demo.engine None) "sapt(dft)"
            Demo.no_kwargs demo_world _ (snd demo_run) _).
  vm_compute. reflexivity.
Defined.

(** C2 as stated fails: the primary pass of the example run makes two
    sub-calculations, on the monomers, and none on the dimer. *)
Lemma C2_primary_pass_counterexample :
  (exists ret, fst demo_run = Ok ret) /\
  map fst (scf_calls (primary_pass (new_events demo_world (snd demo_run)))) =
    [Demo.monomerA; Demo.monomerB] /\
  ~ three_subcalculations Demo.sapt_dimer
      (primary_pass (new_events demo_world (snd demo_run))).
Proof.
  split; [eexists; vm_compute; reflexivity|].
  split; [vm_compute; reflexivity|].
  unfold three_subcalculations. vm_compute. discriminate.
Qed.

(** ** C3: the returned wavefunction *)

(** C3 (as amended): the value a successful run returns is the first
    wavefunction the run produced: the result of the dimer
    sub-calculation of the auxiliary delta HF pass when that pass ran,
    and otherwise a wavefunction built from the dimer and the BASIS
    option without any sub-calculation.  The primary pass produces the
    two monomer wavefunctions only. *)
Theorem C3_returned_wavefunction eng name kwargs w ret w' :
  run_sapt_dft eng name kwargs w = (Ok ret, w') ->
  let o := options w in
  let sapt_dimer := sapt_dimer_of kwargs (active_molecule w) in
  head (produced (new_events w w')) =
    Some (returned_origin o sapt_dimer, ret) /\
  exists wfn_A wfn_B,
    produced (primary_pass (new_events w w')) =
    [(FromScf (monomerA_of sapt_dimer) "SAPT(DFT): DFT Monomer A", wfn_A);
     (FromScf (monomerB_of sapt_dimer) "SAPT(DFT): DFT Monomer B", wfn_B)].
Proof.
  intros Hrun o sapt_dimer.
  apply run_sapt_dft_ok in Hrun as (_ & h & p & -> & -> & _).
  fold o sapt_dimer. split.
  - unfold run_events, entry_events, returned_origin, dimer_wfn_of.
    destruct (opt_changed o "SCF" "SCF_TYPE"), (uses_df o), (does_delta_hf o);
      reflexivity.
  - exists (p_wfn_A p), (p_wfn_B p).
    rewrite primary_pass_run_events. unfold produced.
    rewrite !omap_app. unfold dft_monomers_events, shift_events.
    unfold interaction_events, mp2_event.
    rewrite !omap_app, omap_publish_events by done.
    destruct (uses_df o), (py_truthy (mon_a_shift_of o)),
      (py_truthy (mon_b_shift_of o)),
      (py_eq_str (opt_get o "SAPT" "SAPT_DFT_MP2_DISP_ALG") "FISAPT");
      reflexivity.
Qed.

Lemma C3_returned_wavefunction_witness :
  head (produced (new_events demo_world_no_dhf (snd demo_run_no_dhf))) =
    Some (returned_origin (options demo_world_no_dhf)
            (sapt_dimer_of Demo.no_kwargs (active_molecule demo_world_no_dhf)),
          mkWavefunction Demo.sapt_dimer "cc-pvdz" None 0) /\
  exists wfn_A wfn_B,
    produced (primary_pass
                (new_events demo_world_no_dhf (snd demo_run_no_dhf))) =
    [(FromScf (monomerA_of (sapt_dimer_of Demo.no_kwargs
                              (active_molecule demo_world_no_dhf)))
              "SAPT(DFT): DFT Monomer A", wfn_A);
     (FromScf (monomerB_of (sapt_dimer_of Demo.no_kwargs
                              (active_molecule demo_world_no_dhf)))
              "SAPT(DFT): DFT Monomer B", wfn_B)].
Proof.
  refine (C3_returned_wavefunction (Demo.engine None) "sapt(dft)"
            Demo.no_kwargs demo_world_no_dhf _ (snd demo_run_no_dhf) _).
  vm_compute. reflexivity.
Defined.

(** C3 as stated fails: the example run returns the wavefunction of the
    delta HF dimer calculation, which no sub-calculation of the primary
    pass produced. *)
Lemma C3_not_from_primary_pass_counterexample :
  exists ret,
    fst demo_run = Ok ret /\
    In (FromScf Demo.sapt_dimer "SAPT(DFT): delta HF Dimer", ret)
       (produced (auxiliary_pass (new_events demo_world (snd demo_run)))) /\
    ~ from_primary_pass (new_events demo_world (snd demo_run)) ret.
Proof.
  exists (mkWavefunction Demo.sapt_dimer "cc-pvdz" (Some 1) 10).
  split; [vm_compute; reflexivity|]. split.
  - vm_compute. by left.
  - intros (mol & banner & Hin).
    assert (produced (primary_pass (new_events demo_world (snd demo_run))) =
            [(FromScf Demo.monomerA "SAPT(DFT): DFT Monomer A",
              mkWavefunction Demo.monomerA "cc-pvdz" (Some 1) 4.5);
             (FromScf Demo.monomerB "SAPT(DFT): DFT Monomer B",
              mkWavefunction Demo.monomerB "cc-pvdz" (Some 1) 3.25)]) as E
        by (vm_compute; reflexivity).
    rewrite E in Hin. unfold Demo.monomerA, Demo.monomerB, Demo.sapt_dimer in Hin.
    destruct Hin as [Hin|[Hin|[]]]; discriminate Hin.
Qed.

(** ** C4 and C5: validation failures *)

Lemma engine_calls_entry_events o : engine_calls (entry_events o) = [].
Proof. unfold entry_events. by destruct (opt_changed o "SCF" "SCF_TYPE"). Qed.

Lemma scf_calls_entry_events o : scf_calls (entry_events o) = [].
Proof. unfold entry_events. by destruct (opt_changed o "SCF" "SCF_TYPE"). Qed.

(** C4: when the primary functional is not "HF" and one of the two GRAC
    shifts equals 0.0, the run raises a validation error, and it has
    called no collaborator by then: neither the SCF engine nor any
    other. *)
Theorem C4_grac_shift_validation eng name kwargs w a b :
  py_eq_str (opt_get (options w) "SAPT" "SAPT_DFT_FUNCTIONAL") "HF" = false ->
  mon_a_shift_of (options w) = VDouble a ->
  mon_b_shift_of (options w) = VDouble b ->
  PrimFloat.eqb a 0 = true \/ PrimFloat.eqb b 0 = true ->
  exists w',
    run_sapt_dft eng name kwargs w =
      (Raise (ValidationError msg_grac_shift), w') /\
    scf_calls (new_events w w') = [] /\
    engine_calls (new_events w w') = [].
Proof.
  intros Hf Ha Hb Hzero.
  eexists. split.
  - apply run_validation_failure.
    + by rewrite Ha.
    + by rewrite Hb.
    + unfold entry_validation, validation_failure.
      rewrite Hf, Ha, Hb. simpl.
      by destruct Hzero as [-> | ->]; [|rewrite orb_true_r].
  - erewrite new_events_app by reflexivity.
    split; [apply scf_calls_entry_events | apply engine_calls_entry_events].
Qed.

Lemma C4_grac_shift_validation_witness :
  exists w',
    run_sapt_dft (Demo.engine None) "sapt(dft)" Demo.no_kwargs
                 demo_world_no_shift_b =
      (Raise (ValidationError msg_grac_shift), w') /\
    scf_calls (new_events demo_world_no_shift_b w') = [] /\
    engine_calls (new_events demo_world_no_shift_b w') = [].
Proof.
  apply (C4_grac_shift_validation (Demo.engine None) "sapt(dft)"
           Demo.no_kwargs demo_world_no_shift_b 0.125 0).
  - vm_compute. reflexivity.
  - vm_compute. reflexivity.
  - vm_compute. reflexivity.
  - right. vm_compute. reflexivity.
Defined.

Lemma validation_failure_nfragments functional a b reference sapt_dimer :
  nfragments sapt_dimer <> 2 ->
  exists msg,
    validation_failure functional a b reference sapt_dimer = Some msg.
Proof.
  intros Hn. unfold validation_failure.
  destruct (negb _ && _); [by eexists|].
  destruct (negb (py_eq_str _ _)); [by eexists|].
  destruct (Nat.eqb_spec (nfragments sapt_dimer) 2) as [E|E]; [done|].
  by eexists.
Qed.

(** C5 (as amended): on a composite whose fragment count is not 2, with
    GRAC shifts the banner can format (anything but a string or an int
    out of the range of a double), the run raises a validation error
    before it calls any collaborator.  Up to then it has written no
    global option and no variable; the one option it may have written
    is the SCF-local SCF_TYPE, set to "DF" when the caller had not
    changed SCF_TYPE. *)
Theorem C5_fragment_count_validation eng name kwargs w :
  let o := options w in
  nfragments (sapt_dimer_of kwargs (active_molecule w)) <> 2 ->
  fmt_f_error (mon_a_shift_of o) = None ->
  fmt_f_error (mon_b_shift_of o) = None ->
  exists msg w',
    run_sapt_dft eng name kwargs w = (Raise (ValidationError msg), w') /\
    engine_calls (new_events w w') = [] /\
    globals (options w') = globals o /\
    locals (options w') =
      (if opt_changed o "SCF" "SCF_TYPE" then locals o
       else <[("SCF", "SCF_TYPE") := VStr "DF"]> (locals o)) /\
    variables w' = variables w.
Proof.
  intros o Hn Ha Hb.
  destruct (validation_failure_nfragments
              (opt_get o "SAPT" "SAPT_DFT_FUNCTIONAL") (mon_a_shift_of o)
              (mon_b_shift_of o) (opt_get o "SCF" "REFERENCE") _ Hn)
    as [msg Hmsg].
  exists msg. eexists. split.
  - by apply run_validation_failure.
  - erewrite new_events_app by reflexivity.
    split; [apply engine_calls_entry_events|].
    cbn [options variables]. fold o. unfold entry_options.
    by destruct (opt_changed o "SCF" "SCF_TYPE").
Qed.

Lemma C5_fragment_count_validation_witness :
  exists msg w',
    run_sapt_dft (Demo.engine None) "sapt(dft)" Demo.no_kwargs
                 demo_world_3_fragments =
      (Raise (ValidationError msg), w') /\
    engine_calls (new_events demo_world_3_fragments w') = [] /\
    globals (options w') = globals (options demo_world_3_fragments) /\
    locals (options w') =
      (if opt_changed (options demo_world_3_fragments) "SCF" "SCF_TYPE"
       then locals (options demo_world_3_fragments)
       else <[("SCF", "SCF_TYPE") := VStr "DF"]>
              (locals (options demo_world_3_fragments))) /\
    variables w' = variables demo_world_3_fragments.
Proof.
  apply (C5_fragment_count_validation (Demo.engine None) "sapt(dft)"
           Demo.no_kwargs demo_world_3_fragments).
  - vm_compute. discriminate.
  - vm_compute. reflexivity.
  - vm_compute. reflexivity.
Defined.

(** C5 as stated fails: on a composite of three fragments the run raises
    the validation error, and the option store is not what it was: the
    effective SCF_TYPE, "PK" at entry, is "DF" at exit. *)
Lemma C5_configuration_changed_counterexample :
  fst demo_run_3_fragments = Raise (ValidationError (msg_nfragments 3)) /\
  opt_get (options demo_world_3_fragments) "SCF" "SCF_TYPE" = VStr "PK" /\
  opt_get (options (snd demo_run_3_fragments)) "SCF" "SCF_TYPE" = VStr "DF" /\
  options (snd demo_run_3_fragments) <> options demo_world_3_fragments.
Proof.
  assert (opt_get (options demo_world_3_fragments) "SCF" "SCF_TYPE"
          = VStr "PK") as Hbefore by (vm_compute; reflexivity).
  assert (opt_get (options (snd demo_run_3_fragments)) "SCF" "SCF_TYPE"
          = VStr "DF") as Hafter by (vm_compute; reflexivity).
  split; [vm_compute; reflexivity|].
  split; [done|]. split; [done|].
  intros Heq. rewrite Heq, Hbefore in Hafter. discriminate Hafter.
Qed.

(** The banner is printed before the gates: a shift it cannot format
    ends the run there, with the exception of the formatting, whatever
    the fragment count. *)
Example C5_shift_out_of_range :
  nfragments (sapt_dimer_of Demo.no_kwargs
                            (active_molecule demo_world_huge_shift)) = 3 /\
  fmt_f_error (mon_a_shift_of (options demo_world_huge_shift)) =
    Some (OverflowError "int too large to convert to float") /\
  fst demo_run_huge_shift =
    Raise (OverflowError "int too large to convert to float") /\
  engine_calls (new_events demo_world_huge_shift (snd demo_run_huge_shift))
  = [].
Proof. repeat split; vm_compute; reflexivity. Qed.

(** ** C6: the delta quantity *)

Lemma term_labels_delta_hf_events df sapt_dimer maxiter conv h :
  term_labels (delta_hf_events df sapt_dimer maxiter conv h) =
  dict_keys (t_elst (hf_terms h)) ++ dict_keys (t_exch (hf_terms h)) ++
  dict_keys (t_ind (hf_terms h)).
Proof.
  unfold term_labels, delta_hf_events, relabel_events.
  destruct df; simpl; by rewrite !app_nil_r.
Qed.

Lemma term_labels_auxiliary_pass o sapt_dimer h p :
  does_delta_hf o = true ->
  term_labels (auxiliary_pass (run_events o sapt_dimer h p)) =
  dict_keys (t_elst (hf_terms h)) ++ dict_keys (t_exch (hf_terms h)) ++
  dict_keys (t_ind (hf_terms h)).
Proof.
  intros Hdhf. rewrite auxiliary_pass_run_events, Hdhf.
  unfold term_labels. rewrite !flat_map_app. fold term_labels.
  rewrite term_labels_delta_hf_events. unfold entry_events.
  by destruct (opt_changed o "SCF" "SCF_TYPE"), (uses_df o).
Qed.

Lemma delta_of_successful_run eng name kwargs w ret w' :
  run_sapt_dft eng name kwargs w = (Ok ret, w') ->
  let sapt_dimer := sapt_dimer_of kwargs (active_molecule w) in
  does_delta_hf (options w) = true ->
  no_collision (term_labels (auxiliary_pass (new_events w w'))) ->
  exists e_dimer e_A e_B hf_data,
    scf_energies (auxiliary_pass (new_events w w')) =
      [(sapt_dimer, "SAPT(DFT): delta HF Dimer", e_dimer);
       (monomerA_of sapt_dimer, "SAPT(DFT): delta HF Monomer A", e_A);
       (monomerB_of sapt_dimer, "SAPT(DFT): delta HF Monomer B", e_B)] /\
    hf_summaries (new_events w w') =
      [(hf_data, (e_dimer - e_A - e_B)%float)].
Proof.
  intros Hrun sapt_dimer Hdhf Hlabels.
  apply run_sapt_dft_ok in Hrun as (_ & h & p & Hev & _ & _).
  rewrite Hev in *. fold sapt_dimer in Hlabels |- *.
  set (o := options w) in *.
  rewrite term_labels_auxiliary_pass in Hlabels by done.
  assert (forall k, In k ["HF DIMER"; "HF MONOMER A"; "HF MONOMER B"] ->
                    lookup0 k (hf_data_of h) =
                    lookup0 k [("HF DIMER", hf_e_dimer h);
                               ("HF MONOMER A", hf_e_A h);
                               ("HF MONOMER B", hf_e_B h)]) as Hkeep.
  { intros k Hk. unfold hf_data_of.
    apply lookup0_merge_terms_notin; intros Hin;
      apply (Hlabels k); auto; rewrite !in_app_iff; auto. }
  exists (hf_e_dimer h), (hf_e_A h), (hf_e_B h), (hf_data_of h). split.
  - rewrite auxiliary_pass_run_events, Hdhf. unfold entry_events.
    by destruct (opt_changed o "SCF" "SCF_TYPE"), (uses_df o).
  - unfold hf_summaries. rewrite omap_run_events.
    rewrite auxiliary_pass_run_events, Hdhf.
    rewrite omap_interaction_events by (by intros []).
    assert (dhf_value_of h = (hf_e_dimer h - hf_e_A h - hf_e_B h)%float)
      as <-.
    { unfold dhf_value_of. rewrite !Hkeep by (simpl; auto). done. }
    unfold entry_events, dft_monomers_events, shift_events.
    by destruct (opt_changed o "SCF" "SCF_TYPE"), (uses_df o),
      (py_truthy (mon_a_shift_of o)), (py_truthy (mon_b_shift_of o)).
Qed.

(** C6: in every run, whatever its outcome, whenever the HF summary of
    the auxiliary delta HF pass is produced, the delta handed to it is
    the dimer energy minus the monomer A energy minus the monomer B
    energy, the energies being the values of "CURRENT ENERGY" read
    right after the three sub-calculations made until then.  A
    successful run with the auxiliary pass enabled produces exactly one
    such summary, for the dimer and its two monomers.  The term
    evaluators are assumed to keep to their contract (spec 4.5) that
    their labels do not collide with the three energy labels. *)
Theorem C6_delta_is_dimer_minus_monomers eng name kwargs w r w' :
  run_sapt_dft eng name kwargs w = (r, w') ->
  (forall before hf_data title delta out after,
      new_events w w' =
        before ++ EvHfSummary hf_data title delta out :: after ->
      no_collision (term_labels before) ->
      delta_of_energies (scf_energies before) delta) /\
  forall ret,
    r = Ok ret ->
    does_delta_hf (options w) = true ->
    no_collision (term_labels (auxiliary_pass (new_events w w'))) ->
    exists e_dimer e_A e_B hf_data,
      scf_energies (auxiliary_pass (new_events w w')) =
        [(sapt_dimer_of kwargs (active_molecule w),
          "SAPT(DFT): delta HF Dimer", e_dimer);
         (monomerA_of (sapt_dimer_of kwargs (active_molecule w)),
          "SAPT(DFT): delta HF Monomer A", e_A);
         (monomerB_of (sapt_dimer_of kwargs (active_molecule w)),
          "SAPT(DFT): delta HF Monomer B", e_B)] /\
      hf_summaries (new_events w w') =
        [(hf_data, (e_dimer - e_A - e_B)%float)].
Proof.
  intros Hrun. split.
  - intros before hf_data title delta out after Hevs Hno.
    destruct (triple_elim _ _ _ _ _ _ _ _ _ _
                (run_delta eng name kwargs) Logic.I Hrun)
      as (Hacc & _ & _).
    by eapply delta_of_every_summary.
  - intros ret ->.
    apply (delta_of_successful_run _ _ _ _ _ _ Hrun).
Qed.

Lemma demo_no_collision evs :
  term_labels evs = ["Elst10,r"; "Exch10"; "Ind20,r"] ->
  no_collision (term_labels evs).
Proof.
  intros -> label Hl Hin. simpl in Hl, Hin.
  destruct Hl as [<-|[<-|[<-|[]]]];
    destruct Hin as [Hin|[Hin|[Hin|[]]]]; discriminate Hin.
Qed.

(** The energies 10.0, 4.0 and 3.0 give the delta 3.0, in the example
    run and in the example run that fails afterwards, when the SCF
    engine does not converge on monomer A in the primary pass. *)
Lemma C6_delta_is_dimer_minus_monomers_witness :
  delta_of_energies
    (scf_energies (take 20 (new_events demo_world (snd demo_run))))
    3%float /\
  delta_of_energies
    (scf_energies
       (take 20 (new_events demo_world (snd demo_run_scf_failure))))
    3%float /\
  exists e_dimer e_A e_B hf_data,
    scf_energies (auxiliary_pass (new_events demo_world (snd demo_run))) =
      [(sapt_dimer_of Demo.no_kwargs (active_molecule demo_world),
        "SAPT(DFT): delta HF Dimer", e_dimer);
       (monomerA_of (sapt_dimer_of Demo.no_kwargs (active_molecule demo_world)),
        "SAPT(DFT): delta HF Monomer A", e_A);
       (monomerB_of (sapt_dimer_of Demo.no_kwargs (active_molecule demo_world)),
        "SAPT(DFT): delta HF Monomer B", e_B)] /\
    hf_summaries (new_events demo_world (snd demo_run)) =
      [(hf_data, (e_dimer - e_A - e_B)%float)].
Proof.
  destruct (C6_delta_is_dimer_minus_monomers
              (Demo.engine None) "sapt(dft)" Demo.no_kwargs demo_world
              (fst demo_run) (snd demo_run))
    as [Hall Hok]; [vm_compute; reflexivity|].
  destruct (C6_delta_is_dimer_minus_monomers
              (Demo.engine (Some "SAPT(DFT): DFT Monomer A")) "sapt(dft)"
              Demo.no_kwargs demo_world
              (fst demo_run_scf_failure) (snd demo_run_scf_failure))
    as [Hfail _]; [vm_compute; reflexivity|].
  split; [|split].
  - eapply (Hall (take 20 (new_events demo_world (snd demo_run)))).
    + vm_compute. reflexivity.
    + apply demo_no_collision. vm_compute. reflexivity.
  - eapply (Hfail (take 20 (new_events demo_world
                                       (snd demo_run_scf_failure)))).
    + vm_compute. reflexivity.
    + apply demo_no_collision. vm_compute. reflexivity.
  - eapply Hok.
    + vm_compute. reflexivity.
    + vm_compute. reflexivity.
    + apply demo_no_collision. vm_compute. reflexivity.
Defined.

Example C6_demo_energies :
  scf_energies (auxiliary_pass (new_events demo_world (snd demo_run))) =
    [(Demo.sapt_dimer, "SAPT(DFT): delta HF Dimer", 10%float);
     (Demo.monomerA, "SAPT(DFT): delta HF Monomer A", 4%float);
     (Demo.monomerB, "SAPT(DFT): delta HF Monomer B", 3%float)] /\
  map snd (hf_summaries (new_events demo_world (snd demo_run))) = [3%float].
Proof. split; vm_compute; reflexivity. Qed.

(** ** C7: the dispersion variant *)

Lemma dispersion_of_successful_run eng name kwargs w ret w' :
  run_sapt_dft eng name kwargs w = (Ok ret, w') ->
  exists mp2_disp report,
    mp2_dispersion_calls (new_events w w') =
      [(selected_variant (options w), Some mp2_disp)] /\
    reports (new_events w w') = [report] /\
    published (new_events w w') = report /\
    forall label,
      In label (dict_keys mp2_disp) -> In label (dict_keys report).
Proof.
  intros Hrun.
  apply run_sapt_dft_ok in Hrun as (_ & h & p & -> & _ & _).
  set (o := options w).
  exists (p_mp2 p), (report_of_run (does_delta_hf o) h p).
  split; [|split; [|split]].
  - unfold mp2_dispersion_calls. rewrite omap_run_events.
    rewrite auxiliary_pass_run_events.
    unfold interaction_events, mp2_event, selected_variant.
    rewrite !omap_app, omap_publish_events by done.
    unfold entry_events, dft_monomers_events, shift_events.
    fold o.
    by destruct (opt_changed o "SCF" "SCF_TYPE"), (uses_df o),
      (does_delta_hf o), (py_truthy (mon_a_shift_of o)),
      (py_truthy (mon_b_shift_of o)),
      (py_eq_str (opt_get o "SAPT" "SAPT_DFT_MP2_DISP_ALG") "FISAPT").
  - unfold reports. rewrite omap_run_events.
    rewrite auxiliary_pass_run_events.
    unfold interaction_events, mp2_event.
    rewrite !omap_app, omap_publish_events by done.
    unfold entry_events, dft_monomers_events, shift_events.
    by destruct (opt_changed o "SCF" "SCF_TYPE"), (uses_df o),
      (does_delta_hf o), (py_truthy (mon_a_shift_of o)),
      (py_truthy (mon_b_shift_of o)),
      (py_eq_str (opt_get o "SAPT" "SAPT_DFT_MP2_DISP_ALG") "FISAPT").
  - unfold published. rewrite omap_run_events.
    rewrite auxiliary_pass_run_events.
    unfold interaction_events, mp2_event.
    rewrite !omap_app. fold published.
    rewrite published_publish_events.
    unfold entry_events, dft_monomers_events, shift_events.
    destruct (opt_changed o "SCF" "SCF_TYPE"), (uses_df o),
      (does_delta_hf o), (py_truthy (mon_a_shift_of o)),
      (py_truthy (mon_b_shift_of o)),
      (py_eq_str (opt_get o "SAPT" "SAPT_DFT_MP2_DISP_ALG") "FISAPT");
      simpl; by rewrite app_nil_r.
  - intros label Hin. unfold report_of_run.
    apply dict_keys_update. by right.
Qed.

(** C7: in every run, whatever its outcome, that reaches the MP2
    dispersion evaluation (the FDDS dispersion evaluator before it has
    returned), exactly one of the two MP2 dispersion evaluators is
    called, once: the FISAPT variant when the algorithm flag equals
    "FISAPT" and the SAPT variant otherwise; a run that does not get
    that far calls neither.  A successful run does reach the
    evaluation; the mapping the evaluator returned was merged into the
    report last, so all its labels are labels of the report, which is
    what was published. *)
Theorem C7_one_dispersion_variant eng name kwargs w r w' :
  run_sapt_dft eng name kwargs w = (r, w') ->
  (if reaches_dispersion (new_events w w')
   then exists out,
       mp2_dispersion_calls (new_events w w') =
         [(selected_variant (options w), out)]
   else mp2_dispersion_calls (new_events w w') = []) /\
  forall ret,
    r = Ok ret ->
    reaches_dispersion (new_events w w') = true /\
    exists mp2_disp report,
      mp2_dispersion_calls (new_events w w') =
        [(selected_variant (options w), Some mp2_disp)] /\
      reports (new_events w w') = [report] /\
      published (new_events w w') = report /\
      forall label,
        In label (dict_keys mp2_disp) -> In label (dict_keys report).
Proof.
  intros Hrun.
  assert (if reaches_dispersion (new_events w w')
          then exists out,
              mp2_dispersion_calls (new_events w w') =
                [(selected_variant (options w), out)]
          else mp2_dispersion_calls (new_events w w') = []) as Hall.
  { destruct (triple_elim _ _ _ _ _ _ _ _ _ _
                (run_one_dispersion eng name kwargs
                                    (selected_variant (options w)))
                eq_refl Hrun) as (Hacc & _ & Hfinal).
    apply (disp_monitor_sound _ _ NotReached Hacc).
    destruct r; [by rewrite Hfinal|done]. }
  split; [done|].
  intros ret ->.
  destruct (dispersion_of_successful_run _ _ _ _ _ _ Hrun)
    as (mp2_disp & report & Hcalls & Hrest).
  split; [|by exists mp2_disp, report].
  destruct (reaches_dispersion (new_events w w')); [done|].
  by rewrite Hcalls in Hall.
Qed.

Lemma C7_one_dispersion_variant_witness :
  (if reaches_dispersion (new_events demo_world (snd demo_run))
   then exists out,
       mp2_dispersion_calls (new_events demo_world (snd demo_run)) =
         [(selected_variant (options demo_world), out)]
   else mp2_dispersion_calls (new_events demo_world (snd demo_run)) = []) /\
  reaches_dispersion (new_events demo_world (snd demo_run)) = true /\
  exists mp2_disp report,
    mp2_dispersion_calls (new_events demo_world (snd demo_run)) =
      [(selected_variant (options demo_world), Some mp2_disp)] /\
    reports (new_events demo_world (snd demo_run)) = [report] /\
    published (new_events demo_world (snd demo_run)) = report /\
    forall label,
      In label (dict_keys mp2_disp) -> In label (dict_keys report).
Proof.
  destruct (C7_one_dispersion_variant (Demo.engine None) "sapt(dft)"
              Demo.no_kwargs demo_world (fst demo_run) (snd demo_run))
    as [Hall Hok].
  - vm_compute. reflexivity.
  - split; [exact Hall|]. eapply Hok. vm_compute. reflexivity.
Defined.

(** The example run evaluates the SAPT variant; the example run whose
    SCF engine fails on monomer A in the primary pass does not reach the
    evaluation and calls neither. *)
Example C7_demo_variants :
  mp2_dispersion_calls (new_events demo_world (snd demo_run)) =
    [(SAPT, Some [("Disp20 (MP2)", 0.625%float)])] /\
  reaches_dispersion (new_events demo_world (snd demo_run_scf_failure))
    = false /\
  mp2_dispersion_calls (new_events demo_world (snd demo_run_scf_failure))
    = [].
Proof.
  split; [vm_compute; reflexivity|].
  split; vm_compute; reflexivity.
Qed.

(** ** C8: the report *)

Ltac run_cases o :=
  destruct (opt_changed o "SCF" "SCF_TYPE"), (uses_df o),
    (py_truthy (mon_a_shift_of o)), (py_truthy (mon_b_shift_of o)),
    (py_eq_str (opt_get o "SAPT" "SAPT_DFT_MP2_DISP_ALG") "FISAPT").

(** C8 (as amended): in every successful run with the auxiliary pass
    enabled, the results of that pass stay in an auxiliary mapping of
    their own: the three energies read after its three sub-calculations,
    with the mappings its electrostatics, exchange and induction
    evaluators returned merged in, in that order.  That mapping is
    handed to the HF summary together with the delta quantity computed
    from it, and the variable "SAPT(DFT) Delta HF" is read back right
    after the summary.  The auxiliary mapping is not merged into the
    report.  The report is the entry "Delta HF Correction" with the
    value read back, then the two energies read after the monomer
    calculations of the primary pass, with the mappings the evaluators
    of the primary pass returned merged in, in order; so a label of the
    report is one of these three or a label an evaluator of the primary
    pass returned.  Every entry of the report is published to the
    variable store under its label, in order. *)
Theorem C8_report_of_run eng name kwargs w ret w' :
  run_sapt_dft eng name kwargs w = (Ok ret, w') ->
  does_delta_hf (options w) = true ->
  let evs := new_events w w' in
  let sapt_dimer := sapt_dimer_of kwargs (active_molecule w) in
  exists e_dimer e_A e_B hf_data text delta dft_A dft_B report,
    scf_energies (auxiliary_pass evs) =
      [(sapt_dimer, "SAPT(DFT): delta HF Dimer", e_dimer);
       (monomerA_of sapt_dimer, "SAPT(DFT): delta HF Monomer A", e_A);
       (monomerB_of sapt_dimer, "SAPT(DFT): delta HF Monomer B", e_B)] /\
    map fst (evaluations (auxiliary_pass evs)) =
      [Electrostatics; Exchange; Induction] /\
    hf_data =
      merge_all [("HF DIMER", e_dimer); ("HF MONOMER A", e_A);
                 ("HF MONOMER B", e_B)]
                (map snd (evaluations (auxiliary_pass evs))) /\
    hf_summaries evs = [(hf_data, dhf_value hf_data)] /\
    (exists before,
        auxiliary_pass evs =
        before ++
        [EvHfSummary hf_data "SAPT(HF)" (dhf_value hf_data) (Some text);
         EvGetVariable "SAPT(DFT) Delta HF" delta]) /\
    reads "SAPT(DFT) Delta HF" evs = [delta] /\
    scf_energies (primary_pass evs) =
      [(monomerA_of sapt_dimer, "SAPT(DFT): DFT Monomer A", dft_A);
       (monomerB_of sapt_dimer, "SAPT(DFT): DFT Monomer B", dft_B)] /\
    map fst (evaluations (primary_pass evs)) =
      [Electrostatics; Exchange; Induction; FddsDispersion;
       Mp2Dispersion (selected_variant (options w))] /\
    report =
      merge_all [("Delta HF Correction", delta); ("DFT MONOMERA", dft_A);
                 ("DFT MONOMERB", dft_B)]
                (map snd (evaluations (primary_pass evs))) /\
    reports evs = [report] /\
    published evs = report /\
    (forall label,
        In label (dict_keys report) ->
        In label ["Delta HF Correction"; "DFT MONOMERA"; "DFT MONOMERB"] \/
        exists evaluator mapping,
          In (evaluator, mapping) (evaluations (primary_pass evs)) /\
          In label (dict_keys mapping)).
Proof.
  intros Hrun Hdhf evs sapt_dimer. subst evs.
  apply run_sapt_dft_ok in Hrun as (_ & h & p & -> & _ & _).
  fold sapt_dimer. set (o := options w) in *.
  assert (reports (run_events o sapt_dimer h p) =
          [report_of_run (does_delta_hf o) h p]) as Hreports.
  { unfold reports. rewrite omap_run_events.
    rewrite auxiliary_pass_run_events, Hdhf.
    unfold interaction_events, mp2_event.
    rewrite !omap_app, omap_publish_events by done.
    unfold entry_events, dft_monomers_events, shift_events.
    by run_cases o. }
  assert (report_of_run (does_delta_hf o) h p =
          merge_all [("Delta HF Correction", hf_delta h);
                     ("DFT MONOMERA", p_e_A p); ("DFT MONOMERB", p_e_B p)]
                    [t_elst (p_terms p); t_exch (p_terms p);
                     t_ind (p_terms p); p_fdds p; p_mp2 p]) as Hreport.
  { unfold report_of_run, data_after_monomers, data_after_hf.
    by rewrite Hdhf. }
  exists (hf_e_dimer h), (hf_e_A h), (hf_e_B h), (hf_data_of h), (hf_text h),
    (hf_delta h), (p_e_A p), (p_e_B p), (report_of_run (does_delta_hf o) h p).
  rewrite scf_energies_primary_pass.
  rewrite evaluations_auxiliary_pass, evaluations_primary_pass by done.
  rewrite Hreports.
  split.
  { rewrite auxiliary_pass_run_events, Hdhf. unfold entry_events.
    by destruct (opt_changed o "SCF" "SCF_TYPE"), (uses_df o). }
  split; [done|]. split; [done|].
  split.
  { unfold hf_summaries. rewrite omap_run_events.
    rewrite auxiliary_pass_run_events, Hdhf.
    rewrite omap_interaction_events by (by intros []).
    unfold entry_events, dft_monomers_events, shift_events.
    by run_cases o. }
  split.
  { rewrite auxiliary_pass_run_events, Hdhf.
    unfold delta_hf_events.
    eexists. rewrite !app_assoc. reflexivity. }
  split.
  { unfold reads. rewrite omap_run_events.
    rewrite auxiliary_pass_run_events, Hdhf.
    rewrite omap_interaction_events by (by intros []).
    unfold entry_events, dft_monomers_events, shift_events.
    by run_cases o. }
  split; [done|]. split; [done|].
  split; [exact Hreport|].
  split; [done|].
  split.
  { unfold published. rewrite !omap_run_events.
    rewrite auxiliary_pass_run_events, Hdhf.
    unfold interaction_events, mp2_event.
    rewrite !omap_app.
    fold published. rewrite published_publish_events.
    unfold entry_events, dft_monomers_events, shift_events.
    run_cases o; simpl; by rewrite app_nil_r. }
  intros label Hin. rewrite Hreport in Hin.
  apply In_dict_keys_merge_all in Hin as [Hlead|(m & Hm & Hx)];
    [by left|right].
  simpl in Hm.
  destruct Hm as [<-|[<-|[<-|[<-|[<-|[]]]]]];
    eexists _, _; (split; [|exact Hx]); simpl; auto 10.
Qed.

Lemma C8_report_of_run_witness :
  exists e_dimer e_A e_B hf_data text delta dft_A dft_B report,
    scf_energies (auxiliary_pass (new_events demo_world (snd demo_run))) =
      [(Demo.sapt_dimer, "SAPT(DFT): delta HF Dimer", e_dimer);
       (Demo.monomerA, "SAPT(DFT): delta HF Monomer A", e_A);
       (Demo.monomerB, "SAPT(DFT): delta HF Monomer B", e_B)] /\
    map fst (evaluations
               (auxiliary_pass (new_events demo_world (snd demo_run)))) =
      [Electrostatics; Exchange; Induction] /\
    hf_data =
      merge_all [("HF DIMER", e_dimer); ("HF MONOMER A", e_A);
                 ("HF MONOMER B", e_B)]
                (map snd (evaluations
                            (auxiliary_pass
                               (new_events demo_world (snd demo_run))))) /\
    hf_summaries (new_events demo_world (snd demo_run)) =
      [(hf_data, dhf_value hf_data)] /\
    (exists before,
        auxiliary_pass (new_events demo_world (snd demo_run)) =
        before ++
        [EvHfSummary hf_data "SAPT(HF)" (dhf_value hf_data) (Some text);
         EvGetVariable "SAPT(DFT) Delta HF" delta]) /\
    reads "SAPT(DFT) Delta HF" (new_events demo_world (snd demo_run)) =
      [delta] /\
    scf_energies (primary_pass (new_events demo_world (snd demo_run))) =
      [(Demo.monomerA, "SAPT(DFT): DFT Monomer A", dft_A);
       (Demo.monomerB, "SAPT(DFT): DFT Monomer B", dft_B)] /\
    map fst (evaluations
               (primary_pass (new_events demo_world (snd demo_run)))) =
      [Electrostatics; Exchange; Induction; FddsDispersion;
       Mp2Dispersion SAPT] /\
    report =
      merge_all [("Delta HF Correction", delta); ("DFT MONOMERA", dft_A);
                 ("DFT MONOMERB", dft_B)]
                (map snd (evaluations
                            (primary_pass
                               (new_events demo_world (snd demo_run))))) /\
    reports (new_events demo_world (snd demo_run)) = [report] /\
    published (new_events demo_world (snd demo_run)) = report /\
    (forall label,
        In label (dict_keys report) ->
        In label ["Delta HF Correction"; "DFT MONOMERA"; "DFT MONOMERB"] \/
        exists evaluator mapping,
          In (evaluator, mapping)
             (evaluations
                (primary_pass (new_events demo_world (snd demo_run)))) /\
          In label (dict_keys mapping)).
Proof.
  refine (C8_report_of_run (Demo.engine None) "sapt(dft)"
            Demo.no_kwargs demo_world _ (snd demo_run) _ _).
  - vm_compute. reflexivity.
  - vm_compute. reflexivity.
Defined.

(** C8 as stated fails: in the example run the auxiliary mapping holds
    the label "HF DIMER", and neither the report nor what was published
    does. *)
Lemma C8_auxiliary_not_merged_counterexample :
  (exists ret, fst demo_run = Ok ret) /\
  ~ auxiliary_merged (new_events demo_world (snd demo_run)).
Proof.
  split; [eexists; vm_compute; reflexivity|].
  intros Hmerged.
  assert (exists hf_data delta report,
             hf_summaries (new_events demo_world (snd demo_run)) =
               [(hf_data, delta)] /\
             reports (new_events demo_world (snd demo_run)) = [report] /\
             dict_keys hf_data =
               ["HF DIMER"; "HF MONOMER A"; "HF MONOMER B"; "Elst10,r";
                "Exch10"; "Ind20,r"] /\
             dict_keys report =
               ["Delta HF Correction"; "DFT MONOMERA"; "DFT MONOMERB";
                "Elst10,r"; "Exch10"; "Ind20,r"; "Disp20"; "Disp20 (MP2)"])
    as (hf_data & delta & report & Hhf & Hrep & Hkeys & Hrkeys).
  { do 3 eexists.
    split; [vm_compute; reflexivity|].
    split; [vm_compute; reflexivity|].
    split; vm_compute; reflexivity. }
  specialize (Hmerged hf_data delta report).
  rewrite Hhf, Hrep, Hkeys, Hrkeys in Hmerged.
  specialize (Hmerged (or_introl eq_refl) (or_introl eq_refl) "HF DIMER"
                      (or_introl eq_refl)).
  simpl in Hmerged.
  repeat (destruct Hmerged as [Hmerged|Hmerged]; [discriminate Hmerged|]).
  exact Hmerged.
Qed.

(** ** C9: the GRAC shift around the monomer calculations *)

Lemma shift_steps_of_successful_run eng name kwargs w ret w' :
  run_sapt_dft eng name kwargs w = (Ok ret, w') ->
  let o := options w in
  shift_steps (primary_pass (new_events w w')) =
    primary_shift_steps (mon_a_shift_of o) (mon_b_shift_of o)
                        (sapt_dimer_of kwargs (active_molecule w)) /\
  opt_get_global (options w') "DFT_GRAC_SHIFT" = VDouble 0.
Proof.
  intros Hrun o.
  apply run_sapt_dft_ok in Hrun as (_ & h & p & -> & _ & ->).
  fold o. split.
  - rewrite primary_pass_run_events. unfold shift_steps.
    rewrite !omap_app, omap_interaction_events by (by intros []).
    unfold dft_monomers_events, shift_events, primary_shift_steps,
      shift_override.
    by destruct (uses_df o), (py_truthy (mon_a_shift_of o)),
      (py_truthy (mon_b_shift_of o)).
  - unfold final_options, dft_monomers_options.
    apply opt_get_global_set_global_eq.
Qed.

(** C9 (as amended): in every run, whatever its outcome, each
    sub-calculation of the primary pass that returned is followed at
    once by the reset of the shift to 0.0.  In a successful run the
    shift of a monomer is written before that monomer's sub-calculation
    when it is non-zero, the reset follows whether or not a shift had
    been written, and the store is left with the shift at 0.0.  (A
    sub-calculation that raises ends the run: no reset follows it.) *)
Theorem C9_shift_reset_after_return eng name kwargs w r w' :
  run_sapt_dft eng name kwargs w = (r, w') ->
  reset_after_returned (shift_steps (primary_pass (new_events w w'))) /\
  forall ret,
    r = Ok ret ->
    shift_steps (primary_pass (new_events w w')) =
      primary_shift_steps (mon_a_shift_of (options w))
                          (mon_b_shift_of (options w))
                          (sapt_dimer_of kwargs (active_molecule w)) /\
    opt_get_global (options w') "DFT_GRAC_SHIFT" = VDouble 0.
Proof.
  intros Hrun. split.
  - destruct (triple_elim _ _ _ _ _ _ _ _ _ _
                (run_shift_reset eng name kwargs) Logic.I Hrun)
      as (Hacc & _ & Hfinal).
    apply (shift_monitor_sound _ Auxiliary Hacc).
    by destruct r.
  - intros ret ->.
    apply (shift_steps_of_successful_run _ _ _ _ _ _ Hrun).
Qed.

Lemma C9_shift_reset_after_return_witness :
  reset_after_returned
    (shift_steps (primary_pass (new_events demo_world (snd demo_run)))) /\
  shift_steps (primary_pass (new_events demo_world (snd demo_run))) =
    primary_shift_steps (mon_a_shift_of (options demo_world))
                        (mon_b_shift_of (options demo_world))
                        (sapt_dimer_of Demo.no_kwargs
                                       (active_molecule demo_world)) /\
  opt_get_global (options (snd demo_run)) "DFT_GRAC_SHIFT" = VDouble 0.
Proof.
  destruct (C9_shift_reset_after_return (Demo.engine None) "sapt(dft)"
              Demo.no_kwargs demo_world (fst demo_run) (snd demo_run))
    as [Hall Hok].
  - vm_compute. reflexivity.
  - split; [exact Hall|]. eapply Hok. vm_compute. reflexivity.
Defined.

(** C9 as stated fails: when the SCF engine fails on monomer A in the
    primary pass, the shift 0.125 written before the call is not reset:
    no write follows the failed call and the store keeps 0.125. *)
Lemma C9_no_reset_after_failure_counterexample :
  fst demo_run_scf_failure = Raise (EngineError "SCF did not converge") /\
  shift_steps (primary_pass (new_events demo_world
                                        (snd demo_run_scf_failure))) =
    [SetShift (VDouble 0.125); Calculation Demo.monomerA false] /\
  opt_get_global (options (snd demo_run_scf_failure)) "DFT_GRAC_SHIFT" =
    VDouble 0.125 /\
  ~ reset_after_each
      (shift_steps (primary_pass (new_events demo_world
                                             (snd demo_run_scf_failure)))).
Proof.
  assert (shift_steps (primary_pass (new_events demo_world
                                                (snd demo_run_scf_failure))) =
          [SetShift (VDouble 0.125); Calculation Demo.monomerA false])
    as Hsteps by (vm_compute; reflexivity).
  split; [vm_compute; reflexivity|].
  split; [done|].
  split; [vm_compute; reflexivity|].
  rewrite Hsteps. intros Hreset.
  destruct (Hreset [SetShift (VDouble 0.125)] Demo.monomerA false []
                   eq_refl) as [rest Hrest].
  discriminate Hrest.
Qed.

(** ** C10: density fitting and the relabelings *)

Lemma schedule_of_successful_run eng name kwargs w ret w' :
  run_sapt_dft eng name kwargs w = (Ok ret, w') ->
  let o := options w in
  let sapt_dimer := sapt_dimer_of kwargs (active_molecule w) in
  List.filter is_relabel (schedule (new_events w w')) =
    (if uses_df o then all_relabels (does_delta_hf o) else []) /\
  scf_calls (new_events w w') = all_scf_calls (does_delta_hf o) sapt_dimer.
Proof.
  intros Hrun o sapt_dimer.
  apply run_sapt_dft_ok in Hrun as (_ & h & p & -> & _ & _).
  fold o sapt_dimer. split.
  - unfold schedule. rewrite omap_run_events.
    rewrite auxiliary_pass_run_events.
    rewrite omap_interaction_events by (by intros []).
    unfold entry_events, dft_monomers_events, shift_events.
    by destruct (opt_changed o "SCF" "SCF_TYPE"), (uses_df o),
      (does_delta_hf o), (py_truthy (mon_a_shift_of o)),
      (py_truthy (mon_b_shift_of o)).
  - unfold scf_calls. rewrite omap_run_events.
    rewrite auxiliary_pass_run_events.
    rewrite omap_interaction_events by (by intros []).
    unfold entry_events, dft_monomers_events, shift_events.
    by destruct (opt_changed o "SCF" "SCF_TYPE"), (uses_df o),
      (does_delta_hf o), (py_truthy (mon_a_shift_of o)),
      (py_truthy (mon_b_shift_of o)).
Qed.

(** C10: in every run, whatever its outcome, when the caller has not
    changed SCF_TYPE the run forces it to "DF" as the first thing it
    does after starting the timer, before any validation or
    computation, and SCF_TYPE is "DF" from then on; and every
    relabeling of the intermediate store is guarded on SCF_TYPE being
    "DF", so a run under any other SCF_TYPE relabels nothing.  In a
    successful run the sub-calculations and their order do not depend
    on the SCF type, and under density fitting all relabelings are
    made. *)
Theorem C10_density_fitting eng name kwargs w r w' :
  run_sapt_dft eng name kwargs w = (r, w') ->
  (opt_changed (options w) "SCF" "SCF_TYPE" = false ->
   uses_df (options w) = true /\
   (exists rest,
       new_events w w' =
         EvTstart :: EvSetLocalOption "SCF" "SCF_TYPE" (VStr "DF") :: rest) /\
   opt_get (options w') "SCF" "SCF_TYPE" = VStr "DF") /\
  (uses_df (options w) = false ->
   List.filter is_relabel (schedule (new_events w w')) = []) /\
  forall ret,
    r = Ok ret ->
    List.filter is_relabel (schedule (new_events w w')) =
      (if uses_df (options w)
       then all_relabels (does_delta_hf (options w)) else []) /\
    scf_calls (new_events w w') =
      all_scf_calls (does_delta_hf (options w))
                    (sapt_dimer_of kwargs (active_molecule w)).
Proof.
  intros Hrun. split; [|split].
  - intros Hchanged.
    destruct (triple_elim _ _ _ _ _ _ _ _ _ _
                (run_forced_first eng name kwargs) Hchanged Hrun)
      as (Hacc & Hinv & Hfinal).
    assert (final forced_next BeforeStart (new_events w w') = Forced)
      as Hforced by (by destruct r).
    rewrite Hforced in Hinv. split; [|split].
    + unfold uses_df, entry_options. rewrite Hchanged.
      by rewrite opt_get_set_local_eq.
    + by apply forced_first_events.
    + done.
  - intros Hdf.
    destruct (triple_elim _ _ _ _ _ _ _ _ _ _
                (run_relabel_free eng name kwargs) Hdf Hrun)
      as (Hacc & _ & _).
    by apply relabel_free_schedule.
  - intros ret ->.
    apply (schedule_of_successful_run _ _ _ _ _ _ Hrun).
Qed.

(** The example run, where the caller has left SCF_TYPE alone, and the
    example run under the SCF type "PK". *)
Lemma C10_density_fitting_witness :
  (uses_df (options demo_world) = true /\
   (exists rest,
       new_events demo_world (snd demo_run) =
         EvTstart :: EvSetLocalOption "SCF" "SCF_TYPE" (VStr "DF") :: rest) /\
   opt_get (options (snd demo_run)) "SCF" "SCF_TYPE" = VStr "DF") /\
  (List.filter is_relabel (schedule (new_events demo_world (snd demo_run))) =
     (if uses_df (options demo_world)
      then all_relabels (does_delta_hf (options demo_world)) else []) /\
   scf_calls (new_events demo_world (snd demo_run)) =
     all_scf_calls (does_delta_hf (options demo_world))
       (sapt_dimer_of Demo.no_kwargs (active_molecule demo_world))) /\
  List.filter is_relabel
              (schedule (new_events demo_world_pk (snd demo_run_pk))) = [].
Proof.
  destruct (C10_density_fitting (Demo.engine None) "sapt(dft)"
              Demo.no_kwargs demo_world (fst demo_run) (snd demo_run))
    as (Hforced & _ & Hok); [vm_compute; reflexivity|].
  destruct (C10_density_fitting (Demo.engine None) "sapt(dft)"
              Demo.no_kwargs demo_world_pk (fst demo_run_pk)
              (snd demo_run_pk))
    as (_ & Hpk & _); [vm_compute; reflexivity|].
  split; [apply Hforced; vm_compute; reflexivity|].
  split; [eapply Hok; vm_compute; reflexivity|].
  apply Hpk. vm_compute. reflexivity.
Defined.

(** With SCF_TYPE set to "PK" by the caller, the example run relabels
    nothing and makes the same five sub-calculations. *)
Example C10_no_relabeling_without_df :
  schedule (new_events demo_world_pk (snd demo_run_pk)) =
    [Calc Demo.sapt_dimer "SAPT(DFT): delta HF Dimer";
     Calc Demo.monomerA "SAPT(DFT): delta HF Monomer A";
     Calc Demo.monomerB "SAPT(DFT): delta HF Monomer B";
     Calc Demo.monomerA "SAPT(DFT): DFT Monomer A";
     Calc Demo.monomerB "SAPT(DFT): DFT Monomer B"].
Proof. vm_compute. reflexivity. Qed.

(** ** C1: the configuration snapshot *)

(** The snapshot of line 46 is adequate: put back, it restores the
    value every recorded key had when it was taken, whatever was
    written since. *)
Lemma restore_one_get s o module key :
  opt_get (p4util.restore_one s o) module key =
  if String.eqb (p4util.os_option s) key
  then match (if String.eqb (p4util.os_module s) module
              then p4util.os_local s
              else locals o !! (module, key)) with
       | Some v => v
       | None =>
           match p4util.os_global s with
           | Some v => v
           | None => defaults o key
           end
       end
  else opt_get o module key.
Proof.
  unfold opt_get, p4util.restore_one. simpl.
  destruct (String.eqb_spec (p4util.os_option s) key) as [->|Hk].
  - destruct (String.eqb_spec (p4util.os_module s) module) as [->|Hm].
    + destruct (p4util.os_local s);
        rewrite ?lookup_insert_eq, ?lookup_delete_eq;
        destruct (p4util.os_global s);
        by rewrite ?lookup_insert_eq, ?lookup_delete_eq.
    + assert ((p4util.os_module s, key) <> (module, key)) by congruence.
      destruct (p4util.os_local s);
        rewrite ?lookup_insert_ne, ?lookup_delete_ne by done;
        destruct (locals o !! (module, key)); try done;
        destruct (p4util.os_global s);
        by rewrite ?lookup_insert_eq, ?lookup_delete_eq.
  - assert ((p4util.os_module s, p4util.os_option s) <> (module, key))
      by congruence.
    destruct (p4util.os_local s), (p4util.os_global s);
      by rewrite ?lookup_insert_ne, ?lookup_delete_ne by done.
Qed.

(** C1 fails on the code: the snapshot is never put back.  Every
    successful run found REFERENCE at "RHF" (a validation gate) and
    leaves it at "RKS", with SAVE_JK set; when the caller had not
    changed SCF_TYPE it is left at "DF". *)
Theorem C1_snapshot_not_restored eng name kwargs w ret w' :
  run_sapt_dft eng name kwargs w = (Ok ret, w') ->
  opt_get (options w) "SCF" "REFERENCE" = VStr "RHF" /\
  opt_get (options w') "SCF" "REFERENCE" = VStr "RKS" /\
  opt_get (options w') "SCF" "SAVE_JK" =
    match locals (options w) !! ("SCF", "SAVE_JK") with
    | Some v => v
    | None => VBool true
    end /\
  (opt_changed (options w) "SCF" "SCF_TYPE" = false ->
   opt_get (options w') "SCF" "SCF_TYPE" = VStr "DF").
Proof.
  intros Hrun.
  apply run_sapt_dft_ok in Hrun as (Hvalid & h & p & _ & _ & ->).
  set (o := options w) in *. split; [|split; [|split]].
  - unfold entry_validation, validation_failure in Hvalid.
    destruct (negb _ && _); [done|].
    destruct (py_eq_str (opt_get o "SCF" "REFERENCE") "RHF") eqn:E;
      [|done].
    by apply py_eq_str_true.
  - unfold final_options, dft_monomers_options.
    rewrite opt_get_set_global_ne, opt_get_set_if_global_ne,
      opt_get_set_global_ne, opt_get_set_if_global_ne by done.
    apply opt_get_set_local_eq.
  - unfold final_options.
    rewrite opt_get_dft_monomers_options_ne,
      !opt_get_set_if_global_ne by done.
    unfold entry_options, opt_get, opt_set_global, opt_set_local.
    destruct (opt_changed o "SCF" "SCF_TYPE"); simpl;
      rewrite ?lookup_insert_ne by done;
      destruct (locals o !! ("SCF", "SAVE_JK")); try done;
      by rewrite lookup_insert_eq.
  - intros Hchanged. unfold final_options.
    rewrite opt_get_dft_monomers_options_ne,
      !opt_get_set_if_global_ne, opt_get_set_global_ne by done.
    unfold entry_options. rewrite Hchanged.
    apply opt_get_set_local_eq.
Qed.

Lemma C1_snapshot_not_restored_witness :
  opt_get (options demo_world) "SCF" "REFERENCE" = VStr "RHF" /\
  opt_get (options (snd demo_run)) "SCF" "REFERENCE" = VStr "RKS" /\
  opt_get (options (snd demo_run)) "SCF" "SAVE_JK" =
    match locals (options demo_world) !! ("SCF", "SAVE_JK") with
    | Some v => v
    | None => VBool true
    end /\
  (opt_changed (options demo_world) "SCF" "SCF_TYPE" = false ->
   opt_get (options (snd demo_run)) "SCF" "SCF_TYPE" = VStr "DF").
Proof.
  refine (C1_snapshot_not_restored (Demo.engine None) "sapt(dft)"
            Demo.no_kwargs demo_world _ (snd demo_run) _).
  vm_compute. reflexivity.
Defined.

(** On the example run: four of the five recorded keys differ at exit
    from what they were at entry. *)
Example C1_demo_values :
  let before := options demo_world in
  let after := options (snd demo_run) in
  (opt_get before "SCF" "SCF_TYPE", opt_get after "SCF" "SCF_TYPE") =
    (VStr "PK", VStr "DF") /\
  (opt_get before "SCF" "REFERENCE", opt_get after "SCF" "REFERENCE") =
    (VStr "RHF", VStr "RKS") /\
  (opt_get before "SCF" "DFT_FUNCTIONAL",
   opt_get after "SCF" "DFT_FUNCTIONAL") = (VStr "", VStr "PBE0") /\
  (opt_get before "SCF" "SAVE_JK", opt_get after "SCF" "SAVE_JK") =
    (VBool false, VBool true).
Proof.
  split; [vm_compute; reflexivity|].
  split; [vm_compute; reflexivity|].
  split; vm_compute; reflexivity.
Qed.

(** ** Further properties of the driver *)

Ltac plain_side :=
  try solve
      [ exact Logic.I
      | reflexivity
      | discriminate
      | intros; exact Logic.I
      | intros; reflexivity ].

(** *** A collaborator that raises ends the run *)

Lemma run_fails_fast eng name kwargs :
  triple failed_next failed_ok (fun _ _ => True) false
         (run_sapt_dft eng name kwargs)
         (fun _ s => s = false) (fun _ => True).
Proof. t_unfold. t_run ltac:(plain_side) ltac:(fail). Qed.

Lemma failed_final evs s :
  final failed_next s evs = s || existsb is_failed_call evs.
Proof.
  revert s. induction evs as [|e evs IH]; intros s; simpl.
  - by rewrite orb_false_r.
  - unfold final in *. simpl. rewrite IH. unfold failed_next.
    by rewrite orb_assoc.
Qed.

Lemma failed_last evs before e after :
  accepts failed_next failed_ok false evs ->
  evs = before ++ e :: after ->
  is_failed_call e = true ->
  after = [].
Proof.
  intros Hacc -> He.
  apply accepts_app in Hacc as [_ [Hok Hafter]].
  unfold failed_ok in Hok. rewrite Hok in Hafter.
  unfold failed_next in Hafter. rewrite He in Hafter. simpl in Hafter.
  destruct after as [|e' after]; [done|]. by destruct Hafter.
Qed.

(** X1: when a call to a collaborator raises, the failed call is the
    last thing the run does, and the run raises. *)
Theorem collaborator_failure_ends_run eng name kwargs w r w' before e after :
  run_sapt_dft eng name kwargs w = (r, w') ->
  new_events w w' = before ++ e :: after ->
  is_failed_call e = true ->
  after = [] /\ exists exn, r = Raise exn.
Proof.
  intros Hrun Hevs He.
  destruct (triple_elim _ _ _ _ _ _ _ _ _ _
              (run_fails_fast eng name kwargs) Logic.I Hrun)
    as (Hacc & _ & Hfinal).
  split; [by eapply failed_last|].
  destruct r as [ret|exn]; [|by eexists].
  rewrite failed_final, Hevs, existsb_app in Hfinal. simpl in Hfinal.
  rewrite He, orb_true_r in Hfinal. discriminate Hfinal.
Qed.

Lemma collaborator_failure_ends_run_witness :
  drop 28 (new_events demo_world (snd demo_run_scf_failure)) = [] /\
  exists exn, fst demo_run_scf_failure = Raise exn.
Proof.
  apply (collaborator_failure_ends_run
           (Demo.engine (Some "SAPT(DFT): DFT Monomer A")) "sapt(dft)"
           Demo.no_kwargs demo_world
           (fst demo_run_scf_failure) (snd demo_run_scf_failure)
           (take 27 (new_events demo_world (snd demo_run_scf_failure)))
           (EvScfHelper Demo.monomerA "SAPT(DFT): DFT Monomer A" None)).
  - vm_compute. reflexivity.
  - vm_compute. reflexivity.
  - reflexivity.
Defined.

(** *** A run that raises publishes nothing and leaves the timer on *)

Lemma run_closing_steps eng name kwargs :
  triple closing_next (fun _ _ => True) (fun _ _ => True) false
         (run_sapt_dft eng name kwargs)
         (fun _ _ => True) (fun s => s = false).
Proof. t_unfold. t_run ltac:(plain_side) ltac:(fail). Qed.

Lemma closing_final evs s :
  final closing_next s evs = s || existsb is_closing_step evs.
Proof.
  revert s. induction evs as [|e evs IH]; intros s; simpl.
  - by rewrite orb_false_r.
  - unfold final in *. simpl. rewrite IH. unfold closing_next.
    by rewrite orb_assoc.
Qed.

Lemma no_closing_step evs :
  existsb is_closing_step evs = false ->
  published evs = [] /\ ~ In EvTstop evs.
Proof.
  induction evs as [|e evs IH]; simpl; [by auto|].
  intros [He Hevs]%orb_false_elim. destruct (IH Hevs) as [Hpub Hstop].
  unfold published in *. split.
  - by destruct e.
  - intros [->|Hin]; [done|by apply Hstop].
Qed.

(** X2: a run that raises has published no entry of the report to the
    variable store and has not stopped the timer it started. *)
Theorem failed_run_publishes_nothing eng name kwargs w exn w' :
  run_sapt_dft eng name kwargs w = (Raise exn, w') ->
  published (new_events w w') = [] /\ ~ In EvTstop (new_events w w').
Proof.
  intros Hrun.
  destruct (triple_elim _ _ _ _ _ _ _ _ _ _
              (run_closing_steps eng name kwargs) Logic.I Hrun)
    as (_ & _ & Hfinal).
  rewrite closing_final in Hfinal. by apply no_closing_step.
Qed.

Lemma failed_run_publishes_nothing_witness :
  published (new_events demo_world (snd demo_run_scf_failure)) = [] /\
  ~ In EvTstop (new_events demo_world (snd demo_run_scf_failure)).
Proof.
  apply (failed_run_publishes_nothing
           (Demo.engine (Some "SAPT(DFT): DFT Monomer A")) "sapt(dft)"
           Demo.no_kwargs demo_world (EngineError "SCF did not converge")
           (snd demo_run_scf_failure)).
  vm_compute. reflexivity.
Defined.

(** *** The options the run leaves alone *)

Lemma frame_refl o : frame o o.
Proof. by split; [|split]. Qed.

Lemma frame_set_global o0 o key v :
  In key written_globals -> frame o0 o -> frame o0 (opt_set_global key v o).
Proof.
  intros Hin (Hd & Hg & Hl). split; [done|]. split; [|done].
  intros k Hk. simpl. rewrite lookup_insert_ne; [by apply Hg|].
  by intros ->.
Qed.

Lemma frame_set_local o0 o module key v :
  In (module, key) written_locals -> frame o0 o ->
  frame o0 (opt_set_local module key v o).
Proof.
  intros Hin (Hd & Hg & Hl). split; [done|]. split; [done|].
  intros m k Hk. simpl. rewrite lookup_insert_ne; [by apply Hl|].
  by intros [= -> ->].
Qed.

Ltac frame_side :=
  try solve
      [ exact Logic.I
      | reflexivity
      | intros; assumption
      | intros; apply frame_set_global; [simpl; tauto|assumption]
      | intros; apply frame_set_local; [simpl; tauto|assumption] ].

Lemma run_frame eng name kwargs o0 :
  triple (fun s _ => s) (fun _ _ => True) (fun _ o => frame o0 o) tt
         (run_sapt_dft eng name kwargs)
         (fun _ _ => True) (fun _ => True).
Proof. t_unfold. t_run ltac:(frame_side) ltac:(fail). Qed.

(** X3: whatever its outcome, a run writes no option other than the
    global SAVE_JK, DF_INTS_IO, DFT_FUNCTIONAL and DFT_GRAC_SHIFT and
    the SCF module's SCF_TYPE and REFERENCE: every other entry of the
    option store, and every default, is at exit what it was at entry. *)
Theorem options_left_alone eng name kwargs w r w' :
  run_sapt_dft eng name kwargs w = (r, w') ->
  defaults (options w') = defaults (options w) /\
  (forall key,
      ~ In key written_globals ->
      globals (options w') !! key = globals (options w) !! key) /\
  (forall module key,
      ~ In (module, key) written_locals ->
      locals (options w') !! (module, key) =
      locals (options w) !! (module, key)).
Proof.
  intros Hrun.
  by destruct (triple_elim _ _ _ _ _ _ _ _ _ _
                 (run_frame eng name kwargs (options w))
                 (frame_refl _) Hrun) as (_ & Hframe & _).
Qed.

Lemma options_left_alone_witness :
  defaults (options (snd demo_run)) = defaults (options demo_world) /\
  (forall key,
      ~ In key written_globals ->
      globals (options (snd demo_run)) !! key =
      globals (options demo_world) !! key) /\
  (forall module key,
      ~ In (module, key) written_locals ->
      locals (options (snd demo_run)) !! (module, key) =
      locals (options demo_world) !! (module, key)).
Proof.
  apply (options_left_alone (Demo.engine None) "sapt(dft)" Demo.no_kwargs
                            demo_world (fst demo_run)).
  vm_compute. reflexivity.
Defined.

(** *** The default namespace of each sub-calculation *)

Lemma run_namespaces eng name kwargs :
  triple namespace_next namespace_ok (fun _ _ => True) None
         (run_sapt_dft eng name kwargs)
         (fun _ s => s = Some "monomerB") (fun _ => True).
Proof.
  t_unfold. t_run ltac:(plain_side) ltac:(fail).
Qed.

(** X4: every sub-calculation runs under the default namespace its
    banner stands for: the two DFT monomer calculations under
    "monomerA" and "monomerB", the three calculations of the delta HF
    pass all under "dimer" (between those only file 97 is relabeled).
    A successful run leaves "monomerB" as the default namespace. *)
Theorem sub_calculation_namespace eng name kwargs w r w' :
  run_sapt_dft eng name kwargs w = (r, w') ->
  (forall before mol banner out after,
      new_events w w' = before ++ EvScfHelper mol banner out :: after ->
      last_namespace before = Some (namespace_of_banner banner)) /\
  forall ret,
    r = Ok ret -> last_namespace (new_events w w') = Some "monomerB".
Proof.
  intros Hrun.
  destruct (triple_elim _ _ _ _ _ _ _ _ _ _
              (run_namespaces eng name kwargs) Logic.I Hrun)
    as (Hacc & _ & Hfinal).
  split.
  - intros before mol banner out after Hevs. rewrite Hevs in Hacc.
    by apply accepts_app in Hacc as [_ [Hok _]].
  - by intros ret ->.
Qed.

(** In the example run the delta HF calculation of monomer A runs under
    "dimer", the DFT calculation of monomer A under "monomerA". *)
Lemma sub_calculation_namespace_witness :
  last_namespace (take 10 (new_events demo_world (snd demo_run))) =
    Some "dimer" /\
  last_namespace (take 27 (new_events demo_world (snd demo_run))) =
    Some "monomerA" /\
  last_namespace (new_events demo_world (snd demo_run)) = Some "monomerB".
Proof.
  destruct (sub_calculation_namespace (Demo.engine None) "sapt(dft)"
              Demo.no_kwargs demo_world (fst demo_run) (snd demo_run))
    as [Hall Hok]; [vm_compute; reflexivity|].
  split; [|split].
  - eapply (Hall _ Demo.monomerA "SAPT(DFT): delta HF Monomer A").
    vm_compute. reflexivity.
  - eapply (Hall _ Demo.monomerA "SAPT(DFT): DFT Monomer A").
    vm_compute. reflexivity.
  - eapply Hok. vm_compute. reflexivity.
Defined.

(** *** The relabelings of file 97 form a chain *)

Lemma uses_df_true o :
  uses_df o = true ->
  if opt_changed o "SCF" "SCF_TYPE"
  then py_eq_str (opt_get o "SCF" "SCF_TYPE") "DF" = true
  else True.
Proof.
  unfold uses_df, entry_options.
  by destruct (opt_changed o "SCF" "SCF_TYPE").
Qed.

Lemma relabel_chain_final evs s :
  accepts chain_next chain_ok s evs ->
  relabel_chain (snd s) (relabelings evs) = Some (snd (final chain_next s evs)).
Proof.
  revert s. induction evs as [|e evs IH]; intros s; simpl; [done|].
  intros [Hok Hacc]. specialize (IH _ Hacc). unfold final in *.
  unfold relabelings in *. simpl.
  destruct e; simpl in *; try done.
  destruct Hok as [-> ->]. by rewrite Z.eqb_refl, String.eqb_refl.
Qed.

Ltac chain_dead :=
  idtac;
  match goal with
  | H : exists o, _ /\ ?v = opt_changed o _ _, Hc : negb ?v = false |- _ =>
      destruct H as (? & H & ->); rewrite H in Hc; discriminate Hc
  | H : exists o, _ /\ ?v = opt_get o "SCF" "SCF_TYPE",
    Hc : py_eq_str ?v "DF" = false |- _ =>
      destruct H as (? & H & ->); rewrite H in Hc; discriminate Hc
  end.

Ltac chain_side :=
  try solve
      [ exact Logic.I
      | reflexivity
      | done
      | intros; assumption
      | unfold chain_inv; simpl; intros;
        rewrite opt_get_set_global_ne by discriminate; assumption
      | unfold chain_inv; simpl; intros;
        rewrite opt_get_set_local_ne by discriminate; assumption
      | unfold chain_inv; simpl; intros;
        rewrite opt_get_set_local_eq; reflexivity ].

Lemma run_chain eng name kwargs (settled : bool) :
  triple chain_next chain_ok chain_inv (settled, "dimer")
         (run_sapt_dft eng name kwargs)
         (fun _ s => s = (true, "monomerB")) (fun _ => True).
Proof.
  t_unfold. destruct settled.
  - t_run ltac:(chain_side) ltac:(chain_dead).
  - t_run ltac:(chain_side) ltac:(chain_dead).
Qed.

(** X5: under density fitting the relabelings of a run, whatever its
    outcome, form a chain on file 97 that starts at "dimer": each one
    moves the file from the namespace the previous one left it in.  A
    successful run leaves the file in "monomerB"; the relabelings of
    its delta HF pass come back to "dimer". *)
Theorem relabelings_form_chain eng name kwargs w r w' :
  uses_df (options w) = true ->
  run_sapt_dft eng name kwargs w = (r, w') ->
  (exists last,
      relabel_chain "dimer" (relabelings (new_events w w')) = Some last) /\
  forall ret,
    r = Ok ret ->
    relabel_chain "dimer" (relabelings (new_events w w')) = Some "monomerB" /\
    (does_delta_hf (options w) = true ->
     relabelings (auxiliary_pass (new_events w w')) <> [] /\
     relabel_chain "dimer" (relabelings (auxiliary_pass (new_events w w')))
     = Some "dimer").
Proof.
  intros Hdf Hrun.
  assert (chain_inv (opt_changed (options w) "SCF" "SCF_TYPE", "dimer")
                    (options w)) as Hinv.
  { unfold chain_inv. simpl. apply uses_df_true in Hdf.
    by destruct (opt_changed (options w) "SCF" "SCF_TYPE"). }
  destruct (triple_elim _ _ _ _ _ _ _ _ _ _
              (run_chain eng name kwargs _) Hinv Hrun)
    as (Hacc & _ & Hfinal).
  apply relabel_chain_final in Hacc. simpl in Hacc.
  split; [by eexists|].
  intros ret ->. rewrite Hfinal in Hacc. split; [done|].
  intros Hdhf.
  apply run_sapt_dft_ok in Hrun as (_ & h & p & -> & _ & _).
  rewrite auxiliary_pass_run_events, Hdf, Hdhf.
  unfold relabelings, entry_events.
  by destruct (opt_changed (options w) "SCF" "SCF_TYPE").
Qed.

Lemma relabelings_form_chain_witness :
  (exists last,
      relabel_chain "dimer"
        (relabelings (new_events demo_world (snd demo_run_scf_failure)))
      = Some last) /\
  relabel_chain "dimer" (relabelings (new_events demo_world (snd demo_run)))
  = Some "monomerB" /\
  relabelings (auxiliary_pass (new_events demo_world (snd demo_run))) <> [] /\
  relabel_chain "dimer"
    (relabelings (auxiliary_pass (new_events demo_world (snd demo_run))))
  = Some "dimer".
Proof.
  destruct (relabelings_form_chain
              (Demo.engine (Some "SAPT(DFT): DFT Monomer A")) "sapt(dft)"
              Demo.no_kwargs demo_world
              (fst demo_run_scf_failure) (snd demo_run_scf_failure))
    as [Hfail _]; [vm_compute; reflexivity..|].
  destruct (relabelings_form_chain (Demo.engine None) "sapt(dft)"
              Demo.no_kwargs demo_world (fst demo_run) (snd demo_run))
    as [_ Hok]; [vm_compute; reflexivity..|].
  split; [exact Hfail|].
  edestruct Hok as [Hlast Haux]; [vm_compute; reflexivity|].
  split; [exact Hlast|]. apply Haux. vm_compute. reflexivity.
Defined.

(** *** The reference gate, and the runs that pass the gates *)

(** X6: when the two GRAC shifts are values the banner can format
    (anything but a string or an int out of the range of a double), the
    GRAC gate lets the input through and the SCF reference is not
    "RHF", the run raises the validation error of the reference gate,
    whatever the fragment count; it has called no collaborator and
    written no global option by then. *)
Theorem reference_gate eng name kwargs w :
  fmt_f_error (mon_a_shift_of (options w)) = None ->
  fmt_f_error (mon_b_shift_of (options w)) = None ->
  negb (py_eq_str (opt_get (options w) "SAPT" "SAPT_DFT_FUNCTIONAL") "HF")
  && (py_eq_zero (mon_a_shift_of (options w))
      || py_eq_zero (mon_b_shift_of (options w))) = false ->
  py_eq_str (opt_get (options w) "SCF" "REFERENCE") "RHF" = false ->
  exists w',
    run_sapt_dft eng name kwargs w =
      (Raise (ValidationError msg_reference), w') /\
    engine_calls (new_events w w') = [] /\
    globals (options w') = globals (options w).
Proof.
  intros Ha Hb Hgrac Href.
  eexists. split.
  - apply run_validation_failure; [done..|].
    unfold entry_validation, validation_failure.
    by rewrite Hgrac, Href.
  - erewrite new_events_app by reflexivity.
    split; [apply engine_calls_entry_events|].
    cbn [options]. unfold entry_options.
    by destruct (opt_changed (options w) "SCF" "SCF_TYPE").
Qed.

Lemma reference_gate_witness :
  exists w',
    run_sapt_dft (Demo.engine None) "sapt(dft)" Demo.no_kwargs
                 demo_world_uhf =
      (Raise (ValidationError msg_reference), w') /\
    engine_calls (new_events demo_world_uhf w') = [] /\
    globals (options w') = globals (options demo_world_uhf).
Proof.
  apply (reference_gate (Demo.engine None) "sapt(dft)" Demo.no_kwargs
                        demo_world_uhf);
    vm_compute; reflexivity.
Defined.

Lemma wp_triple {A} (m : M A) w (Q : Result A -> World -> Prop) :
  triple (fun s _ => s) (fun _ _ => True) (fun _ _ => True) tt m
         (fun _ _ => True) (fun _ => True) ->
  (forall r w', (exists evs, trace w' = trace w ++ evs) -> Q r w') ->
  wp m w Q.
Proof.
  intros Hm HQ. apply wp_intro. intros r w' Hrun.
  destruct (Hm _ _ _ Logic.I Hrun) as (evs & Htr & _).
  apply HQ. by exists evs.
Qed.

Lemma run_passes_validation eng name kwargs o vs am ns tr :
  fmt_f_error (mon_a_shift_of o) = None ->
  fmt_f_error (mon_b_shift_of o) = None ->
  entry_validation o (sapt_dimer_of kwargs am) = None ->
  wp (run_sapt_dft eng name kwargs) (mkWorld o vs am ns tr)
     (fun r w' =>
        exists rest,
          trace w' =
          tr ++ entry_events o ++
          [EvSetDefaultNamespace "dimer";
           EvSetGlobalOption "SAVE_JK" (VBool true)] ++ rest).
Proof.
  intros Ha Hb Hval.
  unfold mon_a_shift_of, mon_b_shift_of in *.
  apply wp_start. unfold run_sapt_dft.
  repeat first [ wp_step | apply wp_get_sapt_dimer ].
  all: unfold wp at 1; rewrite validate_run;
    cbn [options fst snd]; norm_opts;
    unfold entry_validation, mon_a_shift_of, mon_b_shift_of in Hval;
    rewrite Hval; cbn [fst snd].
  all: do 4 wp_step.
  all: apply wp_triple;
    [ unfold interaction_segment, dft_monomers, delta_hf_segment, when_df,
        call_scf_helper, when;
      cbv beta zeta; t_run ltac:(plain_side) ltac:(fail)
    | intros r w' [evs ->]; exists evs; cbn [trace];
      unfold entry_events; rewrite_guards;
      cbn [rev concat app]; by rewrite <- !app_assoc ].
Qed.

(** X7: an input whose GRAC shifts the banner can format (anything but
    a string or an int out of the range of a double) and which passes
    the three gates (with the functional "HF" the shifts may both be
    0.0) is not stopped before the calculations: whatever happens
    later, the run has started the timer, settled the SCF type, made
    "dimer" the default namespace and set SAVE_JK. *)
Theorem valid_input_starts_computing eng name kwargs w r w' :
  fmt_f_error (mon_a_shift_of (options w)) = None ->
  fmt_f_error (mon_b_shift_of (options w)) = None ->
  entry_validation (options w) (sapt_dimer_of kwargs (active_molecule w))
  = None ->
  run_sapt_dft eng name kwargs w = (r, w') ->
  exists rest,
    new_events w w' =
    entry_events (options w) ++
    [EvSetDefaultNamespace "dimer";
     EvSetGlobalOption "SAVE_JK" (VBool true)] ++ rest.
Proof.
  intros Ha Hb Hval Hrun. destruct w as [o vs am ns tr].
  cbn [options active_molecule] in *.
  destruct (wp_elim _ _ _ _ _
              (run_passes_validation eng name kwargs o vs am ns tr
                                     Ha Hb Hval) Hrun)
    as [rest Htr].
  exists rest. by apply new_events_app.
Qed.

(** The functional "HF" with both shifts at their default 0.0. *)
Lemma valid_input_starts_computing_witness :
  exists rest,
    new_events demo_world_hf (snd demo_run_hf) =
    entry_events (options demo_world_hf) ++
    [EvSetDefaultNamespace "dimer";
     EvSetGlobalOption "SAVE_JK" (VBool true)] ++ rest.
Proof.
  apply (valid_input_starts_computing (Demo.engine None) "sapt(dft)"
           Demo.no_kwargs demo_world_hf (fst demo_run_hf));
    vm_compute; reflexivity.
Defined.


(** *** The variable store and the namespace a successful run leaves *)

Lemma wp_interaction_segment_store eng sapt_dimer dimer_wfn wfn_A wfn_B a b
      data built e_A e_B o vs am ns tr cs Q :
  (forall terms aux fdds mp2 text vs',
      Q (Ok tt)
        (mkWorld o
           (publish (dict_update
                       (dict_update (merge_terms data terms) fdds) mp2) vs')
           am ns
           (tr ++ concat (rev (
                   interaction_events
                     sapt_dimer (opt_get o "SAPT" "MAXITER")
                     (opt_get o "SAPT" "D_CONVERGENCE")
                     (opt_get o "SAPT" "SAPT_DFT_MP2_DISP_ALG")
                     dimer_wfn
                     (dict_update
                        (dict_update (merge_terms data terms) fdds) mp2)
                     (mkPrimary built wfn_A e_A wfn_B e_B terms aux fdds
                                mp2 text) :: cs))))) ->
  (forall e w', Q (Raise e) w') ->
  wp (interaction_segment eng sapt_dimer dimer_wfn wfn_A wfn_B a b data)
     (mkWorld o vs am ns (tr ++ concat (rev cs))) Q.
Proof.
  intros Hok Hfail. phase_start Hok. unfold interaction_segment.
  wp_run; try apply Hfail.
  all: match goal with
       | |- context [EvDftSummary
                       (dict_update
                          (dict_update
                             (dict_update
                                (dict_update (dict_update _ ?elst) ?exch)
                                ?ind) ?fdds) ?mp2) _ (Some ?text)] =>
           match goal with
           | |- context [EvBuildCache _ _ (Some ?cache)] =>
               match goal with
               | |- context [EvBasisBuild _ (Some ?aux)] =>
                   eapply post_eq;
                   [ apply (Hok (mkTerms cache elst exch ind)
                                aux fdds mp2 text)
                   | reflexivity | ]
               end
           end
       end.
  all: unfold interaction_events, terms_events, mp2_event, merge_terms;
       cbn [p_wfn_A p_wfn_B p_terms p_aux_basis p_fdds p_mp2 p_text
            t_cache t_elst t_exch t_ind];
       phase_trace.
Qed.

Ltac run_step_store :=
  first
    [ wp_step
    | apply wp_get_sapt_dimer
    | apply wp_validate;
      [ let H := fresh "Hvalid" in intros H; norm_opts_in H | intros ? ? ]
    | apply wp_delta_hf_segment; [ intros ? ? | intros ? ? ]
    | apply wp_dft_monomers; [ intros ? ? | intros ? ? ]
    | lazymatch goal with
      | |- wp (interaction_segment _ _ ?dw (p_wfn_A ?p) (p_wfn_B ?p) _ _ _)
              _ _ =>
          apply (wp_interaction_segment_store _ _ _ _ _ _ _ _ dw
                                              (p_e_A p) (p_e_B p));
          [ intros ? ? ? ? ? ? | intros ? ? ]
      end ];
  cbv beta iota delta [fst snd];
  try close_failure.

Ltac run_leaf_store :=
  let ret := fresh "ret" in
  let H := fresh "Hret" in
  intros ret H; injection H as <-;
  split; [assumption|];
  split; [assumption|];
  split; [assumption|];
  lazymatch goal with
  | |- context [interaction_events _ _ _ _ _ _ ?pp] =>
      first
        [ match goal with h : DeltaHf |- _ => exists h, pp end
        | exists (no_delta_hf (p_built pp)), pp ]
  end;
  eexists;
  cbn [trace options variables default_namespace active_molecule];
  unfold final_options, run_events, entry_events, uses_df, entry_options,
    does_delta_hf, mon_a_shift_of, mon_b_shift_of, dimer_wfn_of,
    report_of_run, data_after_monomers, data_after_hf;
  cbn [p_built p_wfn_A p_e_A p_wfn_B p_e_B p_terms p_aux_basis p_fdds
       p_mp2 p_text];
  rewrite_guards; norm_opts; rewrite_guards;
  cbn [rev concat app];
  split; [reflexivity|];
  split; [reflexivity|];
  split; [reflexivity|];
  split; reflexivity.

(** Every successful run, with the store it leaves. *)
Lemma run_sapt_dft_store eng name kwargs o vs am ns tr :
  wp (run_sapt_dft eng name kwargs) (mkWorld o vs am ns tr)
     (fun r w' =>
        forall ret,
          r = Ok ret ->
          entry_validation o (sapt_dimer_of kwargs am) = None /\
          fmt_f_error (opt_get o "SAPT" "SAPT_DFT_GRAC_SHIFT_A") = None /\
          fmt_f_error (opt_get o "SAPT" "SAPT_DFT_GRAC_SHIFT_B") = None /\
          exists h p vs',
            trace w' = tr ++ run_events o (sapt_dimer_of kwargs am) h p /\
            variables w' =
              publish (report_of_run (does_delta_hf o) h p) vs' /\
            default_namespace w' = "monomerB" /\
            active_molecule w' = am /\
            options w' = final_options o).
Proof.
  apply wp_start. unfold run_sapt_dft.
  repeat run_step_store.
  all: run_leaf_store.
Qed.

Lemma dict_keys_set_in k v d :
  In k (dict_keys d) -> dict_keys (dict_set k v d) = dict_keys d.
Proof.
  unfold dict_keys. induction d as [|[k' v'] d IH]; simpl; [done|].
  intros Hin. destruct (String.eqb k' k) eqn:E; simpl; [done|].
  f_equal. apply IH. destruct Hin as [->|Hin]; [|done].
  by rewrite String.eqb_refl in E.
Qed.

Lemma dict_keys_set_notin k v d :
  ~ In k (dict_keys d) -> dict_keys (dict_set k v d) = dict_keys d ++ [k].
Proof.
  unfold dict_keys. induction d as [|[k' v'] d IH]; simpl; [done|].
  intros Hnotin. destruct (String.eqb k' k) eqn:E; simpl.
  - apply String.eqb_eq in E. subst. exfalso. apply Hnotin. by left.
  - f_equal. apply IH. intros Hin. apply Hnotin. by right.
Qed.

Lemma NoDup_dict_set k v d :
  NoDup (dict_keys d) -> NoDup (dict_keys (dict_set k v d)).
Proof.
  intros Hd.
  destruct (in_dec String.string_dec k (dict_keys d)) as [Hin|Hnotin].
  - by rewrite dict_keys_set_in.
  - rewrite dict_keys_set_notin by done.
    apply NoDup_app. split; [done|]. split; [|apply NoDup_singleton].
    intros x Hx ->%list_elem_of_singleton. apply Hnotin.
    by apply list_elem_of_In.
Qed.

Lemma NoDup_dict_update d e :
  NoDup (dict_keys d) -> NoDup (dict_keys (dict_update d e)).
Proof.
  unfold dict_update. revert d.
  induction e as [|[k v] e IH]; intros d Hd; simpl; [done|].
  apply IH. by apply NoDup_dict_set.
Qed.

Lemma dict_get_None k d : ~ In k (dict_keys d) -> dict_get k d = None.
Proof.
  unfold dict_keys. induction d as [|[k' v'] d IH]; simpl; [done|].
  intros Hnotin. destruct (String.eqb k' k) eqn:E.
  - apply String.eqb_eq in E. subst. exfalso. apply Hnotin. by left.
  - apply IH. intros Hin. apply Hnotin. by right.
Qed.

Lemma dict_get_In k v d : dict_get k d = Some v -> In k (dict_keys d).
Proof.
  unfold dict_keys. induction d as [|[k' v'] d IH]; simpl; [done|].
  destruct (String.eqb k' k) eqn:E.
  - apply String.eqb_eq in E. auto.
  - auto.
Qed.

(** [d.update(e)]: the values of [e] win. *)
Lemma dict_get_update_in k v d e :
  NoDup (dict_keys e) -> dict_get k e = Some v ->
  dict_get k (dict_update d e) = Some v.
Proof.
  unfold dict_update. revert d.
  induction e as [|[k' v'] e IH]; intros d Hnodup; simpl; [done|].
  apply NoDup_cons in Hnodup as [Hnotin Hnodup].
  destruct (String.eqb k' k) eqn:E.
  - apply String.eqb_eq in E. subst k'. intros [= ->].
    fold (dict_update (dict_set k v d) e).
    rewrite dict_get_update_notin by (by rewrite <- list_elem_of_In).
    apply dict_get_set_eq.
  - by apply IH.
Qed.

(** Publishing a mapping: the store holds each of its entries, and
    keeps every other variable. *)
Lemma publish_lookup_other k d vs :
  ~ In k (dict_keys d) -> publish d vs !! k = vs !! k.
Proof.
  unfold publish. revert vs.
  induction d as [|[k' v'] d IH]; intros vs Hnotin; simpl; [done|].
  rewrite IH by (intros Hin; apply Hnotin; by right).
  rewrite lookup_insert_ne; [done|]. intros ->. apply Hnotin. by left.
Qed.

Lemma publish_lookup k v d vs :
  NoDup (dict_keys d) -> dict_get k d = Some v -> publish d vs !! k = Some v.
Proof.
  revert vs.
  induction d as [|[k' v'] d IH]; intros vs Hnodup; simpl; [done|].
  apply NoDup_cons in Hnodup as [Hnotin Hnodup].
  destruct (String.eqb k' k) eqn:E.
  - apply String.eqb_eq in E. subst k'. intros [= ->].
    change (publish d (<[k:=v]> vs) !! k = Some v).
    rewrite publish_lookup_other by (by rewrite <- list_elem_of_In).
    apply lookup_insert_eq.
  - intros Hget. by apply (IH (<[k':=v']> vs)).
Qed.

Lemma NoDup_report_of_run dhf h p :
  NoDup (dict_keys (report_of_run dhf h p)).
Proof.
  unfold report_of_run, merge_terms, data_after_monomers.
  repeat first [ apply NoDup_dict_update | apply NoDup_dict_set ].
  unfold data_after_hf. destruct dhf; simpl.
  - apply NoDup_singleton.
  - apply NoDup_nil_2.
Qed.

Lemma reports_run_events o sapt_dimer h p :
  reports (run_events o sapt_dimer h p) =
  [report_of_run (does_delta_hf o) h p].
Proof.
  unfold reports. rewrite omap_run_events.
  rewrite auxiliary_pass_run_events.
  unfold interaction_events, mp2_event.
  rewrite !omap_app, omap_publish_events by done.
  unfold entry_events, dft_monomers_events, shift_events.
  by destruct (opt_changed o "SCF" "SCF_TYPE"), (uses_df o),
    (does_delta_hf o), (py_truthy (mon_a_shift_of o)),
    (py_truthy (mon_b_shift_of o)),
    (py_eq_str (opt_get o "SAPT" "SAPT_DFT_MP2_DISP_ALG") "FISAPT").
Qed.

(** X8: after a successful run the variable store holds every entry of
    the report that was handed to the final summary, under its label;
    the default namespace is left at "monomerB" and the active molecule
    is the one it was. *)
Theorem report_is_in_the_store eng name kwargs w ret w' :
  run_sapt_dft eng name kwargs w = (Ok ret, w') ->
  exists report,
    reports (new_events w w') = [report] /\
    (forall label value,
        dict_get label report = Some value ->
        variables w' !! label = Some value) /\
    default_namespace w' = "monomerB" /\
    active_molecule w' = active_molecule w.
Proof.
  intros Hrun. destruct w as [o vs am ns tr].
  destruct (wp_elim _ _ _ _ _ (run_sapt_dft_store eng name kwargs o vs am ns tr)
                    Hrun ret eq_refl)
    as (_ & _ & _ & h & p & vs' & Htr & Hvars & Hns & Ham & _).
  exists (report_of_run (does_delta_hf o) h p).
  rewrite (new_events_app (mkWorld o vs am ns tr) _ _ Htr).
  rewrite reports_run_events.
  split; [done|]. split; [|done].
  intros label value Hget. rewrite Hvars.
  apply publish_lookup; [apply NoDup_report_of_run|done].
Qed.

Lemma report_is_in_the_store_witness :
  exists report,
    reports (new_events demo_world (snd demo_run)) = [report] /\
    (forall label value,
        dict_get label report = Some value ->
        variables (snd demo_run) !! label = Some value) /\
    default_namespace (snd demo_run) = "monomerB" /\
    active_molecule (snd demo_run) = active_molecule demo_world.
Proof.
  eapply (report_is_in_the_store (Demo.engine None) "sapt(dft)"
            Demo.no_kwargs demo_world).
  vm_compute. reflexivity.
Defined.

(** *** The labels of the report *)

Lemma existsb_eqb_In k l : existsb (String.eqb k) l = true <-> In k l.
Proof.
  rewrite existsb_exists. split.
  - intros (x & Hx & ->%String.eqb_eq). exact Hx.
  - intros Hk. exists k. split; [exact Hk|apply String.eqb_refl].
Qed.

(** What counts in [seen] is which labels it holds. *)
Lemma first_occurrences_ext s1 s2 ks :
  (forall x, In x s1 <-> In x s2) ->
  first_occurrences s1 ks = first_occurrences s2 ks.
Proof.
  revert s1 s2. induction ks as [|k ks IH]; intros s1 s2 Heq; simpl; [done|].
  assert (existsb (String.eqb k) s1 = existsb (String.eqb k) s2) as ->.
  { apply eq_true_iff_eq. rewrite !existsb_eqb_In. apply Heq. }
  destruct (existsb (String.eqb k) s2); [by apply IH|].
  f_equal. apply IH. intros x. simpl. by rewrite Heq.
Qed.

Lemma first_occurrences_app seen a b :
  first_occurrences seen (a ++ b) =
  first_occurrences seen a ++
  first_occurrences (seen ++ first_occurrences seen a) b.
Proof.
  revert seen. induction a as [|k a IH]; intros seen; simpl.
  - by rewrite app_nil_r.
  - destruct (existsb (String.eqb k) seen); [apply IH|].
    simpl. f_equal. rewrite IH. f_equal.
    apply first_occurrences_ext. intros x.
    rewrite !in_app_iff. simpl. tauto.
Qed.

(** [d.update(e)] keeps the labels of [d] where they are and appends the
    new labels of [e] in the order they come up in [e]. *)
Lemma dict_keys_update_first d e :
  dict_keys (dict_update d e) =
  dict_keys d ++ first_occurrences (dict_keys d) (dict_keys e).
Proof.
  unfold dict_update. revert d.
  induction e as [|[k v] e IH]; intros d; simpl.
  - by rewrite app_nil_r.
  - rewrite IH.
    destruct (existsb (String.eqb k) (dict_keys d)) eqn:E.
    + apply existsb_eqb_In in E. by rewrite dict_keys_set_in.
    + assert (~ In k (dict_keys d)) as Hnotin.
      { intros Hin. apply existsb_eqb_In in Hin. congruence. }
      rewrite dict_keys_set_notin by done.
      rewrite <- app_assoc. simpl. do 2 f_equal.
      apply first_occurrences_ext. intros x.
      rewrite in_app_iff. simpl. tauto.
Qed.

Lemma dict_keys_merge_all d ms :
  dict_keys (merge_all d ms) =
  dict_keys d ++ first_occurrences (dict_keys d) (flat_map dict_keys ms).
Proof.
  unfold merge_all. revert d.
  induction ms as [|m ms IH]; intros d; simpl.
  - by rewrite app_nil_r.
  - rewrite IH, dict_keys_update_first, first_occurrences_app.
    by rewrite <- app_assoc.
Qed.

(** X9: the report of a successful run carries no label twice.  Its
    labels start with "Delta HF Correction" when the delta HF pass ran,
    then "DFT MONOMERA" and "DFT MONOMERB"; the labels the evaluators of
    the primary pass returned follow, in the order the evaluators
    returned them, each where it first occurs and none that is already
    there ([data.update] keeps the position of a label the report
    holds). *)
Theorem report_labels eng name kwargs w ret w' :
  run_sapt_dft eng name kwargs w = (Ok ret, w') ->
  let leading :=
    (if does_delta_hf (options w) then ["Delta HF Correction"] else []) ++
    ["DFT MONOMERA"; "DFT MONOMERB"] in
  exists report,
    reports (new_events w w') = [report] /\
    NoDup (dict_keys report) /\
    dict_keys report =
      leading ++
      first_occurrences leading
        (flat_map dict_keys
           (map snd (evaluations (primary_pass (new_events w w'))))).
Proof.
  intros Hrun leading. subst leading.
  apply run_sapt_dft_ok in Hrun as (_ & h & p & -> & _ & _).
  set (o := options w).
  set (sapt_dimer := sapt_dimer_of kwargs (active_molecule w)).
  exists (report_of_run (does_delta_hf o) h p).
  split; [apply reports_run_events|].
  split; [apply NoDup_report_of_run|].
  rewrite (report_of_run_merge_all o sapt_dimer h p), dict_keys_merge_all.
  assert (dict_keys (data_after_monomers (does_delta_hf o) h p) =
          (if does_delta_hf o then ["Delta HF Correction"] else []) ++
          ["DFT MONOMERA"; "DFT MONOMERB"]) as ->; [|done].
  unfold data_after_monomers, data_after_hf.
  by destruct (does_delta_hf o).
Qed.

Lemma report_labels_witness :
  exists report,
    reports (new_events demo_world (snd demo_run)) = [report] /\
    NoDup (dict_keys report) /\
    dict_keys report =
      ((if does_delta_hf (options demo_world)
        then ["Delta HF Correction"] else []) ++
       ["DFT MONOMERA"; "DFT MONOMERB"]) ++
      first_occurrences
        ((if does_delta_hf (options demo_world)
          then ["Delta HF Correction"] else []) ++
         ["DFT MONOMERA"; "DFT MONOMERB"])
        (flat_map dict_keys
           (map snd
              (evaluations
                 (primary_pass (new_events demo_world (snd demo_run)))))).
Proof.
  eapply (report_labels (Demo.engine None) "sapt(dft)" Demo.no_kwargs
                        demo_world).
  vm_compute. reflexivity.
Defined.

(** In the example the evaluators return "Elst10,r", "Exch10",
    "Ind20,r", "Disp20" and "Disp20 (MP2)", each once. *)
Example report_labels_demo :
  map dict_keys (reports (new_events demo_world (snd demo_run))) =
  [["Delta HF Correction"; "DFT MONOMERA"; "DFT MONOMERB"; "Elst10,r";
    "Exch10"; "Ind20,r"; "Disp20"; "Disp20 (MP2)"]] /\
  first_occurrences ["a"; "b"] ["c"; "a"; "d"; "c"] = ["c"; "d"].
Proof. split; vm_compute; reflexivity. Qed.

Lemma mp2_dispersion_calls_run_events o sapt_dimer h p :
  mp2_dispersion_calls (run_events o sapt_dimer h p) =
  [(selected_variant o, Some (p_mp2 p))].
Proof.
  unfold mp2_dispersion_calls. rewrite omap_run_events.
  rewrite auxiliary_pass_run_events.
  unfold interaction_events, mp2_event, selected_variant.
  rewrite !omap_app, omap_publish_events by done.
  unfold entry_events, dft_monomers_events, shift_events.
  by destruct (opt_changed o "SCF" "SCF_TYPE"), (uses_df o),
    (does_delta_hf o), (py_truthy (mon_a_shift_of o)),
    (py_truthy (mon_b_shift_of o)),
    (py_eq_str (opt_get o "SAPT" "SAPT_DFT_MP2_DISP_ALG") "FISAPT").
Qed.

(** X10: the MP2 dispersion mapping is merged into the report last, so
    every entry the evaluator returned is an entry of the report, with
    the value the evaluator gave it, whatever an earlier evaluator had
    returned under the same label.  (The mapping is a dictionary: it
    carries no label twice.) *)
Theorem mp2_entries_win eng name kwargs w ret w' variant mp2 :
  run_sapt_dft eng name kwargs w = (Ok ret, w') ->
  In (variant, Some mp2) (mp2_dispersion_calls (new_events w w')) ->
  NoDup (dict_keys mp2) ->
  exists report,
    reports (new_events w w') = [report] /\
    forall label value,
      dict_get label mp2 = Some value ->
      dict_get label report = Some value /\
      variables w' !! label = Some value.
Proof.
  intros Hrun Hin Hnodup. destruct w as [o vs am ns tr].
  destruct (wp_elim _ _ _ _ _ (run_sapt_dft_store eng name kwargs o vs am ns tr)
                    Hrun ret eq_refl)
    as (_ & _ & _ & h & p & vs' & Htr & Hvars & _).
  rewrite (new_events_app (mkWorld o vs am ns tr) _ _ Htr) in *.
  rewrite mp2_dispersion_calls_run_events in Hin.
  destruct Hin as [[= _ <-]|[]].
  exists (report_of_run (does_delta_hf o) h p).
  split; [apply reports_run_events|].
  intros label value Hget.
  assert (dict_get label (report_of_run (does_delta_hf o) h p) = Some value)
    as Hreport by (by apply dict_get_update_in).
  split; [done|]. rewrite Hvars.
  apply publish_lookup; [apply NoDup_report_of_run|done].
Qed.

Lemma mp2_entries_win_witness :
  exists report,
    reports (new_events demo_world (snd demo_run)) = [report] /\
    forall label value,
      dict_get label [("Disp20 (MP2)", 0.625%float)] = Some value ->
      dict_get label report = Some value /\
      variables (snd demo_run) !! label = Some value.
Proof.
  eapply (mp2_entries_win (Demo.engine None) "sapt(dft)" Demo.no_kwargs
                          demo_world _ _ SAPT).
  - vm_compute. reflexivity.
  - vm_compute. left. reflexivity.
  - apply NoDup_singleton.
Defined.

(** *** The calls to the collaborators, in order *)

Lemma engine_calls_publish_events d : engine_calls (publish_events d) = [].
Proof. unfold engine_calls. by induction d as [|[k v] d IH]. Qed.

(** X11: the collaborators a successful run calls after the primary
    functional is set, in order, each with what an earlier one returned:
    the two monomer calculations, the cache built from their two
    wavefunctions, the electrostatics, exchange and induction
    evaluators on that cache (induction with the SAPT module's MAXITER
    and D_CONVERGENCE), the auxiliary basis, the FDDS dispersion on the
    same cache, the selected MP2 dispersion evaluator (the SAPT variant
    is handed the wavefunction the run returns) and the final summary. *)
Theorem primary_calls_in_order eng name kwargs w ret w' :
  run_sapt_dft eng name kwargs w = (Ok ret, w') ->
  let o := options w in
  let sapt_dimer := sapt_dimer_of kwargs (active_molecule w) in
  exists wfn_A wfn_B cache elst exch ind aux fdds mp2 report text,
    engine_calls (primary_pass (new_events w w')) =
    [EvScfHelper (monomerA_of sapt_dimer) "SAPT(DFT): DFT Monomer A"
                 (Some wfn_A);
     EvScfHelper (monomerB_of sapt_dimer) "SAPT(DFT): DFT Monomer B"
                 (Some wfn_B);
     EvBuildCache wfn_A wfn_B (Some cache);
     EvElectrostatics cache (Some elst);
     EvExchange cache (Some exch);
     EvInduction cache (opt_get o "SAPT" "MAXITER")
                 (opt_get o "SAPT" "D_CONVERGENCE") (Some ind);
     EvBasisBuild sapt_dimer (Some aux);
     EvFddsDispersion cache (Some fdds);
     match selected_variant o with
     | FISAPT => EvMp2FisaptDispersion wfn_A (Some mp2)
     | SAPT => EvMp2SaptDispersion ret wfn_A wfn_B (Some mp2)
     end;
     EvDftSummary report "SAPT(DFT)" (Some text)].
Proof.
  intros Hrun o sapt_dimer.
  apply run_sapt_dft_ok in Hrun as (_ & h & p & -> & -> & _).
  fold o sapt_dimer.
  exists (p_wfn_A p), (p_wfn_B p), (t_cache (p_terms p)),
    (t_elst (p_terms p)), (t_exch (p_terms p)), (t_ind (p_terms p)),
    (p_aux_basis p), (p_fdds p), (p_mp2 p),
    (report_of_run (does_delta_hf o) h p), (p_text p).
  rewrite primary_pass_run_events.
  unfold engine_calls, interaction_events.
  rewrite !List.filter_app. fold (engine_calls (publish_events
    (report_of_run (does_delta_hf o) h p))).
  rewrite engine_calls_publish_events.
  unfold dft_monomers_events, shift_events, relabel_events, terms_events,
    mp2_event, selected_variant.
  by destruct (uses_df o), (py_truthy (mon_a_shift_of o)),
    (py_truthy (mon_b_shift_of o)),
    (py_eq_str (opt_get o "SAPT" "SAPT_DFT_MP2_DISP_ALG") "FISAPT").
Qed.

Lemma primary_calls_in_order_witness :
  exists wfn_A wfn_B cache elst exch ind aux fdds mp2 report text,
    engine_calls (primary_pass (new_events demo_world (snd demo_run))) =
    [EvScfHelper Demo.monomerA "SAPT(DFT): DFT Monomer A" (Some wfn_A);
     EvScfHelper Demo.monomerB "SAPT(DFT): DFT Monomer B" (Some wfn_B);
     EvBuildCache wfn_A wfn_B (Some cache);
     EvElectrostatics cache (Some elst);
     EvExchange cache (Some exch);
     EvInduction cache (VInt 50) (VDouble 0x1p-27) (Some ind);
     EvBasisBuild Demo.sapt_dimer (Some aux);
     EvFddsDispersion cache (Some fdds);
     EvMp2SaptDispersion
       (mkWavefunction Demo.sapt_dimer "cc-pvdz" (Some 1) 10) wfn_A wfn_B
       (Some mp2);
     EvDftSummary report "SAPT(DFT)" (Some text)].
Proof.
  eapply (primary_calls_in_order (Demo.engine None) "sapt(dft)"
            Demo.no_kwargs demo_world).
  vm_compute. reflexivity.
Defined.

(** X12: the collaborators a successful run calls before the primary
    functional is set.  With the delta HF pass: the three
    sub-calculations, the cache built from the two monomer
    wavefunctions, the three term evaluators on that cache and the HF
    summary; the dimer's wavefunction is what the run returns.  Without
    it: the bare construction of the wavefunction the run returns, from
    the dimer and the BASIS option, and nothing else. *)
Theorem auxiliary_calls_in_order eng name kwargs w ret w' :
  run_sapt_dft eng name kwargs w = (Ok ret, w') ->
  let o := options w in
  let sapt_dimer := sapt_dimer_of kwargs (active_molecule w) in
  (does_delta_hf o = true ->
   exists wfn_A wfn_B cache elst exch ind hf_data delta text,
     engine_calls (auxiliary_pass (new_events w w')) =
     [EvScfHelper sapt_dimer "SAPT(DFT): delta HF Dimer" (Some ret);
      EvScfHelper (monomerA_of sapt_dimer) "SAPT(DFT): delta HF Monomer A"
                  (Some wfn_A);
      EvScfHelper (monomerB_of sapt_dimer) "SAPT(DFT): delta HF Monomer B"
                  (Some wfn_B);
      EvBuildCache wfn_A wfn_B (Some cache);
      EvElectrostatics cache (Some elst);
      EvExchange cache (Some exch);
      EvInduction cache (opt_get o "SAPT" "MAXITER")
                  (opt_get o "SAPT" "D_CONVERGENCE") (Some ind);
      EvHfSummary hf_data "SAPT(HF)" delta (Some text)]) /\
  (does_delta_hf o = false ->
   engine_calls (auxiliary_pass (new_events w w')) =
   [EvWavefunctionBuild sapt_dimer (opt_get_global o "BASIS") (Some ret)]).
Proof.
  intros Hrun o sapt_dimer.
  apply run_sapt_dft_ok in Hrun as (_ & h & p & -> & -> & _).
  fold o sapt_dimer.
  rewrite auxiliary_pass_run_events. fold sapt_dimer.
  unfold engine_calls, entry_events, dimer_wfn_of.
  split; intros ->.
  - exists (hf_wfn_A h), (hf_wfn_B h), (t_cache (hf_terms h)),
      (t_elst (hf_terms h)), (t_exch (hf_terms h)), (t_ind (hf_terms h)),
      (hf_data_of h), (dhf_value_of h), (hf_text h).
    unfold delta_hf_events, relabel_events, terms_events.
    by destruct (opt_changed o "SCF" "SCF_TYPE"), (uses_df o).
  - by destruct (opt_changed o "SCF" "SCF_TYPE"), (uses_df o).
Qed.

Lemma auxiliary_calls_in_order_witness :
  (exists wfn_A wfn_B cache elst exch ind hf_data delta text,
     engine_calls (auxiliary_pass (new_events demo_world (snd demo_run))) =
     [EvScfHelper Demo.sapt_dimer "SAPT(DFT): delta HF Dimer"
                  (Some (mkWavefunction Demo.sapt_dimer "cc-pvdz" (Some 1)
                                        10));
      EvScfHelper Demo.monomerA "SAPT(DFT): delta HF Monomer A" (Some wfn_A);
      EvScfHelper Demo.monomerB "SAPT(DFT): delta HF Monomer B" (Some wfn_B);
      EvBuildCache wfn_A wfn_B (Some cache);
      EvElectrostatics cache (Some elst);
      EvExchange cache (Some exch);
      EvInduction cache (VInt 50) (VDouble 0x1p-27) (Some ind);
      EvHfSummary hf_data "SAPT(HF)" delta (Some text)]) /\
  engine_calls (auxiliary_pass
                  (new_events demo_world_no_dhf (snd demo_run_no_dhf))) =
  [EvWavefunctionBuild Demo.sapt_dimer (VStr "")
                       (Some (mkWavefunction Demo.sapt_dimer "cc-pvdz" None
                                             0))].
Proof.
  split.
  - eapply (auxiliary_calls_in_order (Demo.engine None) "sapt(dft)"
              Demo.no_kwargs demo_world);
      vm_compute; reflexivity.
  - eapply (auxiliary_calls_in_order (Demo.engine None) "sapt(dft)"
              Demo.no_kwargs demo_world_no_dhf);
      vm_compute; reflexivity.
Defined.

(** *** The shift guards once validation has passed *)

Lemma py_truthy_not_zero v :
  is_str v = false -> py_truthy v = negb (py_eq_zero v).
Proof. destruct v; simpl; try done. by destruct b. Qed.

(** X13: for a functional other than "HF" the gate of line 109 has let
    through only shifts different from 0.0, so in a successful run both
    guards [if mon_a_shift:] and [if mon_b_shift:] hold: each monomer
    calculation of the primary pass is preceded by the write of its
    shift and followed by the reset. *)
Theorem both_shifts_written eng name kwargs w ret w' :
  run_sapt_dft eng name kwargs w = (Ok ret, w') ->
  let o := options w in
  let sapt_dimer := sapt_dimer_of kwargs (active_molecule w) in
  py_eq_str (opt_get o "SAPT" "SAPT_DFT_FUNCTIONAL") "HF" = false ->
  is_str (mon_a_shift_of o) = false ->
  is_str (mon_b_shift_of o) = false ->
  shift_steps (primary_pass (new_events w w')) =
  [SetShift (mon_a_shift_of o);
   Calculation (monomerA_of sapt_dimer) true;
   SetShift (VDouble 0);
   SetShift (mon_b_shift_of o);
   Calculation (monomerB_of sapt_dimer) true;
   SetShift (VDouble 0)].
Proof.
  intros Hrun o sapt_dimer Hf Ha Hb.
  destruct (shift_steps_of_successful_run _ _ _ _ _ _ Hrun) as [-> _].
  apply run_sapt_dft_ok in Hrun as (Hvalid & _).
  fold o sapt_dimer in Hvalid |- *.
  unfold entry_validation, validation_failure in Hvalid.
  rewrite Hf in Hvalid. simpl in Hvalid.
  destruct (py_eq_zero (mon_a_shift_of o)) eqn:Ea; [done|].
  destruct (py_eq_zero (mon_b_shift_of o)) eqn:Eb; [done|].
  unfold primary_shift_steps, shift_override.
  rewrite !py_truthy_not_zero, Ea, Eb by done. done.
Qed.

Lemma both_shifts_written_witness :
  shift_steps (primary_pass (new_events demo_world (snd demo_run))) =
  [SetShift (mon_a_shift_of (options demo_world));
   Calculation
     (monomerA_of (sapt_dimer_of Demo.no_kwargs
                                 (active_molecule demo_world))) true;
   SetShift (VDouble 0);
   SetShift (mon_b_shift_of (options demo_world));
   Calculation
     (monomerB_of (sapt_dimer_of Demo.no_kwargs
                                 (active_molecule demo_world))) true;
   SetShift (VDouble 0)].
Proof.
  eapply (both_shifts_written (Demo.engine None) "sapt(dft)"
            Demo.no_kwargs demo_world);
    vm_compute; reflexivity.
Defined.

(** *** Keyword arguments that clash with the driver's own *)

Lemma run_kwargs_clash eng name kwargs o vs am ns tr :
  fmt_f_error (mon_a_shift_of o) = None ->
  fmt_f_error (mon_b_shift_of o) = None ->
  entry_validation o (sapt_dimer_of kwargs am) = None ->
  kwargs_clash (kwargs_passed kwargs am) = true ->
  wp (run_sapt_dft eng name kwargs) (mkWorld o vs am ns tr)
     (fun r w' =>
        scf_calls (drop (length tr) (trace w')) = [] /\
        (r = Raise (TypeError msg_multiple_values) \/
         does_delta_hf o = false /\
         exists exn,
           r = Raise exn /\
           last (drop (length tr) (trace w')) =
           Some (EvWavefunctionBuild (sapt_dimer_of kwargs am)
                                     (opt_get_global o "BASIS") None))).
Proof.
  intros Ha Hb Hval Hclash.
  unfold mon_a_shift_of, mon_b_shift_of, does_delta_hf in *.
  apply wp_start. unfold run_sapt_dft.
  repeat first [ wp_step | apply wp_get_sapt_dimer ].
  all: unfold wp at 1; rewrite validate_run;
    cbn [options fst snd]; norm_opts;
    unfold entry_validation, mon_a_shift_of, mon_b_shift_of in Hval;
    rewrite Hval; cbn [fst snd].
  all: unfold delta_hf_segment, dft_monomers.
  all: repeat wp_step.
  all: cbn [trace]; split;
    [ rewrite drop_app_length; cbn [rev concat app]; reflexivity | ].
  all: first
         [ left; reflexivity
         | right; split; [assumption|];
           eexists; split; [reflexivity|];
           rewrite drop_app_length; cbn [rev concat app]; reflexivity ].
Qed.

(** X14: [scf_helper] is called with [molecule=] and [banner=] next to
    [**kwargs], and [molecule] is taken out of the keyword arguments
    only when no [ref_wfn] is given.  So when the caller passes
    [molecule] together with [ref_wfn], or passes [banner], an input
    that passes validation (its GRAC shifts being values the banner can
    format) never reaches the SCF engine: the first
    sub-calculation raises a TypeError at the call - after the run has
    written SAVE_JK and, without the delta HF pass, after it has built
    the dimer wavefunction and written the functional, the reference
    and the shift. *)
Theorem clashing_kwargs_raise eng name kwargs w r w' :
  fmt_f_error (mon_a_shift_of (options w)) = None ->
  fmt_f_error (mon_b_shift_of (options w)) = None ->
  entry_validation (options w) (sapt_dimer_of kwargs (active_molecule w))
  = None ->
  (kw_ref_wfn kwargs <> None /\ kw_molecule kwargs <> None) \/
  In "banner" (kw_other kwargs) ->
  run_sapt_dft eng name kwargs w = (r, w') ->
  scf_calls (new_events w w') = [] /\
  (r = Raise (TypeError msg_multiple_values) \/
   does_delta_hf (options w) = false /\
   exists exn, r = Raise exn /\
               exists mol basis,
                 last (new_events w w') =
                 Some (EvWavefunctionBuild mol basis None)).
Proof.
  intros Ha Hb Hval Hkw Hrun. destruct w as [o vs am ns tr].
  cbn [options active_molecule] in *.
  assert (kwargs_clash (kwargs_passed kwargs am) = true) as Hclash.
  { clear -Hkw. destruct kwargs as [ref mol other].
    unfold kwargs_clash, kwargs_passed, pick_molecule, kwargs_pop_molecule.
    cbn [kw_ref_wfn kw_molecule kw_other] in *.
    destruct Hkw as [[Href Hmol]|Hbanner].
    - by destruct ref, mol.
    - assert (existsb (String.eqb "banner") other = true) as Hex.
      { apply existsb_exists. exists "banner". split; [done|].
        apply String.eqb_refl. }
      by destruct ref, mol. }
  destruct (wp_elim _ _ _ _ _
              (run_kwargs_clash eng name kwargs o vs am ns tr
                                Ha Hb Hval Hclash) Hrun)
    as [Hscf Hr].
  split; [exact Hscf|].
  destruct Hr as [->|(Hdhf & exn & -> & Hlast)]; [by left|].
  right. split; [done|]. exists exn. split; [done|].
  by eexists _, _.
Qed.

(** In the example the SCF engine is never called and the run raises
    the TypeError. *)
Lemma clashing_kwargs_raise_witness :
  scf_calls
    (new_events demo_world
       (snd (run_sapt_dft (Demo.engine None) "sapt(dft)"
                          kwargs_with_molecule_and_ref_wfn demo_world)))
  = [] /\
  (fst (run_sapt_dft (Demo.engine None) "sapt(dft)"
                     kwargs_with_molecule_and_ref_wfn demo_world)
   = Raise (TypeError msg_multiple_values) \/
   does_delta_hf (options demo_world) = false /\
   exists exn,
     fst (run_sapt_dft (Demo.engine None) "sapt(dft)"
                       kwargs_with_molecule_and_ref_wfn demo_world)
     = Raise exn /\
     exists mol basis,
       last (new_events demo_world
               (snd (run_sapt_dft (Demo.engine None) "sapt(dft)"
                                  kwargs_with_molecule_and_ref_wfn
                                  demo_world))) =
       Some (EvWavefunctionBuild mol basis None)).
Proof.
  apply (clashing_kwargs_raise (Demo.engine None) "sapt(dft)"
           kwargs_with_molecule_and_ref_wfn demo_world).
  - vm_compute. reflexivity.
  - vm_compute. reflexivity.
  - vm_compute. reflexivity.
  - left. split; discriminate.
  - vm_compute. reflexivity.
Defined.



(** *** What a run leaves in the option store, whatever its outcome *)

Ltac written_side :=
  try solve
      [ exact Logic.I
      | reflexivity
      | intros; assumption
      | unfold written_inv; simpl; intros ? [? ?]; split; intros;
        rewrite ?opt_get_global_set_local,
          ?opt_get_global_set_global_eq,
          ?opt_get_set_local_eq;
        try rewrite opt_get_global_set_global_ne by discriminate;
        try rewrite opt_get_set_global_ne by discriminate;
        try rewrite opt_get_set_local_ne by discriminate;
        auto; discriminate ].

Lemma run_written eng name kwargs :
  triple written_next (fun _ _ => True) written_inv (false, false)
         (run_sapt_dft eng name kwargs)
         (fun _ s => s = (true, true)) (fun _ => True).
Proof.
  t_unfold. t_run ltac:(written_side) ltac:(fail).
Qed.

Lemma written_final evs s :
  final written_next s evs =
  (fst s || existsb is_save_jk_write evs,
   snd s || existsb is_reference_write evs).
Proof.
  revert s. induction evs as [|e evs IH]; intros [jk ref]; simpl.
  - by rewrite !orb_false_r.
  - unfold final in *. simpl. rewrite IH.
    destruct e; simpl; try done.
    + by destruct (String.eqb module "SCF" && String.eqb key "REFERENCE"),
        ref.
    + by destruct (String.eqb key "SAVE_JK"), jk.
Qed.

(** X15: the run never takes a write back, whatever its outcome: once
    it has set SAVE_JK, SAVE_JK is True when it returns or raises, and
    once it has set the reference of the SCF module for the primary
    pass, that reference is "RKS" when it returns or raises. *)
Theorem writes_are_not_taken_back eng name kwargs w r w' :
  run_sapt_dft eng name kwargs w = (r, w') ->
  (existsb is_save_jk_write (new_events w w') = true ->
   opt_get_global (options w') "SAVE_JK" = VBool true) /\
  (existsb is_reference_write (new_events w w') = true ->
   opt_get (options w') "SCF" "REFERENCE" = VStr "RKS").
Proof.
  intros Hrun.
  assert (written_inv (false, false) (options w)) as Hinv
      by (by split).
  destruct (triple_elim _ _ _ _ _ _ _ _ _ _
              (run_written eng name kwargs) Hinv Hrun)
    as (_ & [Hjk Href] & _).
  rewrite written_final in Hjk, Href. simpl in Hjk, Href.
  by split.
Qed.

(** The example run that fails in the primary pass: the caller's "RHF"
    has become "RKS". *)
Lemma writes_are_not_taken_back_witness :
  opt_get_global (options (snd demo_run_scf_failure)) "SAVE_JK" = VBool true /\
  opt_get (options (snd demo_run_scf_failure)) "SCF" "REFERENCE" = VStr "RKS".
Proof.
  destruct (writes_are_not_taken_back
              (Demo.engine (Some "SAPT(DFT): DFT Monomer A")) "sapt(dft)"
              Demo.no_kwargs demo_world
              (fst demo_run_scf_failure) (snd demo_run_scf_failure))
    as [Hjk Href]; [vm_compute; reflexivity|].
  split; [apply Hjk|apply Href]; vm_compute; reflexivity.
Defined.

(** *** One run after another *)

Lemma opt_get_final_options o module key :
  "SAVE_JK" <> key -> "DF_INTS_IO" <> key -> "DFT_GRAC_SHIFT" <> key ->
  "DFT_FUNCTIONAL" <> key -> module <> "SCF" ->
  opt_get (final_options o) module key = opt_get o module key.
Proof.
  intros H1 H2 H3 H4 H5. unfold final_options.
  rewrite opt_get_dft_monomers_options_ne by (done || by intros [= ?]).
  rewrite !opt_get_set_if_global_ne, opt_get_set_global_ne by done.
  unfold entry_options.
  destruct (opt_changed o "SCF" "SCF_TYPE"); [done|].
  rewrite opt_get_set_local_ne; [done|]. by intros [= ?].
Qed.

Lemma opt_get_final_options_reference o :
  opt_get (final_options o) "SCF" "REFERENCE" = VStr "RKS".
Proof.
  unfold final_options, dft_monomers_options.
  rewrite opt_get_set_global_ne, opt_get_set_if_global_ne,
    opt_get_set_global_ne, opt_get_set_if_global_ne by done.
  apply opt_get_set_local_eq.
Qed.

(** X16: a successful run leaves the reference of the SCF module at
    "RKS" and nothing restores it, so the next run on the store it
    leaves stops at the reference gate - whatever its engine and
    keyword arguments - before it calls any collaborator. *)
Theorem second_run_fails_validation eng name kwargs w ret w'
        eng2 name2 kwargs2 :
  run_sapt_dft eng name kwargs w = (Ok ret, w') ->
  exists w'',
    run_sapt_dft eng2 name2 kwargs2 w' =
      (Raise (ValidationError msg_reference), w'') /\
    engine_calls (new_events w' w'') = [].
Proof.
  intros Hrun. destruct w as [o vs am ns tr].
  destruct (wp_elim _ _ _ _ _ (run_sapt_dft_store eng name kwargs o vs am ns tr)
                    Hrun ret eq_refl)
    as (Hvalid & Ha & Hb & h & p & vs' & _ & _ & _ & _ & Hopt).
  eexists. split.
  - apply run_validation_failure;
      unfold mon_a_shift_of, mon_b_shift_of, entry_validation;
      rewrite Hopt;
      rewrite ?opt_get_final_options by done; [done..|].
    rewrite opt_get_final_options_reference.
    unfold entry_validation, validation_failure, mon_a_shift_of,
      mon_b_shift_of in *.
    rewrite !opt_get_final_options by done.
    by destruct (negb (py_eq_str (opt_get o "SAPT" "SAPT_DFT_FUNCTIONAL")
                                 "HF")
                 && (py_eq_zero (opt_get o "SAPT" "SAPT_DFT_GRAC_SHIFT_A")
                     || py_eq_zero (opt_get o "SAPT" "SAPT_DFT_GRAC_SHIFT_B"))).
  - erewrite new_events_app by reflexivity.
    apply engine_calls_entry_events.
Qed.

Lemma second_run_fails_validation_witness :
  exists w'',
    run_sapt_dft (Demo.engine None) "sapt(dft)" Demo.no_kwargs
                 (snd demo_run) =
      (Raise (ValidationError msg_reference), w'') /\
    engine_calls (new_events (snd demo_run) w'') = [].
Proof.
  eapply (second_run_fails_validation (Demo.engine None) "sapt(dft)"
            Demo.no_kwargs demo_world).
  vm_compute. reflexivity.
Defined.
